(** * SuperAgent: the RAG pipeline scripts, embedded and verified

    The repository is three Python scripts:

    - [Legislacao.py]  (Corpus Builder): portal request, bracket slicing,
      JSON decoding, recursive row extraction, embedding, FAISS index and
      metadata files;
    - [BuscaFaiss.py]  (Retriever): load index and metadata, k-nearest
      neighbour query, rank and distance annotation, formatted block;
    - [LLM.py]         (Term Extractor, Report Generator and the driver):
      two Gemini calls, two subprocess stages, PDF rendering.

    Each script is a module below.  Python values are the tagged union
    [json]; a Python [str] is a Rocq [string] holding its UTF-8 bytes; what
    the scripts obtain from libraries and from the outside world (the JSON
    decoder, the sentence-embedding model, the portal, Gemini, the file
    system's willingness to write) is a variable of the enclosing section. *)

From Stdlib Require Import ZArith QArith String Ascii List Lia Bool DecimalString.
From stdpp Require Import base list strings gmap sorting.

Close Scope Q_scope.
Open Scope string_scope.
Open Scope list_scope.
Set Warnings "-register-all".

(* ===================================================================== *)
(** * Python values and the few built-ins the scripts use                 *)
(* ===================================================================== *)

Module Py.

(** What [json.loads] returns and what the scripts put into dictionaries:
    [None], [bool], [int], [float], [str], [list], [dict].  A [dict] keeps
    its insertion order (the extraction below depends on it), so it is an
    association list.  A finite [float] is the rational it denotes; the
    scripts only test floats for truth, compare and print them.  The
    interpreter's recursion limit is not modelled. *)
Inductive json : Type :=
| JNull
| JBool (b : bool)
| JInt (z : Z)
| JFloat (q : Q)
| JStr (s : string)
| JList (xs : list json)
| JDict (kvs : list (string * json)).

Definition pydict : Type := list (string * json).

(** The exceptions that the modelled code can raise. *)
Inductive exc : Type :=
| AttributeError
| IndexError
| KeyError
| TypeError
| ValueError
| AssertionError
| JSONDecodeError
| OtherError.

(** A computation that returns or raises. *)
Inductive result (A : Type) : Type :=
| Ok (a : A)
| Raise (e : exc).
Arguments Ok {A} a.
Arguments Raise {A} e.

(** How a script ends: [sys.exit(code)] or falling off the end (code 0),
    or an exception nobody catches. *)
Inductive termino : Type :=
| Saiu (codigo : nat)
| Excecao (e : exc).

Definition bind {A B : Type} (m : result A) (k : A -> result B) : result B :=
  match m with
  | Ok a => k a
  | Raise e => Raise e
  end.

Notation "'let*' x ':=' m 'in' k" := (bind m (fun x => k))
  (at level 10, x pattern, m at level 100, k at level 200).

(** [bool(v)]: Python truth of a value. *)
Definition truthy (v : json) : bool :=
  match v with
  | JNull => false
  | JBool b => b
  | JInt z => negb (z =? 0)%Z
  | JFloat q => negb (Qeq_bool q 0)
  | JStr s => negb (String.eqb s "")
  | JList xs => match xs with [] => false | _ => true end
  | JDict kvs => match kvs with [] => false | _ => true end
  end.

(** [d.get(k)]: the first (and, in a Python dict, only) value under [k],
    [None] when the key is absent. *)
Fixpoint dict_lookup (k : string) (d : pydict) : option json :=
  match d with
  | [] => None
  | (k', v) :: d' => if String.eqb k' k then Some v else dict_lookup k d'
  end.

Definition dict_get (k : string) (d : pydict) : json :=
  default JNull (dict_lookup k d).

(** [d[k] = v]: overwrite in place when the key exists, append otherwise. *)
Fixpoint dict_set (k : string) (v : json) (d : pydict) : pydict :=
  match d with
  | [] => [(k, v)]
  | (k', v') :: d' =>
      if String.eqb k' k then (k', v) :: d' else (k', v') :: dict_set k v d'
  end.

(** [l[i]] for a Python list and a (possibly negative) integer. *)
Definition list_index {A : Type} (l : list A) (i : Z) : result A :=
  let n := Z.of_nat (length l) in
  let j := if (i <? 0)%Z then (n + i)%Z else i in
  if (j <? 0)%Z then Raise IndexError
  else match l !! Z.to_nat j with
       | Some x => Ok x
       | None => Raise IndexError
       end.

(** The line feed as a one-character string. *)
Definition nl : string := String (ascii_of_nat 10) EmptyString.

(** [s.find(c)] and [s.rfind(c)] for a one-character needle: the index of
    the first (last) occurrence, [-1] when there is none.  The index counts
    bytes where Python counts characters; the scripts only slice at the
    indices of [[] and []], single bytes that are part of no longer
    sequence, so the slices are the same texts. *)
Fixpoint find_from (c : ascii) (s : string) (i : Z) : Z :=
  match s with
  | EmptyString => (-1)%Z
  | String a s' => if Ascii.eqb a c then i else find_from c s' (i + 1)%Z
  end.

Definition find (c : ascii) (s : string) : Z := find_from c s 0.

Fixpoint rfind_from (c : ascii) (s : string) (i : Z) (last : Z) : Z :=
  match s with
  | EmptyString => last
  | String a s' =>
      rfind_from c s' (i + 1)%Z (if Ascii.eqb a c then i else last)
  end.

Definition rfind (c : ascii) (s : string) : Z := rfind_from c s 0 (-1).

(** Whether a character occurs in a string. *)
Fixpoint ocorre (c : ascii) (s : string) : bool :=
  match s with
  | EmptyString => false
  | String a s' => Ascii.eqb a c || ocorre c s'
  end.

(** The first and the last place at which a character stands in a string. *)
Definition primeira (c : ascii) (s : string) (i : nat) : Prop :=
  String.get i s = Some c /\ forall m, m < i -> String.get m s <> Some c.

Definition ultima (c : ascii) (s : string) (j : nat) : Prop :=
  String.get j s = Some c /\ forall m, j < m -> String.get m s <> Some c.

(** A value in which no list occurs. *)
Fixpoint sem_listas (v : json) : bool :=
  match v with
  | JList _ => false
  | JDict kvs =>
      (fix campos (kvs : list (string * json)) : bool :=
         match kvs with
         | [] => true
         | (_, x) :: resto => sem_listas x && campos resto
         end) kvs
  | _ => true
  end.

(** [s[a:b]] for [0 <= a] and [0 <= b]. *)
Definition slice (s : string) (a b : Z) : string :=
  String.substring (Z.to_nat a) (Z.to_nat b - Z.to_nat a) s.

(** [needle in s]. *)
Fixpoint contains (needle s : string) : bool :=
  String.prefix needle s ||
  match s with
  | EmptyString => false
  | String _ s' => contains needle s'
  end.

(** [str.strip()] removes the characters for which [str.isspace()] holds.
    On UTF-8 bytes these are the following sequences: U+0009..U+000D,
    U+001C..U+0020, U+0085, U+00A0, U+1680, U+2000..U+200A, U+2028, U+2029,
    U+202F, U+205F and U+3000. *)
Definition bytes (l : list nat) : string :=
  string_of_list_ascii (map ascii_of_nat l).

Definition whitespace : list string :=
  map bytes
    ([[9]; [10]; [11]; [12]; [13]; [28]; [29]; [30]; [31]; [32];
      [194; 133]; [194; 160]; [225; 154; 128]]
     ++ map (fun b => [226; 128; b]) (seq 128 11)
     ++ [[226; 128; 168]; [226; 128; 169]; [226; 128; 175];
         [226; 129; 159]; [227; 128; 128]]).

(** The rest of [s] after one leading whitespace character, if any. *)
Fixpoint drop_one (ws : list string) (s : string) : option string :=
  match ws with
  | [] => None
  | w :: ws' =>
      if String.prefix w s
      then Some (String.substring (String.length w)
                   (String.length s - String.length w) s)
      else drop_one ws' s
  end.

Fixpoint lstrip_fuel (n : nat) (ws : list string) (s : string) : string :=
  match n with
  | O => s
  | S n' => match drop_one ws s with
            | Some s' => lstrip_fuel n' ws s'
            | None => s
            end
  end.

Definition lstrip_with (ws : list string) (s : string) : string :=
  lstrip_fuel (String.length s) ws s.

Definition rev_string (s : string) : string :=
  string_of_list_ascii (rev (list_ascii_of_string s)).

Definition strip (s : string) : string :=
  rev_string
    (lstrip_with (map rev_string whitespace)
       (rev_string (lstrip_with whitespace s))).

(** [str(n)] for a natural number. *)
Definition str_nat (n : nat) : string := NilEmpty.string_of_uint (Nat.to_uint n).

(** Number of constructors of a value: the measure behind [json_nested]. *)
Fixpoint peso (v : json) : nat :=
  match v with
  | JList xs => S (list_sum (map peso xs))
  | JDict kvs => S (list_sum (map (fun kv => peso kv.2) kvs))
  | _ => 1
  end.

End Py.

(* ===================================================================== *)
(** * The files the two scripts share                                     *)
(* ===================================================================== *)

Module Disco.
Import Py.

(** A FAISS flat index: its dimension and the vectors added, in order.
    [ntotal] is their number. *)
Record indice : Type := Indice { dimensao_de : nat; vetores_de : list (list Q) }.

Definition ntotal (ix : indice) : nat := length (vetores_de ix).

(** A file holds what was written to it.  [faiss.write_index] followed by
    [faiss.read_index], and [json.dump] followed by [json.load], give back
    the value written, so a file is kept as that value.  A write that is
    interrupted leaves an empty or incomplete file, which neither
    [faiss.read_index] nor [json.load] accepts. *)
Inductive arquivo : Type :=
| ArqFaiss (ix : indice)
| ArqJson (v : json)
| ArqIncompleto.

Abbreviation disco := (gmap string arquivo).

End Disco.

(* ===================================================================== *)
(** * Legislacao.py: the Corpus Builder                                   *)
(* ===================================================================== *)

Module Legislacao.
Import Py Disco.

(** One extracted row, the dictionary [{'id', 'path', 'conteudo'}]. *)
Record resultado : Type := Resultado {
  res_id : nat;
  res_path : json;
  res_conteudo : string
}.

Section Extracao.

(** [str(v)] of a value that is not a string (Python's [repr]). *)
Variable py_repr : json -> string.

Definition str (v : json) : string :=
  match v with
  | JStr s => s
  | _ => py_repr v
  end.

(** [f"PATH: {path}\nCONTEÚDO: {conteudo}"] *)
Definition texto_concatenado (path conteudo : json) : string :=
  "PATH: " +:+ str path +:+ nl +:+ "CONTEÚDO: " +:+ str conteudo.

(** The loop [for row in valor] of [buscar_result_rows]: [row.get] exists
    on dictionaries only; a row is kept when both values are truthy. *)
Fixpoint linhas (valor : list json) (resultados_extraidos : list resultado)
  : result (list resultado) :=
  match valor with
  | [] => Ok resultados_extraidos
  | row :: resto =>
      match row with
      | JDict campos =>
          let path := dict_get "Path" campos in
          let conteudo := dict_get "PublishingPageContentOWSHTML" campos in
          if truthy path && truthy conteudo
          then linhas resto
                 (resultados_extraidos ++
                    [Resultado (length resultados_extraidos) path
                       (texto_concatenado path conteudo)])
          else linhas resto resultados_extraidos
      | _ => Raise AttributeError
      end
  end.

(** [chave == 'ResultRows' and isinstance(valor, list)] *)
Definition result_rows (chave : string) (valor : json) : option (list json) :=
  match valor with
  | JList rows => if String.eqb chave "ResultRows" then Some rows else None
  | _ => None
  end.

(** The inner function [buscar_result_rows], with the list it appends to
    passed along.  In a dictionary the [return] after a [ResultRows] list
    leaves the whole call: the entries that follow are not looked at. *)
Fixpoint buscar_result_rows (item : json) (resultados_extraidos : list resultado)
  {struct item} : result (list resultado) :=
  match item with
  | JDict kvs =>
      (fix itens (kvs : pydict) (acc : list resultado) {struct kvs}
         : result (list resultado) :=
         match kvs with
         | [] => Ok acc
         | (chave, valor) :: resto =>
             match result_rows chave valor with
             | Some rows => linhas rows acc
             | None =>
                 match buscar_result_rows valor acc with
                 | Ok acc' => itens resto acc'
                 | Raise e => Raise e
                 end
             end
         end) kvs resultados_extraidos
  | JList xs =>
      (fix elementos (xs : list json) (acc : list resultado) {struct xs}
         : result (list resultado) :=
         match xs with
         | [] => Ok acc
         | elemento :: resto =>
             match buscar_result_rows elemento acc with
             | Ok acc' => elementos resto acc'
             | Raise e => Raise e
             end
         end) xs resultados_extraidos
  | _ => Ok resultados_extraidos
  end.

Definition extrair_resultados_recursivamente (dados : json)
  : result (list resultado) :=
  buscar_result_rows dados [].

(** ** The extraction as the specification words it *)

(** The two fields of a row the extraction keeps: its path and the
    concatenated text; [None] for a row it skips. *)
Definition campos_da_linha (row : json) : option (json * string) :=
  match row with
  | JDict campos =>
      let path := dict_get "Path" campos in
      let conteudo := dict_get "PublishingPageContentOWSHTML" campos in
      if truthy path && truthy conteudo
      then Some (path, texto_concatenado path conteudo)
      else None
  | _ => None
  end.

Definition linhas_validas (rows : list json) : list (json * string) :=
  omap campos_da_linha rows.

(** Every dictionary and list that is not inside a matched [ResultRows]
    array is visited, in order; a matched array contributes its valid rows
    and is not entered. *)
Fixpoint travessia (item : json) : list (json * string) :=
  match item with
  | JDict kvs =>
      (fix itens (kvs : pydict) : list (json * string) :=
         match kvs with
         | [] => []
         | (chave, valor) :: resto =>
             match result_rows chave valor with
             | Some rows => linhas_validas rows
             | None => travessia valor
             end ++ itens resto
         end) kvs
  | JList xs =>
      (fix elementos (xs : list json) : list (json * string) :=
         match xs with
         | [] => []
         | elemento :: resto => travessia elemento ++ elementos resto
         end) xs
  | _ => []
  end.

(** The same traversal, except that a dictionary is left at its first
    [ResultRows] list. *)
Fixpoint visita (item : json) : list (json * string) :=
  match item with
  | JDict kvs =>
      (fix itens (kvs : pydict) : list (json * string) :=
         match kvs with
         | [] => []
         | (chave, valor) :: resto =>
             match result_rows chave valor with
             | Some rows => linhas_validas rows
             | None => visita valor ++ itens resto
             end
         end) kvs
  | JList xs =>
      (fix elementos (xs : list json) : list (json * string) :=
         match xs with
         | [] => []
         | elemento :: resto => visita elemento ++ elementos resto
         end) xs
  | _ => []
  end.

Definition eh_dict (v : json) : bool :=
  match v with JDict _ => true | _ => false end.

(** Every row of every [ResultRows] array the extraction reaches is a
    dictionary. *)
Fixpoint linhas_sao_dicts (item : json) : bool :=
  match item with
  | JDict kvs =>
      (fix itens (kvs : pydict) : bool :=
         match kvs with
         | [] => true
         | (chave, valor) :: resto =>
             match result_rows chave valor with
             | Some rows => forallb eh_dict rows
             | None => linhas_sao_dicts valor && itens resto
             end
         end) kvs
  | JList xs =>
      (fix elementos (xs : list json) : bool :=
         match xs with
         | [] => true
         | elemento :: resto => linhas_sao_dicts elemento && elementos resto
         end) xs
  | _ => true
  end.

(** Rows numbered from [n] on, as the extraction numbers them. *)
Fixpoint numerar (n : nat) (l : list (json * string)) : list resultado :=
  match l with
  | [] => []
  | (path, texto) :: l' => Resultado n path texto :: numerar (S n) l'
  end.

Definition campos (r : resultado) : json * string :=
  (res_path r, res_conteudo r).

End Extracao.

(** ** The rest of the script *)

(** What the script prints, one constructor per [print]. *)
Inductive mensagem : Type :=
| MsgUso                                  (* "Uso: python pesquisa_fazenda_sp.py <termo_de_pesquisa>", "Exemplo: ..." *)
| MsgFazendoRequisicao (termo : string)   (* "Fazendo requisição para o termo: '...'..." *)
| MsgErroHTTP (status_code : nat)         (* "❌ Erro HTTP: ...", "Status Code: ...", "Atenção: O erro 403 ..." *)
| MsgErroRequisicao                       (* "❌ Ocorreu um erro na requisição: ..." *)
| MsgResposta (status_code : nat)         (* "--- Resposta da Requisição ---", "Status: ..." *)
| MsgErroDesserializacao                  (* "❌ Erro de Desserialização JSON: ..." *)
| MsgErroInesperado                       (* "❌ Erro inesperado ao desserializar JSON: ..." *)
| MsgExtracaoConcluida (n : nat)          (* "✅ Extração Concluída. n Resultados base encontrados." *)
| MsgProcessando                          (* "--- Processando Documentos para FAISS ..." *)
| MsgEmbeddingsGerados (n d : nat)        (* "✅ n Embeddings gerados com sucesso (dimensão d)." *)
| MsgSemVetores                           (* "⚠️ Não há vetores para indexar no FAISS." *)
| MsgConstruindo (d n : nat)              (* "--- Construindo Índice FAISS (Dimensão: d, Vetores: n) ---" *)
| MsgIndiceSalvo (nome : string)          (* "✅ Índice FAISS (IndexFlatL2) salvo com sucesso: nome" *)
| MsgErroSalvarIndice                     (* "❌ Erro ao salvar o índice FAISS: ..." *)
| MsgMetadadosSalvos (nome : string)      (* "✅ Metadados dos documentos salvos com sucesso: nome" *)
| MsgErroSalvarMetadados                  (* "❌ Erro ao salvar os metadados: ..." *)
| MsgProximaEtapa                         (* "--- PRÓXIMA ETAPA RAG ---", "Para usar o RAG, ..." *)
| MsgNenhumaLinha.                        (* "⚠️ Nenhuma linha de resultado ('ResultRows') foi encontrada ..." *)

(** How a guarded write ends, [faiss.write_index(index, nome)] or
    [open(nome, 'w')] followed by [json.dump]: the file is written; or the
    write fails before the file is opened (no permission, no such
    directory) and the file is as it was; or it fails once the file is
    open (disk full, I/O error), and since opening for writing truncates
    the file, what is left is empty or incomplete. *)
Inductive gravacao : Type :=
| Gravada
| Recusada
| Interrompida.

(** What [requests.post] followed by [raise_for_status] comes to. *)
Inductive resposta_http : Type :=
| Resposta (status_code : nat) (text : string)
| HTTPError (status_code : nat)
| RequestException.

(** An [ndarray] of shape (N, d), as its N rows. *)
Definition ndarray : Type := list (list Q).

(** [a.size], [a.shape[0]] and [a.shape[1]]. *)
Definition size (a : ndarray) : nat := list_sum (map (fun v : list Q => length v) a).
Definition shape0 (a : ndarray) : nat := length a.
Definition shape1 (a : ndarray) : nat := length (hd [] a).

(** The dictionary ['vetores': ..., 'metadados': ...]. *)
Record dados_processados : Type := DadosProcessados {
  vetores : ndarray;
  metadados : list resultado
}.

(** A metadata dictionary as [json.dump] writes it. *)
Definition metadado_json (item : resultado) : json :=
  JDict [("id", JInt (Z.of_nat (res_id item)));
         ("path", res_path item);
         ("conteudo", JStr (res_conteudo item))].

Section Fluxo.

Variable py_repr : json -> string.

(** [json.loads]: the value, [JSONDecodeError] or another exception. *)
Variable json_loads : string -> result json.

(** [MODELO_EMBEDDING.encode] on one text; the batch call encodes each
    text of the list. *)
Variable encode : string -> list Q.

(** The portal's answer to the query for a term. *)
Variable portal : string -> resposta_http.

(** How the write of a file of this name ends. *)
Variable gravacao_de : string -> gravacao.

(** The text handed to [json.loads]: from the first [[] to the last []]
    when both are found, the text itself otherwise. *)
Definition isolar (texto_json : string) : string :=
  let start := find "["%char texto_json in
  let end_ := rfind "]"%char texto_json in
  if negb (start =? -1)%Z && negb (end_ =? -1)%Z
  then slice texto_json start (end_ + 1)
  else texto_json.

(** Returns the decoded value, or [None] (which is [JNull]) after printing
    the error. *)
Definition desserializar_json_resistente (texto_json : string)
  : list mensagem * json :=
  match json_loads (isolar texto_json) with
  | Ok dados => ([], dados)
  | Raise JSONDecodeError => ([MsgErroDesserializacao], JNull)
  | Raise _ => ([MsgErroInesperado], JNull)
  end.

Definition processar_para_faiss (resultados : list resultado)
  : list mensagem * dados_processados :=
  match resultados with
  | [] => ([MsgProcessando], DadosProcessados [] [])
  | _ =>
      let textos := map res_conteudo resultados in
      let embeddings_array := map encode textos in
      let metadados :=
        map (fun item =>
               Resultado (res_id item) (res_path item) (res_conteudo item))
            resultados in
      ([MsgProcessando;
        MsgEmbeddingsGerados (length embeddings_array) (shape1 embeddings_array)],
       DadosProcessados embeddings_array metadados)
  end.

(** One guarded write: the file appears when the write goes through; an
    error is printed otherwise, and the file is as it was or, once it had
    been opened, empty or incomplete. *)
Definition gravar (nome : string) (conteudo : arquivo)
  (sucesso erro : mensagem) (fs : disco) : list mensagem * disco :=
  match gravacao_de nome with
  | Gravada => ([sucesso], <[nome := conteudo]> fs)
  | Recusada => ([erro], fs)
  | Interrompida => ([erro], <[nome := ArqIncompleto]> fs)
  end.

Definition construir_e_salvar_indice_faiss
  (dados : dados_processados) (nome_base_arquivo : string) (fs : disco)
  : list mensagem * disco :=
  let vetores := vetores dados in
  let metadados := metadados dados in
  if (size vetores =? 0)%nat then ([MsgSemVetores], fs)
  else
    let dimensao := shape1 vetores in
    let num_vetores := shape0 vetores in
    let index := Indice dimensao vetores in
    let nome_indice := nome_base_arquivo +:+ ".faiss" in
    let '(m1, fs1) :=
      gravar nome_indice (ArqFaiss index)
        (MsgIndiceSalvo nome_indice) MsgErroSalvarIndice fs in
    let nome_metadados := nome_base_arquivo +:+ "_metadados.json" in
    let '(m2, fs2) :=
      gravar nome_metadados (ArqJson (JList (map metadado_json metadados)))
        (MsgMetadadosSalvos nome_metadados) MsgErroSalvarMetadados fs1 in
    ([MsgConstruindo dimensao num_vetores] ++ m1 ++ m2 ++ [MsgProximaEtapa],
     fs2).

Definition fazer_requisicao_fazenda_sp (termo_pesquisa : string)
  : list mensagem * option (nat * string) :=
  match portal termo_pesquisa with
  | Resposta status_code text =>
      ([MsgFazendoRequisicao termo_pesquisa], Some (status_code, text))
  | HTTPError status_code =>
      ([MsgFazendoRequisicao termo_pesquisa; MsgErroHTTP status_code], None)
  | RequestException =>
      ([MsgFazendoRequisicao termo_pesquisa; MsgErroRequisicao], None)
  end.

(** Steps 3 to 5 of the main block, entered with a truthy decoded value. *)
Definition extrair_e_indexar (termo : string) (dados_json : json) (fs : disco)
  : list mensagem * disco * termino :=
  match extrair_resultados_recursivamente py_repr dados_json with
  | Raise e => ([], fs, Excecao e)
  | Ok resultados_base =>
      let m3 := [MsgExtracaoConcluida (length resultados_base)] in
      match resultados_base with
      | [] => (m3 ++ [MsgNenhumaLinha], fs, Saiu 0)
      | _ =>
          let '(m4, dados_faiss) := processar_para_faiss resultados_base in
          let '(m5, fs') :=
            construir_e_salvar_indice_faiss dados_faiss
              ("faiss_index_" +:+ termo) fs in
          (m3 ++ m4 ++ m5, fs', Saiu 0)
      end
  end.

(** The [__main__] block, from [sys.argv] and the files present to what is
    printed, the files left and how the process ends. *)
Definition main (argv : list string) (fs : disco)
  : list mensagem * disco * termino :=
  match argv with
  | _ :: termo :: _ =>
      let '(m1, resposta) := fazer_requisicao_fazenda_sp termo in
      match resposta with
      | None => (m1, fs, Saiu 0)
      | Some (status_code, text) =>
          let '(m2, dados_json) := desserializar_json_resistente text in
          if truthy dados_json
          then
            let '(m3, fs', fim) := extrair_e_indexar termo dados_json fs in
            (m1 ++ [MsgResposta status_code] ++ m2 ++ m3, fs', fim)
          else (m1 ++ [MsgResposta status_code] ++ m2, fs, Saiu 0)
      end
  | _ => ([MsgUso], fs, Saiu 1)
  end.

End Fluxo.

End Legislacao.

(* ===================================================================== *)
(** * BuscaFaiss.py: the Retriever                                        *)
(* ===================================================================== *)

Module BuscaFaiss.
Import Py Disco.

(** What the script prints. *)
Inductive mensagem : Type :=
| MsgUso                              (* "Uso: python BuscaFaiss.py <termo_curto_do_faiss> <query_de_busca_completa>", "Exemplo: ..." *)
| MsgCarregado (base : string)        (* "✅ Índice FAISS e Metadados carregados com sucesso. Base: '...'." *)
| MsgNaoEncontrados (base : string)   (* "❌ Erro: Arquivos '...' ou '...' não encontrados. ..." *)
| MsgErroAoCarregar                   (* "❌ Erro ao carregar arquivos: ..." *)
| MsgBuscando (k : nat)               (* "--- Buscando no FAISS (K=k) para a query: '...' ---" *)
| MsgBuscaConcluida (n : nat)         (* "✅ Busca concluída. n documentos encontrados." *)
| MsgResultados (saida : string)      (* print(resultados_string) *)
| MsgNaoCarregou.                     (* stderr: "Não foi possível carregar o índice. Resultado da busca vazio." *)

(** ** The library's flat index *)

(** Order of the candidates of a search: by distance.  The library does
    not say in which order it returns vectors at the same distance from the
    query; among these the order is the one of [prioridade], which the
    model leaves open. *)
Definition mais_perto (prioridade : Z -> Z) (a b : Q * Z) : Prop :=
  (a.1 < b.1)%Q
  \/ ((a.1 == b.1)%Q /\ (prioridade a.2 <= prioridade b.2)%Z).

#[global] Instance mais_perto_dec (prioridade : Z -> Z)
  : RelDecision (mais_perto prioridade).
Proof.
  intros a b. unfold mais_perto, Qlt, Qeq.
  apply or_dec;
    [apply Z_lt_dec | apply and_dec; [apply Z.eq_dec | apply Z_le_dec]].
Defined.

(** The distance reported in a slot that has no neighbour: the largest
    [float32]. *)
Definition FLT_MAX : Q := inject_Z (2 ^ 128 - 2 ^ 104).

(** The two item assignments of the loop on one dictionary:
    [doc['rank'] = rank] and then [doc['distancia_l2'] = float(distancia)]. *)
Definition anotado (doc : pydict) (rank : nat) (distancia : Q) : pydict :=
  dict_set "distancia_l2" (JFloat distancia)
    (dict_set "rank" (JInt (Z.of_nat rank)) doc).

(** Metadata as the Corpus Builder writes it, as far as the query relies on
    it: every entry is a dictionary with a [conteudo]. *)
Definition bem_formado (doc : json) : bool :=
  match doc with
  | JDict d => match dict_lookup "conteudo" d with Some _ => true | None => false end
  | _ => false
  end.

(** A slot of the search whose label names a dictionary of the list. *)
Definition aponta (docs : list json) (slot : Q * Z) : Prop :=
  (0 <= slot.2)%Z /\ exists doc, docs !! Z.to_nat slot.2 = Some (JDict doc).

Section Busca.

Variable py_repr : json -> string.

(** [format(x, '.4f')] of a number. *)
Variable fmt_4f : Q -> string.

(** [MODELO_EMBEDDING.encode] on one text. *)
Variable encode : string -> list Q.

(** The squared Euclidean distance as the index computes it. *)
Variable l2 : list Q -> list Q -> Q.

(** The order in which a search of [k] neighbours returns the positions of
    vectors at the same distance from the query, as a priority among
    positions: the library's own. *)
Variable desempate : indice -> list Q -> nat -> Z -> Z.

(** Every stored vector with its distance to the query and its position. *)
Definition candidatos (index : indice) (x : list Q) : list (Q * Z) :=
  imap (fun i v => (l2 x v, Z.of_nat i)) (vetores_de index).

(** The [k] nearest of them, nearest first. *)
Definition melhores (index : indice) (x : list Q) (k : nat) : list (Q * Z) :=
  take k (merge_sort (mais_perto (desempate index x k)) (candidatos index x)).

(** Modelled from the library's documentation: [IndexFlatL2.search(x, k)]
    for one query vector.  The wrapper asserts that the query has the
    index's dimension and that [k] is positive.  The search compares the
    query with every stored vector and returns two arrays of length [k]:
    the [k] smallest distances in ascending order and the positions of
    their vectors (in no documented order where distances are equal); when
    the index holds fewer than [k] vectors the remaining slots hold the
    label [-1]. *)
Definition search (index : indice) (x : list Q) (k : nat)
  : result (list Q * list Z) :=
  if negb (length x =? dimensao_de index)%nat then Raise AssertionError
  else if (k =? 0)%nat then Raise AssertionError
  else
    let melhores := melhores index x k in
    let vazios := k - length melhores in
    Ok (map fst melhores ++ replicate vazios FLT_MAX,
        map snd melhores ++ replicate vazios (-1)%Z).

(** ** The query *)

(** [metadados[id_sequencial]] followed by the two item assignments
    [documento_relevante['rank'] = rank] and
    [documento_relevante['distancia_l2'] = float(distancia)].  The
    dictionary fetched is the object stored in the list, so the assignments
    change the list's entry; the position of that entry is what the caller
    keeps as its reference to the object. *)
Definition anotar (metadados : json) (id_sequencial : Z) (rank : nat)
  (distancia : Q) : result (json * nat) :=
  match metadados with
  | JList docs =>
      let n := Z.of_nat (length docs) in
      let j := if (id_sequencial <? 0)%Z then (n + id_sequencial)%Z
               else id_sequencial in
      if (j <? 0)%Z then Raise IndexError
      else
        match docs !! Z.to_nat j with
        | None => Raise IndexError
        | Some (JDict documento_relevante) =>
            Ok (JList (<[Z.to_nat j :=
                          JDict (anotado documento_relevante rank distancia)]>
                         docs),
                Z.to_nat j)
        | Some _ => Raise TypeError
        end
  | JDict _ => Raise KeyError
  | JStr s =>
      let n := Z.of_nat (String.length s) in
      let j := if (id_sequencial <? 0)%Z then (n + id_sequencial)%Z
               else id_sequencial in
      if ((j <? 0) || (n <=? j))%Z then Raise IndexError else Raise TypeError
  | _ => Raise TypeError
  end.

(** The loop [for i in range(k)] over the two arrays of the search, slot
    by slot.  [resultados_relevantes] holds references into [metadados]. *)
Fixpoint mapear (i : nat) (slots : list (Q * Z)) (metadados : json)
  (resultados_relevantes : list nat) : result (json * list nat) :=
  match slots with
  | [] => Ok (metadados, resultados_relevantes)
  | (distancia, id_sequencial) :: resto =>
      if (id_sequencial =? -1)%Z
      then mapear (S i) resto metadados resultados_relevantes
      else
        match anotar metadados id_sequencial (i + 1) distancia with
        | Raise e => Raise e
        | Ok (metadados', documento_relevante) =>
            mapear (S i) resto metadados'
              (resultados_relevantes ++ [documento_relevante])
        end
  end.

(** The object a reference points to. *)
Definition objeto (metadados : json) (ref : nat) : json :=
  match metadados with
  | JList docs => default JNull (docs !! ref)
  | _ => JNull
  end.

Definition str (v : json) : string :=
  match v with
  | JStr s => s
  | _ => py_repr v
  end.

(** [res[chave]] on what a reference points to. *)
Definition item (res : json) (chave : string) : result json :=
  match res with
  | JDict d =>
      match dict_lookup chave d with
      | Some v => Ok v
      | None => Raise KeyError
      end
  | _ => Raise TypeError
  end.

(** [f"{v:.4f}"] *)
Definition formato_4f (v : json) : result string :=
  match v with
  | JFloat q => Ok (fmt_4f q)
  | JInt z => Ok (fmt_4f (inject_Z z))
  | JBool b => Ok (fmt_4f (if b then 1 else 0)%Q)
  | JStr _ => Raise ValueError
  | _ => Raise TypeError
  end.

(** The four lines added to [saida_formatada] for one result. *)
Definition secao (res : json) : result string :=
  let* rank := item res "rank" in
  let path :=
    match res with
    | JDict d => default (JStr "N/A") (dict_lookup "path" d)
    | _ => JNull
    end in
  let* distancia := item res "distancia_l2" in
  let* distancia_4f := formato_4f distancia in
  let* conteudo := item res "conteudo" in
  Ok ("--- DOCUMENTO RANK " +:+ str rank +:+ " ---" +:+ nl
      +:+ "URL/Fonte: " +:+ str path +:+ nl
      +:+ "Distância (Similaridade): " +:+ distancia_4f +:+ nl
      +:+ "Conteúdo:" +:+ nl +:+ str conteudo +:+ nl +:+ nl).

Fixpoint formatar (metadados : json) (resultados_relevantes : list nat)
  (saida_formatada : string) : result string :=
  match resultados_relevantes with
  | [] => Ok saida_formatada
  | res :: resto =>
      let* s := secao (objeto metadados res) in
      formatar metadados resto (saida_formatada +:+ s)
  end.

(** Steps 1 to 3 of [buscar_faiss]: the references to the hits, with the
    metadata list as the loop leaves it. *)
Definition resultados_da_busca (query : string) (index : indice)
  (metadados : json) (k : nat) : result (json * list nat) :=
  let query_embedding := encode query in
  let* (distancias, indices) := search index query_embedding k in
  mapear 0 (zip distancias indices) metadados [].

(** [buscar_faiss]: what it prints, the string it returns, and the metadata
    list after the call. *)
Definition buscar_faiss (query : string) (index : indice) (metadados : json)
  (k : nat) : result (list mensagem * string * json) :=
  let* (metadados', resultados_relevantes) :=
    resultados_da_busca query index metadados k in
  let* saida_formatada := formatar metadados' resultados_relevantes "" in
  Ok ([MsgBuscando k; MsgBuscaConcluida (length resultados_relevantes)],
      saida_formatada, metadados').

(** What [buscar_faiss] has printed by the time it ends, whether it
    returns or raises: the opening line, and the count once the loop over
    the slots is through (an exception raised later, while the text is
    formatted, comes after the count). *)
Definition impresso_por_buscar_faiss (query : string) (index : indice)
  (metadados : json) (k : nat) : list mensagem :=
  MsgBuscando k
  :: match resultados_da_busca query index metadados k with
     | Ok (_, resultados_relevantes) =>
         [MsgBuscaConcluida (length resultados_relevantes)]
     | Raise _ => []
     end.

(** [carregar_indice_e_metadados]: [faiss.read_index] raises a
    [RuntimeError] on a missing or foreign file, [open] a
    [FileNotFoundError] on a missing one, [json.load] reads JSON only. *)
Definition carregar_indice_e_metadados (nome_base_arquivo : string)
  (fs : disco) : list mensagem * option (indice * json) :=
  let nome_indice := "faiss_index_" +:+ nome_base_arquivo +:+ ".faiss" in
  let nome_metadados :=
    "faiss_index_" +:+ nome_base_arquivo +:+ "_metadados.json" in
  match fs !! nome_indice with
  | Some (ArqFaiss index) =>
      match fs !! nome_metadados with
      | Some (ArqJson metadados) =>
          ([MsgCarregado nome_base_arquivo], Some (index, metadados))
      | Some _ => ([MsgErroAoCarregar], None)
      | None => ([MsgNaoEncontrados nome_base_arquivo], None)
      end
  | _ => ([MsgErroAoCarregar], None)
  end.

(** The [__main__] block; the script writes no file. *)
Definition main (argv : list string) (fs : disco)
  : list mensagem * termino :=
  match argv with
  | _ :: TERMO_CURTO_FAISS :: QUERY_DE_BUSCA :: _ =>
      let '(m1, dados_carregados) :=
        carregar_indice_e_metadados TERMO_CURTO_FAISS fs in
      match dados_carregados with
      | Some (index_faiss, metadados_docs) =>
          match buscar_faiss QUERY_DE_BUSCA index_faiss metadados_docs 5 with
          | Ok (m2, resultados_string, _) =>
              (m1 ++ m2 ++ [MsgResultados resultados_string], Saiu 0)
          | Raise e =>
              (m1 ++ impresso_por_buscar_faiss QUERY_DE_BUSCA index_faiss
                       metadados_docs 5,
               Excecao e)
          end
      | None => (m1 ++ [MsgNaoCarregou], Saiu 1)
      end
  | _ => ([MsgUso], Saiu 1)
  end.

End Busca.

End BuscaFaiss.

(* ===================================================================== *)
(** * LLM.py: Term Extractor, Report Generator and the driver             *)
(* ===================================================================== *)

Module LLM.
Import Py.

(** What the driver prints, as far as the stages and their failures go. *)
Inductive mensagem : Type :=
| MsgArgumentoAusente        (* "ERRO: Argumento ausente.", "Uso: python ProcessaNFe.py <nome_do_arquivo_xml>" *)
| MsgArquivoDeEntrada (nome : string)   (* "Arquivo de entrada: ..." *)
| MsgXmlNaoLido              (* "ERRO: Arquivo não encontrado em ..." or "ERRO ao ler o arquivo XML: ..." *)
| MsgXmlLido                 (* "SUCESSO: XML lido. Tamanho do conteúdo: ... caracteres." *)
| MsgFormatoInesperado       (* "ERRO: Gemini não retornou os termos no formato esperado. Resposta bruta: ..." *)
| MsgTermosExtraidos (termo_curto termo_completo : string)  (* "SUCESSO: Termos extraídos." and the two terms *)
| MsgErroGemini              (* "ERRO na comunicação ou processamento do Gemini: ..." *)
| MsgInterrompido (etapa : string)      (* "Fluxo interrompido após falha na ..." *)
| MsgScriptConcluido (script : string)  (* "SUCESSO: Índice FAISS supostamente pronto ..." / "SUCESSO: Trechos de lei encontrados ..." *)
| MsgScriptFalhou (script : string) (codigo : nat)  (* "ERRO ao executar ... (Código de saída: ...)." *)
| MsgScriptAusente (script : string)    (* "ERRO: O script ... não foi encontrado." *)
| MsgBuscaLimitada           (* "AVISO: A busca FAISS retornou resultados limitados ou irrelevantes." *)
| MsgAnaliseGerada           (* "SUCESSO: Análise fiscal completa gerada.", "--- INÍCIO DO MARKDOWN GERADO ---" *)
| MsgTrechoDaAnalise         (* the first 500 characters of the analysis, "--- FIM DO MARKDOWN GERADO ---" *)
| MsgErroAnalise             (* "ERRO na análise final do Gemini: ..." *)
| MsgTentandoPdf (nome_pdf : string)    (* "-> Tentando gerar PDF formatado: ..." *)
| MsgPdfGerado (nome_pdf : string)      (* "SUCESSO: PDF gerado com sucesso em: ..." *)
| MsgErroPdf                 (* "ERRO ao gerar o PDF: ..." *)
| MsgPdfNaoGerado            (* "AVISO: A análise final falhou ou retornou um erro. O PDF não será gerado." *)
| MsgConcluido.              (* "PROCESSAMENTO CONCLUÍDO COM SUCESSO" *)

(** What the driver does to the outside world, in order: what it prints,
    the requests it sends to the model, the pause, its calls of
    [subprocess.run] (whether or not the command gets started) and the
    renderings it attempts (with whether the PDF got written). *)
Inductive evento : Type :=
| Imprime (m : mensagem)
| ChamaGemini (formato_json : bool) (contents : string)
| Dorme (segundos : nat)
| Executa (comando : list string)
| GeraPdf (nome_pdf : string) (conteudo_markdown : string) (escrito : bool).

(** [client.models.generate_content]: an exception, or a response whose
    [text] is a string or [None]. *)
Inductive resposta_gemini : Type :=
| GeminiErro
| GeminiTexto (text : option string).

(** [subprocess.run(..., capture_output=True, text=True, check=True)]: the
    command completes with exit code 0; it completes with another exit
    code ([CalledProcessError]); the program is not found
    ([FileNotFoundError]); or the call raises another exception, which
    neither handler of the driver catches (a [ValueError] for a NUL
    character in an argument, a [PermissionError], an output that cannot
    be decoded, ...). *)
Inductive processo : Type :=
| Concluido (stdout : string)
| CalledProcessError (returncode : nat) (stderr : string)
| FileNotFoundError
| OutraExcecao (e : exc).

(** The double quote. *)
Definition aspas : string := String (ascii_of_nat 34) EmptyString.

(** The f-string of [extrair_termos_gemini]. *)
Definition prompt_termos (conteudo_xml_bruto : string) : string :=
  "
        Analise o conteúdo desta Nota Fiscal Eletrônica (XML) e execute as seguintes tarefas:
        
        1. **Descubra os produtos mais relevantes do campo xProd e crie um termo conciso para pesquisa (uma a três palavras) envolvendo nome do produto, operação para que reduza a quantidade de leis retornadas, deixando uma base mais direcionada e eficaz para encontrar possíveis divergências fiscais**

        2. **Crie uma frase curta, porém mais completa e descritiva, baseada no conteúdo/produtos da NF para uma busca de similaridade mais refinada (ex: 'Legislação sobre ICMS-ST de produtos alimentícios').**
        
        Sua resposta DEVE estar estritamente no formato JSON, sem qualquer outro texto adicional:
        {
          "
  +:+ aspas
  +:+ "termo_curto"
  +:+ aspas
  +:+ ": "
  +:+ aspas
  +:+ "termo conciso"
  +:+ aspas
  +:+ ",
          "
  +:+ aspas
  +:+ "termo_completo"
  +:+ aspas
  +:+ ": "
  +:+ aspas
  +:+ "frase curta e descritiva"
  +:+ aspas
  +:+ "
        }
        
        Conteúdo do XML (Bruto):
        ---
        "
  +:+ conteudo_xml_bruto
  +:+ "... [Conteúdo Omitido]
        ---
        ".

(** The f-string of [analisar_resultados_gemini].  It has no replacement
    field: neither argument of the function occurs in it. *)
Definition prompt_analise (conteudo_xml_bruto resultados_busca : string)
  : string :=
  "
        Abaixo estão o conteúdo BRUTO de uma Nota Fiscal Eletrônica (XML) e um trecho de leis relevantes encontrado (FAISS).
        
        Sua tarefa é gerar uma análise detalhada ESTRITAMENTE no formato MARKDOWN, usando títulos (#), subtítulos (##) e listas.
        
        1. **Resumo da NF-e:** Breve resumo da nota fiscal (o que ela trata).
        2. **Relevância Legal:** Indique se o trecho de lei parece ser relevante ou aplicável à NF-e com link.
        3. **Trecho de Lei Chave:** Cite o trecho da lei que você considerou mais importante ou aplicável.
        4. **Oportunidade de Economia/Benefício:** O mais importante: Cite dicas para aplicação de lei para reduzir recolhimento ou obter algum benefício legal e mensurar o quanto economiza com esta ação. Mostrar se possível em R$.
        
        Gere a análise SOMENTE em formato Markdown, começando com um título de nível 1.
        ".

(** What [analisar_resultados_gemini] returns when the call fails. *)
Definition analise_de_erro : string :=
  "# Erro de Análise" +:+ nl +:+ "Análise final não pôde ser concluída.".

(** [os.path.splitext(p)[0]]: the path without the extension of its last
    component; leading dots of the component start no extension. *)
Definition so_pontos (s : string) : bool :=
  forallb (fun c => Ascii.eqb c "."%char) (list_ascii_of_string s).

Definition splitext_raiz (p : string) : string :=
  let sep := rfind "/"%char p in
  let dot := rfind "."%char p in
  if (sep <? dot)%Z && negb (so_pontos (slice p (sep + 1) dot))
  then slice p 0 dot
  else p.

(** The requests a trace sends to the model. *)
Definition pedidos (t : list evento) : list (bool * string) :=
  omap (fun e => match e with
                 | ChamaGemini formato_json contents => Some (formato_json, contents)
                 | _ => None
                 end) t.

(** The renderings a trace attempts. *)
Definition renderizacoes (t : list evento) : list (string * string * bool) :=
  omap (fun e => match e with
                 | GeraPdf nome_pdf conteudo_markdown escrito =>
                     Some (nome_pdf, conteudo_markdown, escrito)
                 | _ => None
                 end) t.

(** What belongs to the stages after the Term Extractor: the pause, the two
    scripts, the analysis request and the rendering. *)
Definition etapa_posterior (e : evento) : bool :=
  match e with
  | Imprime _ => false
  | ChamaGemini formato_json _ => negb formato_json
  | Dorme _ => true
  | Executa _ => true
  | GeraPdf _ _ _ => true
  end.

(** The two-field structure the Term Extractor asks for: an object whose
    [termo_curto] and [termo_completo] are both strings. *)
Definition dois_campos (v : json) : option (string * string) :=
  match v with
  | JDict d =>
      match dict_lookup "termo_curto" d, dict_lookup "termo_completo" d with
      | Some (JStr curto), Some (JStr completo) => Some (curto, completo)
      | _, _ => None
      end
  | _ => None
  end.

(** A Markdown text that starts with a top-level heading. *)
Definition comeca_com_titulo (s : string) : bool := String.prefix "# " s.

Section Pipeline.

(** [json.loads] *)
Variable json_loads : string -> result json.

(** Whether [genai.Client()] returns.  It raises when the environment
    holds no API key, which is the same for every call of one run; both
    calls sit inside the [try] of their function, before the request. *)
Variable cliente : bool.

(** The model's answer to a request: whether the JSON response format was
    asked for, and the contents sent. *)
Variable gemini : bool -> string -> resposta_gemini.

(** The content of a readable file, [None] for a missing or unreadable
    one. *)
Variable ler_arquivo : string -> option string.

(** Running a command. *)
Variable subprocess_run : list string -> processo.

(** [sys.executable] *)
Variable sys_executable : string.

(** Whether Markdown conversion, HTML rendering and the write of the PDF
    go through for this output name and this Markdown text. *)
Variable escreve_pdf : string -> string -> bool.

(** A response the Term Extractor cannot take a short term from: the call
    failed, there is no text, the text is not JSON, the JSON is not the
    two-field structure, or [termo_curto] is empty once trimmed. *)
Definition sem_termo_curto (resposta : resposta_gemini) : bool :=
  match resposta with
  | GeminiErro => true
  | GeminiTexto None => true
  | GeminiTexto (Some text) =>
      match json_loads text with
      | Raise _ => true
      | Ok termos =>
          match dois_campos termos with
          | None => true
          | Some (curto, _) => String.eqb (strip curto) ""
          end
      end
  end.

Definition ler_conteudo_xml_bruto (caminho_arquivo : string)
  : list evento * option string :=
  match ler_arquivo caminho_arquivo with
  | None => ([Imprime MsgXmlNaoLido], None)
  | Some conteudo_xml =>
      ([Imprime MsgXmlLido], Some conteudo_xml)
  end.

(** [termos.get(chave, '').strip()] *)
Definition campo_aparado (termos : json) (chave : string) : result string :=
  match termos with
  | JDict d =>
      match default (JStr "") (dict_lookup chave d) with
      | JStr s => Ok (strip s)
      | _ => Raise AttributeError
      end
  | _ => Raise AttributeError
  end.

(** The body of the [try] of [extrair_termos_gemini] after the request:
    from the response to the two terms, or the exception raised on the
    way (the message printed before the [ValueError] included). *)
Definition termos_da_resposta (resposta : resposta_gemini)
  : list evento * result (string * string) :=
  match resposta with
  | GeminiErro => ([], Raise OtherError)
  | GeminiTexto None => ([], Raise TypeError)
  | GeminiTexto (Some text) =>
      match json_loads text with
      | Raise e => ([], Raise e)
      | Ok termos =>
          match campo_aparado termos "termo_curto" with
          | Raise e => ([], Raise e)
          | Ok termo_curto =>
              match campo_aparado termos "termo_completo" with
              | Raise e => ([], Raise e)
              | Ok termo_completo =>
                  if String.eqb termo_curto "" || String.eqb termo_completo ""
                  then ([Imprime MsgFormatoInesperado], Raise ValueError)
                  else ([], Ok (termo_curto, termo_completo))
              end
          end
      end
  end.

(** Returns [(termo_curto, termo_completo)], or [(None, None)] after any
    exception; when the client cannot be created no request is sent. *)
Definition extrair_termos_gemini (conteudo_xml_bruto : string)
  : list evento * (option string * option string) :=
  if negb cliente then ([Imprime MsgErroGemini], (None, None))
  else
    let prompt := prompt_termos conteudo_xml_bruto in
    let '(m, r) := termos_da_resposta (gemini true prompt) in
    match r with
    | Ok (termo_curto, termo_completo) =>
        ([ChamaGemini true prompt] ++ m
           ++ [Imprime (MsgTermosExtraidos termo_curto termo_completo)],
         (Some termo_curto, Some termo_completo))
    | Raise _ =>
        ([ChamaGemini true prompt] ++ m ++ [Imprime MsgErroGemini],
         (None, None))
    end.

(** Returns the output, or [None] after one of the two exceptions it
    handles; any other exception of [subprocess.run] goes through. *)
Definition executar_script_simples (script argumento : string)
  : list evento * result (option string) :=
  let comando := [sys_executable; script; argumento] in
  match subprocess_run comando with
  | Concluido stdout =>
      ([Executa comando; Imprime (MsgScriptConcluido script)],
       Ok (Some stdout))
  | CalledProcessError returncode _ =>
      ([Executa comando; Imprime (MsgScriptFalhou script returncode)],
       Ok None)
  | FileNotFoundError =>
      ([Executa comando; Imprime (MsgScriptAusente script)], Ok None)
  | OutraExcecao e => ([Executa comando], Raise e)
  end.

Definition executar_busca_faiss (script termo_faiss query_completa : string)
  : list evento * result (option string) :=
  let comando := [sys_executable; script; termo_faiss; query_completa] in
  match subprocess_run comando with
  | Concluido resultados_busca =>
      ([Executa comando]
         ++ (if contains "Nenhum resultado relevante encontrado" resultados_busca
             then [Imprime MsgBuscaLimitada] else [])
         ++ [Imprime (MsgScriptConcluido script)],
       Ok (Some resultados_busca))
  | CalledProcessError returncode stderr =>
      ([Executa comando; Imprime (MsgScriptFalhou script returncode)],
       Ok (Some ("ERRO NA BUSCA FAISS:" +:+ nl +:+ stderr)))
  | FileNotFoundError =>
      ([Executa comando; Imprime (MsgScriptAusente script)], Ok None)
  | OutraExcecao e => ([Executa comando], Raise e)
  end.

(** The response text is returned as it comes.  A [None] text raises when
    it is sliced for the log, and like a failed call gives the error
    document; so does a client that cannot be created, before any request
    is sent. *)
Definition analisar_resultados_gemini (conteudo_xml_bruto resultados_busca : string)
  : list evento * string :=
  if negb cliente then ([Imprime MsgErroAnalise], analise_de_erro)
  else
    let prompt := prompt_analise conteudo_xml_bruto resultados_busca in
    match gemini false prompt with
    | GeminiTexto (Some analise_markdown) =>
        ([ChamaGemini false prompt; Imprime MsgAnaliseGerada;
          Imprime MsgTrechoDaAnalise],
         analise_markdown)
    | GeminiTexto None =>
        ([ChamaGemini false prompt; Imprime MsgAnaliseGerada;
          Imprime MsgErroAnalise],
         analise_de_erro)
    | GeminiErro =>
        ([ChamaGemini false prompt; Imprime MsgErroAnalise], analise_de_erro)
    end.

Definition gerar_pdf (conteudo_markdown nome_arquivo_xml : string)
  : list evento * bool :=
  let nome_pdf := splitext_raiz nome_arquivo_xml +:+ "_analise.pdf" in
  if escreve_pdf nome_pdf conteudo_markdown
  then ([Imprime (MsgTentandoPdf nome_pdf);
         GeraPdf nome_pdf conteudo_markdown true;
         Imprime (MsgPdfGerado nome_pdf)],
        true)
  else ([Imprime (MsgTentandoPdf nome_pdf);
         GeraPdf nome_pdf conteudo_markdown false;
         Imprime MsgErroPdf],
        false).

(** [not s] for a value that is a string or [None]. *)
Definition vazio (s : option string) : bool :=
  match s with
  | Some s => String.eqb s ""
  | None => true
  end.

(** Steps 4 to 6 of [main]: analysis and rendering. *)
Definition analisar_e_gerar (arquivo_xml conteudo_xml_bruto resultados_busca : string)
  : list evento :=
  let '(t4, analise_final_markdown) :=
    analisar_resultados_gemini conteudo_xml_bruto resultados_busca in
  let t5 :=
    if negb (String.eqb analise_final_markdown "")
       && negb (contains "Erro de Análise" analise_final_markdown)
    then fst (gerar_pdf analise_final_markdown arquivo_xml)
    else [Imprime MsgPdfNaoGerado] in
  t4 ++ t5 ++ [Imprime MsgConcluido].

(** Steps 2 and 3 of [main] and what follows: the two scripts.  An
    exception that [subprocess.run] raises and the functions do not handle
    ends the driver as an uncaught exception. *)
Definition buscar_e_analisar
  (arquivo_xml conteudo_xml_bruto termo_curto termo_completo : string)
  : list evento * termino :=
  let '(t2, legislacao_output) :=
    executar_script_simples "Legislacao.py" termo_curto in
  match legislacao_output with
  | Raise e => (t2, Excecao e)
  | Ok None =>
      (t2 ++ [Imprime (MsgInterrompido "Geração do Corpus Jurídico")], Saiu 1)
  | Ok (Some _) =>
      let '(t3, resultados_busca) :=
        executar_busca_faiss "BuscaFaiss.py" termo_curto termo_completo in
      match resultados_busca with
      | Raise e => (t2 ++ t3, Excecao e)
      | Ok (Some resultados) =>
          if contains "ERRO NA BUSCA FAISS" resultados
          then (t2 ++ t3
                  ++ [Imprime (MsgInterrompido "Busca de Similaridade Vetorial")],
                Saiu 1)
          else (t2 ++ t3
                  ++ analisar_e_gerar arquivo_xml conteudo_xml_bruto resultados,
                Saiu 0)
      | Ok None =>
          (t2 ++ t3
             ++ [Imprime (MsgInterrompido "Busca de Similaridade Vetorial")],
           Saiu 1)
      end
  end.

Definition main (argv : list string) : list evento * termino :=
  match argv with
  | _ :: arquivo_xml :: _ =>
      let '(t0, lido) := ler_conteudo_xml_bruto arquivo_xml in
      let t0 := [Imprime (MsgArquivoDeEntrada arquivo_xml)] ++ t0 in
      if vazio lido
      then (t0 ++ [Imprime (MsgInterrompido "leitura do XML")], Saiu 1)
      else
        let conteudo_xml_bruto := default "" lido in
        let '(t1, (termo_curto, termo_completo)) :=
          extrair_termos_gemini conteudo_xml_bruto in
        if vazio termo_curto || vazio termo_completo
        then (t0 ++ t1 ++ [Imprime (MsgInterrompido "extração de termos")],
              Saiu 1)
        else
          let '(t, fim) :=
            buscar_e_analisar arquivo_xml conteudo_xml_bruto
              (default "" termo_curto) (default "" termo_completo) in
          (t0 ++ t1 ++ [Dorme 3] ++ t, fim)
  | _ => ([Imprime MsgArgumentoAusente], Saiu 1)
  end.

End Pipeline.

End LLM.

(* ===================================================================== *)
(** * Concrete inputs and a concrete environment                          *)
(* ===================================================================== *)

Module Exemplos.
Import Py Disco.

(** [repr] of [None], booleans and integers; the inputs below put only
    strings where a value is printed. *)
Definition repr_escalar (v : json) : string :=
  match v with
  | JNull => "None"
  | JBool true => "True"
  | JBool false => "False"
  | JInt z => if (z <? 0)%Z then "-" +:+ str_nat (Z.abs_nat z) else str_nat (Z.abs_nat z)
  | _ => "?"
  end.

(** A portal row with both fields. *)
Definition linha (path conteudo : string) : json :=
  JDict [("Title", JStr "Ato");
         ("Path", JStr path);
         ("PublishingPageContentOWSHTML", JStr conteudo)].

(** A portal row without [Path]. *)
Definition linha_sem_path (conteudo : string) : json :=
  JDict [("Title", JStr "Ato");
         ("PublishingPageContentOWSHTML", JStr conteudo)].

(** A valid row that itself holds a [ResultRows] array. *)
Definition linha_com_tabela (path conteudo : string) : json :=
  JDict [("Path", JStr path);
         ("PublishingPageContentOWSHTML", JStr conteudo);
         ("ResultRows", JList [linha "https://sp/interna" "<p>interna</p>"])].

(** [{"d": {"query": {"ResultRows": [valid, no Path, valid]}}}]: the array
    sits at depth 3; its first row nests another [ResultRows]. *)
Definition resposta_prof3 : json :=
  JDict [("d",
    JDict [("query",
      JDict [("ResultRows",
        JList [linha_com_tabela "https://sp/lei1" "<p>um</p>";
               linha_sem_path "<p>dois</p>";
               linha "https://sp/lei3" "<p>tres</p>"])])])].

(** The same three rows, with the entries the portal puts after the array
    in the same dictionary. *)
Definition resposta_com_contagem : json :=
  JDict [("d",
    JDict [("query",
      JDict [("ResultRows",
              JList [linha_com_tabela "https://sp/lei1" "<p>um</p>";
                     linha_sem_path "<p>dois</p>";
                     linha "https://sp/lei3" "<p>tres</p>"]);
             ("RowCount", JInt 3);
             ("TableType", JStr "RelevantResults")])])].

(** A portal row whose [Path] is the empty string. *)
Definition linha_path_vazio : json :=
  JDict [("Path", JStr "");
         ("PublishingPageContentOWSHTML", JStr "<p>zero</p>")].

(** [{"ResultRows": [empty Path, valid], "Outras": {"ResultRows": [valid]}}]:
    a second table in an entry that follows the first one in the same
    dictionary. *)
Definition resposta_irmaos : json :=
  JDict [("ResultRows",
          JList [linha_path_vazio; linha "https://sp/lei1" "<p>um</p>"]);
         ("Outras",
          JDict [("ResultRows", JList [linha "https://sp/lei2" "<p>dois</p>"])])].

(** A document and a block of retrieved passages. *)
Definition nota_acucar : string :=
  "<NFe><det><prod><xProd>ACUCAR CRISTAL 5KG</xProd><CFOP>5102</CFOP></prod></det></NFe>".

Definition trechos_acucar : string :=
  "--- DOCUMENTO RANK 1 ---" +:+ nl
  +:+ "URL/Fonte: https://sp/lei1" +:+ nl
  +:+ "Distância (Similaridade): 0.8123" +:+ nl
  +:+ "Conteúdo:" +:+ nl
  +:+ "PATH: https://sp/lei1" +:+ nl
  +:+ "CONTEÚDO: <p>Artigo 1 - Fica reduzida a base de cálculo do açúcar.</p>"
  +:+ nl +:+ nl.

(** ** A decoder for the examples

    [json.loads] restricted to the JSON texts without fractions, exponents
    and escape sequences: on such a text it returns what [json.loads]
    returns; any other text it refuses. *)

Definition espaco (c : ascii) : bool :=
  let n := nat_of_ascii c in
  (n =? 32)%nat || (n =? 9)%nat || (n =? 10)%nat || (n =? 13)%nat.

Fixpoint pular_espacos (s : list ascii) : list ascii :=
  match s with
  | c :: r => if espaco c then pular_espacos r else s
  | [] => []
  end.

Definition digito (c : ascii) : option Z :=
  let n := nat_of_ascii c in
  if (48 <=? n)%nat && (n <=? 57)%nat then Some (Z.of_nat (n - 48)) else None.

Fixpoint digitos (s : list ascii) (acc : Z) : Z * list ascii :=
  match s with
  | c :: r =>
      match digito c with
      | Some d => digitos r (10 * acc + d)%Z
      | None => (acc, s)
      end
  | [] => (acc, [])
  end.

(** An optional minus sign, then a zero or a digit from 1 to 9 followed
    by digits; not followed by a fraction or an exponent. *)
Definition inteiro (s : list ascii) : option (Z * list ascii) :=
  let '(negativo, s1) :=
    match s with
    | c :: r => if Ascii.eqb c "-"%char then (true, r) else (false, s)
    | [] => (false, s)
    end in
  match s1 with
  | c :: r =>
      match digito c with
      | Some d =>
          let '(n, resto) := if (d =? 0)%Z then (0%Z, r) else digitos r d in
          match resto with
          | c' :: _ =>
              if Ascii.eqb c' "."%char || Ascii.eqb c' "e"%char
                 || Ascii.eqb c' "E"%char
              then None
              else Some (if negativo then (- n)%Z else n, resto)
          | [] => Some (if negativo then (- n)%Z else n, resto)
          end
      | None => None
      end
  | [] => None
  end.

(** The characters of a string up to its closing quote. *)
Fixpoint cadeia (s : list ascii) (acc : list ascii)
  : option (string * list ascii) :=
  match s with
  | c :: r =>
      let n := nat_of_ascii c in
      if (n =? 34)%nat then Some (string_of_list_ascii (rev acc), r)
      else if (n =? 92)%nat || (n <? 32)%nat then None
      else cadeia r (c :: acc)
  | [] => None
  end.

Definition literal (palavra : string) (s : list ascii) : option (list ascii) :=
  let p := list_ascii_of_string palavra in
  if String.eqb (string_of_list_ascii (take (length p) s)) palavra
  then Some (drop (length p) s)
  else None.

Fixpoint valor (n : nat) (s : list ascii) : option (json * list ascii) :=
  match n with
  | O => None
  | S n' =>
      match pular_espacos s with
      | [] => None
      | c :: r =>
          let codigo := nat_of_ascii c in
          if (codigo =? 34)%nat then
            match cadeia r [] with
            | Some (texto, r') => Some (JStr texto, r')
            | None => None
            end
          else if Ascii.eqb c "["%char then
            match pular_espacos r with
            | c' :: r' =>
                if Ascii.eqb c' "]"%char then Some (JList [], r')
                else
                  (fix elementos (m : nat) (s : list ascii) (acc : list json)
                     : option (json * list ascii) :=
                     match m with
                     | O => None
                     | S m' =>
                         match valor n' s with
                         | Some (v, s1) =>
                             match pular_espacos s1 with
                             | c1 :: s2 =>
                                 if Ascii.eqb c1 ","%char
                                 then elementos m' s2 (acc ++ [v])
                                 else if Ascii.eqb c1 "]"%char
                                 then Some (JList (acc ++ [v]), s2)
                                 else None
                             | [] => None
                             end
                         | None => None
                         end
                     end) n' (c' :: r') []
            | [] => None
            end
          else if Ascii.eqb c "{"%char then
            match pular_espacos r with
            | c' :: r' =>
                if Ascii.eqb c' "}"%char then Some (JDict [], r')
                else
                  (fix membros (m : nat) (s : list ascii) (acc : pydict)
                     : option (json * list ascii) :=
                     match m with
                     | O => None
                     | S m' =>
                         match pular_espacos s with
                         | q :: s0 =>
                             if (nat_of_ascii q =? 34)%nat then
                               match cadeia s0 [] with
                               | Some (chave, s1) =>
                                   match pular_espacos s1 with
                                   | c1 :: s2 =>
                                       if Ascii.eqb c1 ":"%char then
                                         match valor n' s2 with
                                         | Some (v, s3) =>
                                             match pular_espacos s3 with
                                             | c2 :: s4 =>
                                                 if Ascii.eqb c2 ","%char
                                                 then membros m' s4 (dict_set chave v acc)
                                                 else if Ascii.eqb c2 "}"%char
                                                 then Some (JDict (dict_set chave v acc), s4)
                                                 else None
                                             | [] => None
                                             end
                                         | None => None
                                         end
                                       else None
                                   | [] => None
                                   end
                               | None => None
                               end
                             else None
                         | [] => None
                         end
                     end) n' (c' :: r') []
            | [] => None
            end
          else
            match literal "null" (c :: r), literal "true" (c :: r),
                  literal "false" (c :: r) with
            | Some r', _, _ => Some (JNull, r')
            | _, Some r', _ => Some (JBool true, r')
            | _, _, Some r' => Some (JBool false, r')
            | _, _, _ =>
                match inteiro (c :: r) with
                | Some (z, r') => Some (JInt z, r')
                | None => None
                end
            end
      end
  end.

Definition json_loads (texto : string) : result json :=
  match valor (S (String.length texto)) (list_ascii_of_string texto) with
  | Some (v, resto) =>
      match pular_espacos resto with
      | [] => Ok v
      | _ => Raise JSONDecodeError
      end
  | None => Raise JSONDecodeError
  end.

(** A text between double quotes. *)
Definition entre_aspas (s : string) : string :=
  String (ascii_of_nat 34) (s +:+ String (ascii_of_nat 34) EmptyString).

(** ** An environment for [Legislacao.py] and [BuscaFaiss.py] *)

(** The portal's answers: a page that is no JSON, a bare number, an empty
    array, and a table of two rows. *)
Definition tabela_de_duas_linhas : string :=
  "/*-secure-" +:+ nl
  +:+ "[{" +:+ entre_aspas "ResultRows" +:+ ": [{"
  +:+ entre_aspas "Path" +:+ ": " +:+ entre_aspas "https://sp/lei1" +:+ ", "
  +:+ entre_aspas "PublishingPageContentOWSHTML" +:+ ": "
  +:+ entre_aspas "<p>um</p>" +:+ "}, {"
  +:+ entre_aspas "Path" +:+ ": " +:+ entre_aspas "https://sp/lei2" +:+ ", "
  +:+ entre_aspas "PublishingPageContentOWSHTML" +:+ ": "
  +:+ entre_aspas "<p>dois</p>" +:+ "}]}]" +:+ nl +:+ "*/".

Definition pagina_expirada : string :=
  "<html><body>Sessao expirada</body></html>".

Definition portal (termo : string) : Legislacao.resposta_http :=
  if String.eqb termo "pagina" then Legislacao.Resposta 200 pagina_expirada
  else if String.eqb termo "numero" then Legislacao.Resposta 200 "5"
  else if String.eqb termo "vazio" then Legislacao.Resposta 200 "[]"
  else if String.eqb termo "acucar" then
    Legislacao.Resposta 200 tabela_de_duas_linhas
  else Legislacao.HTTPError 403.

(** An embedding into three dimensions. *)
Definition encode (texto : string) : list Q :=
  [inject_Z (Z.of_nat (String.length texto));
   inject_Z (Z.of_nat (String.length texto) mod 7); 1%Q].

(** The squared Euclidean distance, computed exactly. *)
Fixpoint l2 (x y : list Q) : Q :=
  match x, y with
  | a :: x', b :: y' => ((a - b) * (a - b) + l2 x' y')%Q
  | _, _ => 0%Q
  end.

(** Vectors at the same distance come in the order of their positions. *)
Definition desempate (index : indice) (x : list Q) (k : nat) (posicao : Z)
  : Z := posicao.

Definition grava_tudo (nome : string) : Legislacao.gravacao :=
  Legislacao.Gravada.

(** A number format for the examples, which do not read the digits. *)
Definition fmt_fixo (q : Q) : string := "0.0000".

(** The two rows extracted from [resposta_prof3]. *)
Definition linhas_prof3 : list Legislacao.resultado :=
  [Legislacao.Resultado 0 (JStr "https://sp/lei1")
     ("PATH: https://sp/lei1" +:+ nl +:+ "CONTEÚDO: <p>um</p>");
   Legislacao.Resultado 1 (JStr "https://sp/lei3")
     ("PATH: https://sp/lei3" +:+ nl +:+ "CONTEÚDO: <p>tres</p>")].

(** An index of three vectors with its metadata. *)
Definition indice_icms : indice :=
  Indice 3 [[4%Q; 0%Q; 1%Q]; [9%Q; 2%Q; 1%Q]; [6%Q; 6%Q; 1%Q]].

Definition metadados_icms : list json :=
  map Legislacao.metadado_json
    [Legislacao.Resultado 0 (JStr "https://sp/lei1") "PATH: https://sp/lei1";
     Legislacao.Resultado 1 (JStr "https://sp/lei2") "PATH: https://sp/lei2";
     Legislacao.Resultado 2 (JStr "https://sp/lei3") "PATH: https://sp/lei3"].

(** ** An environment for [LLM.py] *)

(** The model answers the term request with a blank [termo_curto], and
    the analysis request with a text that has no heading. *)
Definition termos_em_branco : string :=
  "{" +:+ entre_aspas "termo_curto" +:+ ": " +:+ entre_aspas "   " +:+ ", "
  +:+ entre_aspas "termo_completo" +:+ ": "
  +:+ entre_aspas "Legislacao sobre ICMS na venda de acucar" +:+ "}".

Definition analise_sem_titulo : string :=
  "O documento trata de uma venda de acucar. Nenhum beneficio foi identificado.".

Definition gemini_em_branco (formato_json : bool) (contents : string)
  : LLM.resposta_gemini :=
  if formato_json then LLM.GeminiTexto (Some termos_em_branco)
  else LLM.GeminiTexto (Some analise_sem_titulo).

Definition ler_nota (caminho : string) : option string :=
  if String.eqb caminho "nota.xml" then Some nota_acucar else None.

Definition scripts_ok (comando : list string) : LLM.processo :=
  match comando with
  | [_; "BuscaFaiss.py"; _; _] => LLM.Concluido trechos_acucar
  | _ => LLM.Concluido "ok"
  end.

Definition pdf_ok (nome_pdf conteudo_markdown : string) : bool := true.


(** A file system on which the write of every [.faiss] file is
    interrupted and every other write goes through. *)
Definition interrompe_faiss (nome : string) : Legislacao.gravacao :=
  if contains ".faiss" nome then Legislacao.Interrompida
  else Legislacao.Gravada.


(** The model answers the term request with the two terms, and the
    analysis request with a text under a heading. *)
Definition termos_acucar : string :=
  "{" +:+ entre_aspas "termo_curto" +:+ ": " +:+ entre_aspas " acucar " +:+ ", "
  +:+ entre_aspas "termo_completo" +:+ ": "
  +:+ entre_aspas "Legislacao sobre ICMS na venda de acucar" +:+ "}".

Definition analise_acucar : string :=
  "# Analise" +:+ nl +:+ "Venda de acucar com base reduzida.".

Definition gemini_acucar (formato_json : bool) (contents : string)
  : LLM.resposta_gemini :=
  if formato_json then LLM.GeminiTexto (Some termos_acucar)
  else LLM.GeminiTexto (Some analise_acucar).

(** [Legislacao.py] ends with an error. *)
Definition scripts_sem_corpus (comando : list string) : LLM.processo :=
  match comando with
  | [_; "Legislacao.py"; _] => LLM.CalledProcessError 1 "Traceback"
  | _ => LLM.Concluido "ok"
  end.

(** [BuscaFaiss.py] ends with an error. *)
Definition scripts_sem_busca (comando : list string) : LLM.processo :=
  match comando with
  | [_; "BuscaFaiss.py"; _; _] => LLM.CalledProcessError 1 "Traceback"
  | _ => LLM.Concluido "ok"
  end.
End Exemplos.

(* ===================================================================== *)
(** * Predicates used to state further properties                         *)
(* ===================================================================== *)

Module Propriedades.
Import Py Disco.

(** What a row kept by the extraction looks like: a truthy path, and a
    text built from that path and a truthy content. *)
Definition linha_mantida (py_repr : json -> string)
  (r : Legislacao.resultado) : Prop :=
  truthy (Legislacao.res_path r) = true
  /\ exists conteudo,
      truthy conteudo = true
      /\ Legislacao.res_conteudo r
         = Legislacao.texto_concatenado py_repr (Legislacao.res_path r)
             conteudo.

(** What a file is after a guarded write of a new content, from how the
    write ended and what the file was before. *)
Definition apos_gravar (g : Legislacao.gravacao) (novo : arquivo)
  (antes : option arquivo) : option arquivo :=
  match g with
  | Legislacao.Gravada => Some novo
  | Legislacao.Recusada => antes
  | Legislacao.Interrompida => Some ArqIncompleto
  end.

(** The four lines the query prints for the result of a rank, with its
    distance and the dictionary the metadata file holds for it. *)
Definition bloco (py_repr : json -> string) (fmt_4f : Q -> string)
  (rank : nat) (distancia : Q) (doc : pydict) : string :=
  "--- DOCUMENTO RANK " +:+ BuscaFaiss.str py_repr (JInt (Z.of_nat rank))
  +:+ " ---" +:+ nl
  +:+ "URL/Fonte: "
  +:+ BuscaFaiss.str py_repr (default (JStr "N/A") (dict_lookup "path" doc))
  +:+ nl
  +:+ "Distância (Similaridade): " +:+ fmt_4f distancia +:+ nl
  +:+ "Conteúdo:" +:+ nl
  +:+ BuscaFaiss.str py_repr (default JNull (dict_lookup "conteudo" doc))
  +:+ nl +:+ nl.

(** [os.path.basename(p)]: what follows the last [/]. *)
Definition componente_final (p : string) : string :=
  slice p (rfind "/"%char p + 1) (Z.of_nat (String.length p)).

(** The events of a trace that belong to the stages after the Term
    Extractor. *)
Definition etapas_posteriores (t : list LLM.evento) : list LLM.evento :=
  filter (fun e => LLM.etapa_posterior e = true) t.

(** The rendering events of a list of renderings. *)
Definition como_eventos (rs : list (string * string * bool))
  : list LLM.evento :=
  map (fun r : string * string * bool => LLM.GeraPdf r.1.1 r.1.2 r.2) rs.

End Propriedades.
(* ===================================================================== *)
(** * Induction over nested values                                        *)
(* ===================================================================== *)

Module PyFacts.
Import Py.

Lemma peso_elemento (x : json) (xs : list json) :
  x ∈ xs -> peso x < peso (JList xs).
Proof.
  induction 1 as [x xs | x y xs _ IH]; simpl in *; lia.
Qed.

Lemma peso_campo (k : string) (v : json) (kvs : pydict) :
  (k, v) ∈ kvs -> peso v < peso (JDict kvs).
Proof.
  intros H. remember (k, v) as kv eqn:E. revert E.
  induction H as [kv kvs | kv kv' kvs _ IH]; intros ->; simpl in *.
  - lia.
  - specialize (IH eq_refl). lia.
Qed.

(** A property that holds of scalars, of a list whenever it holds of the
    elements, and of a dictionary whenever it holds of the values, holds of
    every value. *)
Lemma json_nested (P : json -> Prop) :
  P JNull ->
  (forall b, P (JBool b)) ->
  (forall z, P (JInt z)) ->
  (forall q, P (JFloat q)) ->
  (forall s, P (JStr s)) ->
  (forall xs, Forall P xs -> P (JList xs)) ->
  (forall kvs, Forall (fun kv => P kv.2) kvs -> P (JDict kvs)) ->
  forall v, P v.
Proof.
  intros Hn Hb Hz Hq Hs Hl Hd v.
  remember (peso v) as n eqn:En. revert v En.
  induction n as [n IH] using lt_wf_ind. intros v ->.
  destruct v; auto.
  - apply Hl, Forall_forall. intros x Hx.
    apply (IH (peso x)); [now apply peso_elemento | reflexivity].
  - apply Hd, Forall_forall. intros [k x] Hx.
    apply (IH (peso x)); [now apply (peso_campo k) | reflexivity].
Qed.

(** ** Concatenation of strings *)

Lemma append_cons (x : ascii) (a b : string) :
  String x a +:+ b = String x (a +:+ b).
Proof. reflexivity. Qed.

Lemma append_associativa (a b c : string) : (a +:+ b) +:+ c = a +:+ (b +:+ c).
Proof.
  induction a as [ | x a IH]; [done | ]. rewrite !append_cons. by f_equal.
Qed.

Lemma append_vazio (a : string) : a +:+ "" = a.
Proof.
  induction a as [ | x a IH]; [done | ]. rewrite append_cons. by f_equal.
Qed.

Lemma length_append (a b : string) :
  String.length (a +:+ b) = String.length a + String.length b.
Proof.
  induction a as [ | x a IH]; [done | ].
  rewrite append_cons. simpl. by rewrite IH.
Qed.

End PyFacts.


(* ===================================================================== *)
(** * Legislacao.py: what the extraction returns                          *)
(* ===================================================================== *)

Module LegislacaoFacts.
Import Py PyFacts Disco Legislacao.

(** ** [find], [rfind] and the slice *)

Lemma get_ausente (c : ascii) (s : string) :
  ocorre c s = false -> forall m, String.get m s <> Some c.
Proof.
  induction s as [ | a s IH]; simpl; intros H m; [by destruct m | ].
  apply orb_false_iff in H as [Ha Hs].
  destruct m as [ | m]; simpl.
  - intros [= ->]. by rewrite Ascii.eqb_refl in Ha.
  - by apply IH.
Qed.

Lemma find_from_ausente (c : ascii) (s : string) (i : Z) :
  ocorre c s = false -> find_from c s i = (-1)%Z.
Proof.
  revert i. induction s as [ | a s IH]; simpl; intros i H; [done | ].
  apply orb_false_iff in H as [-> Hs]. by apply IH.
Qed.

Lemma find_from_primeira (c : ascii) (s : string) (i : Z) :
  ocorre c s = true ->
  exists n : nat, find_from c s i = (i + Z.of_nat n)%Z /\ primeira c s n.
Proof.
  revert i. induction s as [ | a s IH]; simpl; intros i H; [done | ].
  destruct (Ascii.eqb_spec a c) as [-> | Hac].
  - exists 0. split; [lia | ]. split; [done | ]. lia.
  - simpl in H. destruct (IH (i + 1)%Z H) as (n & Hn & Hg & Hm).
    exists (S n). split; [lia | ]. split; [done | ].
    intros [ | m] Hlt; simpl; [congruence | ]. apply Hm. lia.
Qed.

Lemma rfind_from_ausente (c : ascii) (s : string) (i last : Z) :
  ocorre c s = false -> rfind_from c s i last = last.
Proof.
  revert i last. induction s as [ | a s IH]; simpl; intros i last H; [done | ].
  apply orb_false_iff in H as [-> Hs]. by apply IH.
Qed.

Lemma rfind_from_ultima (c : ascii) (s : string) (i last : Z) :
  ocorre c s = true ->
  exists n : nat, rfind_from c s i last = (i + Z.of_nat n)%Z /\ ultima c s n.
Proof.
  revert i last. induction s as [ | a s IH]; simpl; intros i last H; [done | ].
  destruct (ocorre c s) eqn:Hs.
  - destruct (IH (i + 1)%Z (if Ascii.eqb a c then i else last) eq_refl)
      as (n & Hn & Hg & Hm).
    exists (S n). split; [lia | ]. split; [done | ].
    intros [ | m] Hlt; simpl; [lia | ]. apply Hm. lia.
  - rewrite orb_false_r in H. rewrite H.
    rewrite rfind_from_ausente by done.
    exists 0. split; [lia | ]. apply Ascii.eqb_eq in H as ->.
    split; [done | ]. intros [ | m] Hlt; simpl; [lia | ].
    by apply get_ausente.
Qed.

(** A value without lists has no [ResultRows] list to offer. *)
Lemma buscar_result_rows_sem_listas (py_repr : json -> string) (item : json) :
  forall acc,
    sem_listas item = true ->
    buscar_result_rows py_repr item acc = Ok acc.
Proof.
  induction item as [ | | | | | xs IH | kvs IH] using json_nested;
    intros acc H; simpl in *; try done.
  revert acc H. induction IH as [ | [k v] kvs Hv _ IHkvs]; intros acc H; [done | ].
  apply andb_true_iff in H as [H1 H2].
  assert (result_rows k v = None) as ->.
  { destruct v; try done. }
  rewrite Hv by done. by apply IHkvs.
Qed.

Section ExtracaoFacts.

Variable py_repr : json -> string.

Lemma length_numerar (n : nat) (l : list (json * string)) :
  length (numerar n l) = length l.
Proof.
  revert n. induction l as [ | [p t] l IH]; intros n; simpl; [ | rewrite IH]; done.
Qed.

Lemma numerar_app (n : nat) (l1 l2 : list (json * string)) :
  numerar n (l1 ++ l2) = numerar n l1 ++ numerar (n + length l1) l2.
Proof.
  revert n. induction l1 as [ | [p t] l1 IH]; intros n; simpl.
  - by rewrite Nat.add_0_r.
  - rewrite IH. do 3 f_equal. lia.
Qed.

Lemma ids_numerar (n : nat) (l : list (json * string)) :
  map res_id (numerar n l) = seq n (length l).
Proof.
  revert n. induction l as [ | [p t] l IH]; intros n; simpl; [ | rewrite IH]; done.
Qed.

Lemma campos_numerar (n : nat) (l : list (json * string)) :
  map campos (numerar n l) = l.
Proof.
  revert n. induction l as [ | [p t] l IH]; intros n; simpl; [ | rewrite IH]; done.
Qed.

(** The row loop appends the valid rows, numbered from the current length
    of the list on. *)
Lemma linhas_numera (rows : list json) (acc : list resultado) :
  forallb eh_dict rows = true ->
  linhas py_repr rows acc
  = Ok (acc ++ numerar (length acc) (linhas_validas py_repr rows)).
Proof.
  revert acc. induction rows as [ | row rows IH]; intros acc H; simpl in *.
  - by rewrite app_nil_r.
  - apply andb_true_iff in H as [Hrow Hrows].
    destruct row; try discriminate. simpl.
    destruct (truthy _ && truthy _); simpl.
    + rewrite IH by done. rewrite length_app, <- app_assoc. simpl.
      by rewrite Nat.add_1_r.
    + by apply IH.
Qed.

(** The recursive search appends what [visita] lists. *)
Lemma buscar_result_rows_visita (item : json) :
  forall acc,
    linhas_sao_dicts item = true ->
    buscar_result_rows py_repr item acc
    = Ok (acc ++ numerar (length acc) (visita py_repr item)).
Proof.
  induction item as [ | | | | | xs IH | kvs IH] using json_nested;
    intros acc H; simpl; try by rewrite app_nil_r.
  - revert acc H. induction IH as [ | x xs Hx _ IHxs]; intros acc H; simpl in *.
    + by rewrite app_nil_r.
    + apply andb_true_iff in H as [H1 H2].
      rewrite Hx by done. rewrite IHxs by done.
      rewrite numerar_app, length_app, length_numerar, <- app_assoc. done.
  - revert acc H. induction IH as [ | [k v] kvs Hv _ IHkvs]; intros acc H; simpl in *.
    + by rewrite app_nil_r.
    + destruct (result_rows k v) as [rows | ].
      * by apply linhas_numera.
      * apply andb_true_iff in H as [H1 H2].
        rewrite Hv by done. rewrite IHkvs by done.
        rewrite numerar_app, length_app, length_numerar, <- app_assoc. done.
Qed.

(** The extraction returns only when every row it reached was a
    dictionary. *)
Lemma linhas_retorna (rows : list json) (acc acc' : list resultado) :
  linhas py_repr rows acc = Ok acc' -> forallb eh_dict rows = true.
Proof.
  revert acc. induction rows as [ | row rows IH]; intros acc; simpl; [done | ].
  destruct row; try discriminate. simpl.
  destruct (truthy _ && truthy _); apply IH.
Qed.

Lemma buscar_result_rows_retorna (item : json) :
  forall acc acc',
    buscar_result_rows py_repr item acc = Ok acc' ->
    linhas_sao_dicts item = true.
Proof.
  induction item as [ | | | | | xs IH | kvs IH] using json_nested;
    intros acc acc'; simpl; try done.
  - revert acc. induction IH as [ | x xs Hx _ IHxs]; intros acc; simpl; [done | ].
    destruct (buscar_result_rows py_repr x acc) as [acc1 | ] eqn:E; [ | done].
    intros H. apply andb_true_iff. split; [by eapply Hx | by eapply IHxs].
  - revert acc. induction IH as [ | [k v] kvs Hv _ IHkvs]; intros acc; simpl in *; [done | ].
    destruct (result_rows k v) as [rows | ]; [apply linhas_retorna | ].
    destruct (buscar_result_rows py_repr v acc) as [acc1 | ] eqn:E; [ | done].
    intros H. apply andb_true_iff. split; [by eapply Hv | by eapply IHkvs].
Qed.

(** Whatever the extraction returns is numbered 0, 1, 2, ... *)
Lemma extrair_ids (dados : json) (resultados : list resultado) :
  extrair_resultados_recursivamente py_repr dados = Ok resultados ->
  map res_id resultados = seq 0 (length resultados).
Proof.
  unfold extrair_resultados_recursivamente. intros H.
  pose proof (buscar_result_rows_retorna _ _ _ H) as Hd.
  rewrite buscar_result_rows_visita in H by done. simpl in H.
  injection H as <-. by rewrite ids_numerar, length_numerar.
Qed.

(** What the extraction returns, in the order the code goes: the valid
    rows of the [ResultRows] lists it reaches, numbered from 0. *)
Lemma extrair_visita (dados : json) :
  linhas_sao_dicts dados = true ->
  extrair_resultados_recursivamente py_repr dados
  = Ok (numerar 0 (visita py_repr dados)).
Proof.
  intros H. unfold extrair_resultados_recursivamente.
  by rewrite buscar_result_rows_visita.
Qed.

(** C2 (amended).  On a parsed structure in which every [ResultRows] list
    reached has only dictionaries as rows, and in which leaving a
    dictionary at its first [ResultRows] list skips no valid row (the
    traversal that leaves there lists the same rows as the full one, as it
    does when scalars such as a row count follow the list), the extraction
    visits every nested dictionary and list that is not inside a
    [ResultRows] list; of each such list it keeps exactly the rows whose
    [Path] and HTML content are both truthy, in traversal order, without
    entering the list; the kept rows carry the ids 0, 1, 2, ...  In
    particular the structure with one array at depth 3 holding two valid
    rows and one row without [Path] yields two rows, with ids 0 and 1, and
    the [ResultRows] nested in its first row is not entered. *)
Theorem extracao_recursiva (dados : json) :
  linhas_sao_dicts dados = true ->
  visita py_repr dados = travessia py_repr dados ->
  exists rs : list resultado,
    extrair_resultados_recursivamente py_repr dados = Ok rs
    /\ map campos rs = travessia py_repr dados
    /\ map res_id rs = seq 0 (length rs)
    /\ (exists r0 r1 : resultado,
          extrair_resultados_recursivamente py_repr Exemplos.resposta_prof3
          = Ok [r0; r1]
          /\ res_id r0 = 0 /\ res_path r0 = JStr "https://sp/lei1"
          /\ res_id r1 = 1 /\ res_path r1 = JStr "https://sp/lei3").
Proof.
  intros Hd Hu. rewrite (extrair_visita _ Hd).
  eexists. split; [reflexivity | ].
  split; [by rewrite campos_numerar | ].
  split; [by rewrite ids_numerar, length_numerar | ].
  do 2 eexists. split; [reflexivity | ]. by repeat split.
Qed.

End ExtracaoFacts.

(** The theorem at the depth-3 structure whose [ResultRows] list is
    followed by a row count and a table type. *)
Lemma extracao_recursiva_prof3 :
  exists rs : list resultado,
    extrair_resultados_recursivamente Exemplos.repr_escalar
      Exemplos.resposta_com_contagem = Ok rs
    /\ map campos rs
       = travessia Exemplos.repr_escalar Exemplos.resposta_com_contagem
    /\ map res_id rs = seq 0 (length rs)
    /\ (exists r0 r1 : resultado,
          extrair_resultados_recursivamente Exemplos.repr_escalar
            Exemplos.resposta_prof3 = Ok [r0; r1]
          /\ res_id r0 = 0 /\ res_path r0 = JStr "https://sp/lei1"
          /\ res_id r1 = 1 /\ res_path r1 = JStr "https://sp/lei3").
Proof.
  apply (extracao_recursiva Exemplos.repr_escalar
           Exemplos.resposta_com_contagem); reflexivity.
Defined.

(** C2 as stated fails.  In this structure the dictionary under [Outras]
    is inside no [ResultRows] array, and the first row of the first array
    has both a [Path] and an HTML content field.  The extraction returns
    one row only: it does not visit [Outras], which follows a [ResultRows]
    list in the same dictionary, and it skips the row whose [Path] is the
    empty string. *)
Lemma extracao_deixa_o_dicionario :
  (exists r : resultado,
     extrair_resultados_recursivamente Exemplos.repr_escalar
       Exemplos.resposta_irmaos = Ok [r]
     /\ res_id r = 0 /\ res_path r = JStr "https://sp/lei1")
  /\ map fst (travessia Exemplos.repr_escalar Exemplos.resposta_irmaos)
     = [JStr "https://sp/lei1"; JStr "https://sp/lei2"]
  /\ (exists campos : pydict,
        Exemplos.linha_path_vazio = JDict campos
        /\ dict_lookup "Path" campos = Some (JStr "")
        /\ dict_lookup "PublishingPageContentOWSHTML" campos
           = Some (JStr "<p>zero</p>")).
Proof.
  split; [ | split; [reflexivity | ] ].
  - eexists. split; [reflexivity | by split].
  - eexists. split; [reflexivity | by split].
Qed.

(** ** The main block *)

(** A message that is none of the messages of an explicit list. *)
Ltac fora_da_lista :=
  let H := fresh "H" in
  intros H;
  repeat (apply elem_of_cons in H as [H | H]; [done | ]);
  by apply elem_of_nil in H.

Lemma append_injetiva (a b c : string) : a +:+ b = a +:+ c -> b = c.
Proof.
  induction a as [ | x a IH]; simpl; [done | ]. intros [= H]. by apply IH.
Qed.

Lemma size_positivo (a : ndarray) (d : nat) :
  0 < d -> 0 < length a -> Forall (fun v => length v = d) a -> size a <> 0.
Proof.
  intros Hd Hn Ha. destruct Ha as [ | v a Hv _]; simpl in *; [lia | ].
  unfold size. simpl. lia.
Qed.

Lemma resultado_eta (resultados : list resultado) :
  map (fun item => Resultado (res_id item) (res_path item) (res_conteudo item))
    resultados = resultados.
Proof.
  induction resultados as [ | [i p c] l IH]; simpl; [ | rewrite IH]; done.
Qed.

Section FluxoFacts.

Variable py_repr : json -> string.
Variable json_loads : string -> result json.
Variable encode : string -> list Q.
Variable portal : string -> resposta_http.
Variable gravacao_de : string -> gravacao.

(** What the slice is: the text from the first [[] to the last []]. *)
Lemma isolar_fatia (texto : string) :
  if ocorre "["%char texto && ocorre "]"%char texto
  then exists i j : nat,
      primeira "["%char texto i
      /\ ultima "]"%char texto j
      /\ isolar texto = String.substring i (j + 1 - i) texto
  else isolar texto = texto.
Proof.
  unfold isolar, find, rfind.
  destruct (ocorre "["%char texto) eqn:Ha; simpl.
  - destruct (ocorre "]"%char texto) eqn:Hf.
    + destruct (find_from_primeira _ _ 0%Z Ha) as (i & Hi & Hpi).
      destruct (rfind_from_ultima _ _ 0%Z (-1)%Z Hf) as (j & Hj & Huj).
      exists i, j. rewrite Hi, Hj. do 2 (split; [done | ]).
      replace (0 + Z.of_nat i =? -1)%Z with false by (symmetry; lia).
      replace (0 + Z.of_nat j =? -1)%Z with false by (symmetry; lia).
      simpl. unfold slice. f_equal; lia.
    + rewrite (rfind_from_ausente _ _ _ _ Hf). simpl. by rewrite andb_false_r.
  - by rewrite (find_from_ausente _ _ _ Ha).
Qed.

Lemma isolar_sem_par (texto : string) :
  ocorre "["%char texto && ocorre "]"%char texto = false ->
  isolar texto = texto.
Proof.
  intros H. pose proof (isolar_fatia texto) as Hi. by rewrite H in Hi.
Qed.

(** C4 (amended).  For the body of a portal response: when it holds both a
    [[] and a []], what is decoded is the text from the first [[] to the
    last []]; otherwise the whole body is decoded.  When decoding fails
    the failure is printed, no file is written and the process ends
    normally.  A body without such a pair is reported as a failure exactly
    when the whole body is not JSON: if it decodes, no failure is printed,
    and when the decoded value holds no list (as a value decoded from a
    text without [[] does) no file is written either. *)
Theorem corpo_isolado (script termo texto : string) (status_code : nat)
  (fs : disco) :
  portal termo = Resposta status_code texto ->
  (if ocorre "["%char texto && ocorre "]"%char texto
   then exists i j : nat,
       primeira "["%char texto i
       /\ ultima "]"%char texto j
       /\ isolar texto = String.substring i (j + 1 - i) texto
   else isolar texto = texto)
  /\ (forall e, json_loads (isolar texto) = Raise e ->
      exists erro,
        (erro = MsgErroDesserializacao \/ erro = MsgErroInesperado)
        /\ main py_repr json_loads encode portal gravacao_de
             [script; termo] fs
           = ([MsgFazendoRequisicao termo; MsgResposta status_code; erro],
              fs, Saiu 0))
  /\ (forall v,
        ocorre "["%char texto && ocorre "]"%char texto = false ->
        json_loads texto = Ok v ->
        desserializar_json_resistente json_loads texto = ([], v)
        /\ (sem_listas v = true ->
            exists msgs,
              main py_repr json_loads encode portal gravacao_de
                [script; termo] fs = (msgs, fs, Saiu 0)
              /\ (MsgErroDesserializacao ∉ msgs)
              /\ (MsgErroInesperado ∉ msgs))).
Proof.
  intros Hp. split; [apply isolar_fatia | ]. split.
  - intros e He. unfold main, fazer_requisicao_fazenda_sp.
    rewrite Hp. unfold desserializar_json_resistente. rewrite He.
    destruct e; simpl; eexists; (split; [ | reflexivity]); auto.
  - intros v Hpar Hv.
    assert (Hd : desserializar_json_resistente json_loads texto = ([], v)).
    { unfold desserializar_json_resistente.
      by rewrite (isolar_sem_par _ Hpar), Hv. }
    split; [done | ]. intros Hl.
    unfold main, fazer_requisicao_fazenda_sp. rewrite Hp, Hd.
    destruct (truthy v).
    + unfold extrair_e_indexar, extrair_resultados_recursivamente.
      rewrite buscar_result_rows_sem_listas by done. simpl.
      eexists. split; [reflexivity | ].
      split; fora_da_lista.
    + eexists. split; [reflexivity | ].
      split; fora_da_lista.
Qed.

(** C8 (amended).  When the decoded payload is truthy and the extraction
    returns no row, the index build is skipped, the warning is printed, no
    file is written and the process ends normally.  When the decoded
    payload is itself falsy (an empty array or object, [null], or nothing
    decoded at all) the build is skipped and no file is written as well,
    but no warning is printed. *)
Theorem sem_linhas_sem_indice (script termo texto : string) (status_code : nat)
  (fs : disco) :
  portal termo = Resposta status_code texto ->
  truthy (desserializar_json_resistente json_loads texto).2 = false
  \/ extrair_resultados_recursivamente py_repr
       (desserializar_json_resistente json_loads texto).2 = Ok [] ->
  exists msgs,
    main py_repr json_loads encode portal gravacao_de [script; termo] fs
    = (msgs, fs, Saiu 0)
    /\ (MsgNenhumaLinha ∈ msgs
        <-> truthy (desserializar_json_resistente json_loads texto).2 = true)
    /\ (MsgProcessando ∉ msgs)
    /\ (forall d n, MsgConstruindo d n ∉ msgs).
Proof.
  intros Hp H. unfold main, fazer_requisicao_fazenda_sp. rewrite Hp.
  destruct (desserializar_json_resistente json_loads texto) as [m2 dados] eqn:Hd.
  assert (Hm2 : m2 = [] \/ m2 = [MsgErroDesserializacao]
                \/ m2 = [MsgErroInesperado]).
  { revert Hd. unfold desserializar_json_resistente.
    destruct (json_loads _) as [ | []]; intros [= <- _]; auto. }
  cbn [snd] in *. destruct (truthy dados) eqn:Ht.
  - destruct H as [ | He]; [done | ].
    unfold extrair_e_indexar. rewrite He. simpl.
    eexists. split; [reflexivity | ]. split; [ | split].
    + split; [done | ]. intros _. rewrite !elem_of_cons, !elem_of_app.
      right. right. right. apply elem_of_cons. right. by left.
    + destruct Hm2 as [-> | [-> | ->]]; simpl; fora_da_lista.
    + intros d n. destruct Hm2 as [-> | [-> | ->]]; simpl; fora_da_lista.
  - eexists. split; [reflexivity | ]. split; [ | split].
    + split; [ | done]. destruct Hm2 as [-> | [-> | ->]]; simpl; fora_da_lista.
    + destruct Hm2 as [-> | [-> | ->]]; simpl; fora_da_lista.
    + intros d n. destruct Hm2 as [-> | [-> | ->]]; simpl; fora_da_lista.
Qed.

(** C3.  For the N >= 1 rows the extraction returned, with an embedding
    model of dimension d >= 1 and both writes going through: the files
    built and then loaded by the Retriever give an index of exactly N
    vectors, each of dimension d (the index's own), and a metadata list of
    exactly N entries whose entry at position i has id i. *)
Theorem indice_e_metadados_alinhados (d : nat) (dados : json)
  (resultados : list resultado) (termo : string) (fs : disco) :
  0 < d ->
  (forall texto, length (encode texto) = d) ->
  extrair_resultados_recursivamente py_repr dados = Ok resultados ->
  0 < length resultados ->
  gravacao_de ("faiss_index_" +:+ termo +:+ ".faiss") = Gravada ->
  gravacao_de ("faiss_index_" +:+ termo +:+ "_metadados.json") = Gravada ->
  exists (index : indice) (metadados : list json),
    BuscaFaiss.carregar_indice_e_metadados termo
      (construir_e_salvar_indice_faiss gravacao_de
         (processar_para_faiss encode resultados).2
         ("faiss_index_" +:+ termo) fs).2
    = ([BuscaFaiss.MsgCarregado termo], Some (index, JList metadados))
    /\ ntotal index = length resultados
    /\ dimensao_de index = d
    /\ Forall (fun v => length v = d) (vetores_de index)
    /\ length metadados = length resultados
    /\ forall i, i < length resultados ->
         exists doc,
           metadados !! i = Some (JDict doc)
           /\ dict_lookup "id" doc = Some (JInt (Z.of_nat i)).
Proof.
  intros Hd Henc Hext Hn Hg1 Hg2.
  pose proof (extrair_ids py_repr _ _ Hext) as Hids.
  assert (Hproc : (processar_para_faiss encode resultados).2
                  = DadosProcessados (map encode (map res_conteudo resultados))
                      resultados).
  { unfold processar_para_faiss. destruct resultados as [ | r l]; [simpl in Hn; lia | ].
    cbn [snd]. f_equal. apply resultado_eta. }
  rewrite Hproc. clear Hproc.
  set (vs := map encode (map res_conteudo resultados)).
  assert (Hvs : Forall (fun v => length v = d) vs).
  { apply Forall_forall. intros v Hv. unfold vs in Hv.
    apply list_elem_of_fmap in Hv as (t & -> & _). apply Henc. }
  assert (Hlen : length vs = length resultados).
  { unfold vs. by rewrite !length_map. }
  assert (Hs1 : shape1 vs = d).
  { unfold shape1. destruct Hvs as [ | v a Hv _]; [simpl in Hlen; lia | done]. }
  unfold construir_e_salvar_indice_faiss. cbn [vetores metadados].
  assert (Hsz : (size vs =? 0)%nat = false).
  { apply Nat.eqb_neq. apply (size_positivo _ d); [done | lia | done]. }
  rewrite Hsz. unfold gravar.
  change (("faiss_index_" +:+ termo) +:+ ".faiss")
    with ("faiss_index_" +:+ termo +:+ ".faiss").
  change (("faiss_index_" +:+ termo) +:+ "_metadados.json")
    with ("faiss_index_" +:+ termo +:+ "_metadados.json").
  rewrite Hg1, Hg2. cbn [snd].
  unfold BuscaFaiss.carregar_indice_e_metadados.
  rewrite lookup_insert_ne.
  2:{ intros H. apply append_injetiva, append_injetiva in H. discriminate. }
  rewrite !lookup_insert_eq.
  eexists _, _. split; [reflexivity | ].
  unfold ntotal. cbn [vetores_de dimensao_de].
  repeat split; try done.
  - by rewrite length_map.
  - intros i Hi.
    destruct (lookup_lt_is_Some_2 resultados i Hi) as [r Hr].
    exists [("id", JInt (Z.of_nat (res_id r))); ("path", res_path r);
            ("conteudo", JStr (res_conteudo r))].
    split.
    + rewrite list_lookup_fmap, Hr. done.
    + simpl. do 3 f_equal.
      assert (map res_id resultados !! i = Some (res_id r)) as H
        by (by rewrite list_lookup_fmap, Hr).
      rewrite Hids in H. apply lookup_seq in H. lia.
Qed.

End FluxoFacts.

(** The theorem at the two rows of the depth-3 structure, embedded in three
    dimensions and written to an empty directory. *)
Lemma indice_e_metadados_alinhados_prof3 :
  exists (index : indice) (metadados : list json),
    BuscaFaiss.carregar_indice_e_metadados "icms"
      (construir_e_salvar_indice_faiss Exemplos.grava_tudo
         (processar_para_faiss Exemplos.encode Exemplos.linhas_prof3).2
         ("faiss_index_" +:+ "icms") ∅).2
    = ([BuscaFaiss.MsgCarregado "icms"], Some (index, JList metadados))
    /\ ntotal index = length Exemplos.linhas_prof3
    /\ dimensao_de index = 3
    /\ Forall (fun v => length v = 3) (vetores_de index)
    /\ length metadados = length Exemplos.linhas_prof3
    /\ forall i, i < length Exemplos.linhas_prof3 ->
         exists doc,
           metadados !! i = Some (JDict doc)
           /\ dict_lookup "id" doc = Some (JInt (Z.of_nat i)).
Proof.
  apply (indice_e_metadados_alinhados Exemplos.repr_escalar Exemplos.encode
           Exemplos.grava_tudo 3 Exemplos.resposta_prof3 Exemplos.linhas_prof3
           "icms" ∅).
  - lia.
  - intros texto. reflexivity.
  - reflexivity.
  - simpl. lia.
  - reflexivity.
  - reflexivity.
Defined.

(** The theorem at a portal answer that is an HTML page: no bracket pair,
    the whole body goes to the decoder, the failure is printed and the
    directory stays empty. *)
Lemma corpo_isolado_pagina :
  (if ocorre "["%char Exemplos.pagina_expirada
      && ocorre "]"%char Exemplos.pagina_expirada
   then exists i j : nat,
       primeira "["%char Exemplos.pagina_expirada i
       /\ ultima "]"%char Exemplos.pagina_expirada j
       /\ isolar Exemplos.pagina_expirada
          = String.substring i (j + 1 - i) Exemplos.pagina_expirada
   else isolar Exemplos.pagina_expirada = Exemplos.pagina_expirada)
  /\ (forall e,
        Exemplos.json_loads (isolar Exemplos.pagina_expirada) = Raise e ->
        exists erro,
          (erro = MsgErroDesserializacao \/ erro = MsgErroInesperado)
          /\ main Exemplos.repr_escalar Exemplos.json_loads Exemplos.encode
               Exemplos.portal Exemplos.grava_tudo ["Legislacao.py"; "pagina"] ∅
             = ([MsgFazendoRequisicao "pagina"; MsgResposta 200; erro],
                ∅, Saiu 0))
  /\ (forall v,
        ocorre "["%char Exemplos.pagina_expirada
        && ocorre "]"%char Exemplos.pagina_expirada = false ->
        Exemplos.json_loads Exemplos.pagina_expirada = Ok v ->
        desserializar_json_resistente Exemplos.json_loads
          Exemplos.pagina_expirada = ([], v)
        /\ (sem_listas v = true ->
            exists msgs,
              main Exemplos.repr_escalar Exemplos.json_loads Exemplos.encode
                Exemplos.portal Exemplos.grava_tudo
                ["Legislacao.py"; "pagina"] ∅ = (msgs, ∅, Saiu 0)
              /\ (MsgErroDesserializacao ∉ msgs)
              /\ (MsgErroInesperado ∉ msgs))).
Proof.
  apply (corpo_isolado Exemplos.repr_escalar Exemplos.json_loads Exemplos.encode
           Exemplos.portal Exemplos.grava_tudo "Legislacao.py" "pagina"
           Exemplos.pagina_expirada 200 ∅).
  reflexivity.
Defined.

(** C4 as stated fails: the body [5] holds no bracket pair, is decoded
    whole, and no decoding failure is printed. *)
Lemma corpo_sem_par_decodificado :
  ocorre "["%char "5" = false
  /\ Exemplos.portal "numero" = Resposta 200 "5"
  /\ desserializar_json_resistente Exemplos.json_loads "5" = ([], JInt 5)
  /\ main Exemplos.repr_escalar Exemplos.json_loads Exemplos.encode
       Exemplos.portal Exemplos.grava_tudo ["Legislacao.py"; "numero"] ∅
     = ([MsgFazendoRequisicao "numero"; MsgResposta 200;
         MsgExtracaoConcluida 0; MsgNenhumaLinha],
        ∅, Saiu 0).
Proof.
  repeat split; reflexivity.
Qed.

(** The theorem at the body [5]: a truthy payload without rows. *)
Lemma sem_linhas_sem_indice_numero :
  exists msgs,
    main Exemplos.repr_escalar Exemplos.json_loads Exemplos.encode
      Exemplos.portal Exemplos.grava_tudo ["Legislacao.py"; "numero"] ∅
    = (msgs, ∅, Saiu 0)
    /\ (MsgNenhumaLinha ∈ msgs
        <-> truthy (desserializar_json_resistente Exemplos.json_loads "5").2
            = true)
    /\ (MsgProcessando ∉ msgs)
    /\ (forall d n, MsgConstruindo d n ∉ msgs).
Proof.
  apply (sem_linhas_sem_indice Exemplos.repr_escalar Exemplos.json_loads
           Exemplos.encode Exemplos.portal Exemplos.grava_tudo
           "Legislacao.py" "numero" "5" 200 ∅).
  - reflexivity.
  - right. reflexivity.
Defined.

(** C8 as stated fails: from the body [[]] zero rows are extracted, and no
    warning is printed. *)
Lemma payload_vazio_sem_aviso :
  Exemplos.portal "vazio" = Resposta 200 "[]"
  /\ desserializar_json_resistente Exemplos.json_loads "[]" = ([], JList [])
  /\ extrair_resultados_recursivamente Exemplos.repr_escalar (JList []) = Ok []
  /\ main Exemplos.repr_escalar Exemplos.json_loads Exemplos.encode
       Exemplos.portal Exemplos.grava_tudo ["Legislacao.py"; "vazio"] ∅
     = ([MsgFazendoRequisicao "vazio"; MsgResposta 200], ∅, Saiu 0).
Proof.
  repeat split; reflexivity.
Qed.

End LegislacaoFacts.

(* ===================================================================== *)
(** * BuscaFaiss.py: what a query returns and what it leaves behind       *)
(* ===================================================================== *)

Module BuscaFaissFacts.
Import Py PyFacts Disco BuscaFaiss Propriedades.

(** ** Dictionaries *)

Lemma dict_lookup_set_eq (k : string) (v : json) (d : pydict) :
  dict_lookup k (dict_set k v d) = Some v.
Proof.
  induction d as [ | [k' v'] d IH]; simpl.
  - by rewrite String.eqb_refl.
  - destruct (String.eqb k' k) eqn:E; simpl; rewrite E; done.
Qed.

Lemma dict_lookup_set_ne (k k' : string) (v : json) (d : pydict) :
  k <> k' -> dict_lookup k (dict_set k' v d) = dict_lookup k d.
Proof.
  intros Hne. induction d as [ | [k0 v0] d IH]; simpl.
  - destruct (String.eqb_spec k' k); [congruence | done].
  - destruct (String.eqb_spec k0 k') as [-> | Hk0]; simpl.
    + destruct (String.eqb_spec k' k); [congruence | done].
    + by rewrite IH.
Qed.

Lemma anotado_rank (doc : pydict) (rank : nat) (distancia : Q) :
  dict_lookup "rank" (anotado doc rank distancia) = Some (JInt (Z.of_nat rank)).
Proof.
  unfold anotado. rewrite dict_lookup_set_ne by done. apply dict_lookup_set_eq.
Qed.

Lemma anotado_distancia (doc : pydict) (rank : nat) (distancia : Q) :
  dict_lookup "distancia_l2" (anotado doc rank distancia)
  = Some (JFloat distancia).
Proof. apply dict_lookup_set_eq. Qed.

Lemma anotado_outras (k : string) (doc : pydict) (rank : nat) (distancia : Q) :
  k <> "rank" -> k <> "distancia_l2" ->
  dict_lookup k (anotado doc rank distancia) = dict_lookup k doc.
Proof.
  intros H1 H2. unfold anotado. by rewrite !dict_lookup_set_ne.
Qed.

(** ** The loop over the slots *)

Section LacoFacts.

Variable py_repr : json -> string.
Variable fmt_4f : Q -> string.

Lemma anotar_aponta (docs : list json) (distancia : Q) (id : Z) (rank : nat)
  (doc : pydict) :
  (0 <= id)%Z ->
  docs !! Z.to_nat id = Some (JDict doc) ->
  anotar (JList docs) id rank distancia
  = Ok (JList (<[Z.to_nat id := JDict (anotado doc rank distancia)]> docs),
        Z.to_nat id).
Proof.
  intros Hid Hdoc. unfold anotar. cbv zeta.
  destruct (Z.ltb_spec id 0) as [ | _]; [lia | ].
  destruct (Z.ltb_spec id 0) as [ | _]; [lia | ].
  by rewrite Hdoc.
Qed.

Lemma mapear_cons (i : nat) (distancia : Q) (id : Z) (resto : list (Q * Z))
  (metadados : json) (refs : list nat) :
  mapear i ((distancia, id) :: resto) metadados refs
  = if (id =? -1)%Z then mapear (S i) resto metadados refs
    else match anotar metadados id (i + 1) distancia with
         | Raise e => Raise e
         | Ok (metadados', ref) => mapear (S i) resto metadados' (refs ++ [ref])
         end.
Proof. reflexivity. Qed.

Lemma mapear_app (s1 s2 : list (Q * Z)) :
  forall i metadados refs,
    mapear i (s1 ++ s2) metadados refs
    = match mapear i s1 metadados refs with
      | Ok (metadados', refs') => mapear (i + length s1) s2 metadados' refs'
      | Raise e => Raise e
      end.
Proof.
  induction s1 as [ | [d id] s1 IH]; intros i metadados refs.
  - simpl. by rewrite Nat.add_0_r.
  - rewrite <- app_comm_cons, !mapear_cons. cbn [length].
    destruct (id =? -1)%Z.
    + rewrite IH. by replace (S i + length s1) with (i + S (length s1)) by lia.
    + destruct (anotar _ _ _ _) as [[m' r] | e]; [ | done].
      rewrite IH. by replace (S i + length s1) with (i + S (length s1)) by lia.
Qed.

(** Slots with the label [-1] are passed over. *)
Lemma mapear_vazios (n : nat) (distancia : Q) :
  forall i metadados refs,
    mapear i (replicate n (distancia, (-1)%Z)) metadados refs
    = Ok (metadados, refs).
Proof.
  induction n as [ | n IH]; intros i metadados refs; simpl; [done | apply IH].
Qed.

(** Slots that name distinct dictionaries of the list: each is annotated
    with its own rank and distance, at its place in the list; the other
    entries stay as they were. *)
Lemma mapear_anota (slots : list (Q * Z)) :
  forall i docs refs,
    NoDup (fmap (fun s : Q * Z => Z.to_nat s.2) slots) ->
    Forall (aponta docs) slots ->
    exists docs',
      mapear i slots (JList docs) refs
      = Ok (JList docs', refs ++ fmap (fun s : Q * Z => Z.to_nat s.2) slots)
      /\ length docs' = length docs
      /\ (forall j s doc,
            slots !! j = Some s ->
            docs !! Z.to_nat s.2 = Some (JDict doc) ->
            docs' !! Z.to_nat s.2
            = Some (JDict (anotado doc (i + j + 1) s.1)))
      /\ (forall p,
            p ∉ fmap (fun s : Q * Z => Z.to_nat s.2) slots ->
            docs' !! p = docs !! p).
Proof.
  induction slots as [ | [d id] slots IH]; intros i docs refs Hnd Hap.
  - exists docs. simpl. rewrite app_nil_r. repeat split; try done.
  - rewrite fmap_cons in *. apply NoDup_cons in Hnd as [Hnotin Hnd].
    apply Forall_cons in Hap as [[Hid [doc Hdoc]] Hap]. cbn [fst snd] in *.
    rewrite mapear_cons.
    destruct (Z.eqb_spec id (-1)) as [ | _]; [lia | ].
    rewrite (anotar_aponta _ _ _ _ _ Hid Hdoc).
    set (docs1 := <[Z.to_nat id := JDict (anotado doc (i + 1) d)]> docs).
    assert (Hap1 : Forall (aponta docs1) slots).
    { apply Forall_forall. intros s Hs.
      pose proof (proj1 (Forall_forall _ _) Hap s Hs) as [Hs0 [doc' Hdoc']].
      split; [done | ]. exists doc'. unfold docs1.
      rewrite list_lookup_insert_ne; [done | ].
      intros Heq. apply Hnotin. rewrite Heq.
      apply list_elem_of_fmap. by exists s. }
    destruct (IH (S i) docs1 (refs ++ [Z.to_nat id]) Hnd Hap1)
      as (docs' & Hm & Hlen & Hhit & Hframe).
    exists docs'. rewrite Hm, <- app_assoc. split; [done | ]. split; [ | split].
    + rewrite Hlen. unfold docs1. by rewrite length_insert.
    + intros [ | j] s doc0 Hs Hdoc0; simpl in Hs.
      * injection Hs as <-. simpl in *. rewrite Hframe by done.
        unfold docs1. rewrite list_lookup_insert_eq.
        -- rewrite Hdoc in Hdoc0. injection Hdoc0 as <-.
           by rewrite Nat.add_0_r.
        -- by apply lookup_lt_Some in Hdoc.
      * replace (i + S j + 1) with (S i + j + 1) by lia.
        apply (Hhit j s doc0 Hs). unfold docs1.
        rewrite list_lookup_insert_ne; [done | ].
        intros Heq. apply Hnotin. rewrite Heq.
        apply list_elem_of_fmap. exists s. split; [done | ].
        by eapply list_elem_of_lookup_2.
    + intros p Hp. apply not_elem_of_cons in Hp as [Hp1 Hp2].
      rewrite Hframe by done. unfold docs1.
      by rewrite list_lookup_insert_ne.
Qed.

End LacoFacts.

(** ** The search *)

#[global] Instance mais_perto_trans (prioridade : Z -> Z)
  : Transitive (mais_perto prioridade).
Proof.
  intros a b c [Hab | [Hab Pab]] [Hbc | [Hbc Pbc]]; unfold mais_perto.
  - left. by apply Qlt_trans with b.1.
  - left. by rewrite <- Hbc.
  - left. by rewrite Hab.
  - right. split; [by rewrite Hab | lia].
Qed.

#[global] Instance mais_perto_total (prioridade : Z -> Z)
  : Total (mais_perto prioridade).
Proof.
  intros a b. unfold mais_perto.
  destruct (Q_dec a.1 b.1) as [[Hlt | Hgt] | Heq]; [by left; left | by right; left | ].
  destruct (Z.le_ge_cases (prioridade a.2) (prioridade b.2)).
  - left. by right.
  - right. right. split; [by symmetry | lia].
Qed.

(** Whatever the order among equal distances, the nearer comes first. *)
Lemma mais_perto_le (prioridade : Z -> Z) (a b : Q * Z) :
  mais_perto prioridade a b -> (a.1 <= b.1)%Q.
Proof.
  intros [H | [H _]]; [by apply Qlt_le_weak | by rewrite H; apply Qle_refl].
Qed.

Section SearchFacts.

Variable l2 : list Q -> list Q -> Q.
Variable desempate : indice -> list Q -> nat -> Z -> Z.

Lemma candidatos_lookup (index : indice) (x : list Q) (i : nat) :
  candidatos l2 index x !! i
  = (fun v => (l2 x v, Z.of_nat i)) <$> vetores_de index !! i.
Proof. unfold candidatos. apply list_lookup_imap. Qed.

Lemma length_candidatos (index : indice) (x : list Q) :
  length (candidatos l2 index x) = ntotal index.
Proof. unfold candidatos. apply length_imap. Qed.

Lemma candidatos_elem (index : indice) (x : list Q) (s : Q * Z) :
  s ∈ candidatos l2 index x ->
  exists i v, vetores_de index !! i = Some v /\ s = (l2 x v, Z.of_nat i).
Proof.
  intros Hs. apply list_elem_of_lookup_1 in Hs as [i Hi].
  rewrite candidatos_lookup in Hi.
  destruct (vetores_de index !! i) as [v | ] eqn:Hv; [ | done].
  injection Hi as <-. by exists i, v.
Qed.

Lemma refs_candidatos (index : indice) (x : list Q) :
  fmap (fun s : Q * Z => Z.to_nat s.2) (candidatos l2 index x)
  = seq 0 (ntotal index).
Proof.
  apply list_eq. intros i. rewrite list_lookup_fmap, candidatos_lookup.
  destruct (vetores_de index !! i) as [v | ] eqn:Hv; simpl.
  - rewrite Nat2Z.id. symmetry. apply lookup_seq. split; [done | ].
    by apply lookup_lt_Some in Hv.
  - symmetry. apply lookup_ge_None. rewrite length_seq.
    by apply lookup_ge_None in Hv.
Qed.

Lemma melhores_elem (index : indice) (x : list Q) (k : nat) (s : Q * Z) :
  s ∈ melhores l2 desempate index x k ->
  exists i v, vetores_de index !! i = Some v /\ s = (l2 x v, Z.of_nat i).
Proof.
  intros Hs. apply candidatos_elem. unfold melhores in Hs.
  apply elem_of_take in Hs as (j & Hs & _).
  apply list_elem_of_lookup_2 in Hs.
  by rewrite merge_sort_Permutation in Hs.
Qed.

Lemma melhores_sem_repeticao (index : indice) (x : list Q) (k : nat) :
  NoDup (fmap (fun s : Q * Z => Z.to_nat s.2) (melhores l2 desempate index x k)).
Proof.
  unfold melhores. rewrite fmap_take.
  eapply sublist_NoDup; [ | apply sublist_take].
  rewrite merge_sort_Permutation, refs_candidatos. apply NoDup_seq.
Qed.

Lemma length_melhores (index : indice) (x : list Q) (k : nat) :
  length (melhores l2 desempate index x k) = min k (ntotal index).
Proof.
  unfold melhores. rewrite length_take.
  by rewrite (Permutation_length (merge_sort_Permutation _ _)), length_candidatos.
Qed.

(** Distances do not decrease along the slots. *)
Lemma melhores_ordenados (index : indice) (x : list Q) (k : nat)
  (i j : nat) (si sj : Q * Z) :
  i <= j ->
  melhores l2 desempate index x k !! i = Some si ->
  melhores l2 desempate index x k !! j = Some sj ->
  (si.1 <= sj.1)%Q.
Proof.
  unfold melhores. intros Hij Hi Hj.
  apply lookup_take_Some in Hi as [Hi _].
  apply lookup_take_Some in Hj as [Hj _].
  destruct (decide (i = j)) as [-> | Hne].
  - rewrite Hi in Hj. injection Hj as <-. apply Qle_refl.
  - pose proof (StronglySorted_merge_sort
                  (mais_perto (desempate index x k))
                  (candidatos l2 index x)) as Hs.
    revert i j Hij Hne Hi Hj.
    induction Hs as [ | a l Hs IH Ha]; intros i j Hij Hne Hi Hj; [done | ].
    destruct i as [ | i], j as [ | j]; simpl in *; try lia.
    + injection Hi as <-.
      apply list_elem_of_lookup_2 in Hj.
      apply (mais_perto_le (desempate index x k)).
      by apply (proj1 (Forall_forall _ _) Ha).
    + apply (IH i j); [lia | lia | done | done].
Qed.

(** The first slot holds the least distance to any stored vector. *)
Lemma melhores_minimo (index : indice) (x : list Q) (k : nat)
  (s0 : Q * Z) (v : list Q) :
  melhores l2 desempate index x k !! 0 = Some s0 ->
  v ∈ vetores_de index ->
  (s0.1 <= l2 x v)%Q.
Proof.
  unfold melhores. intros H0 Hv.
  apply lookup_take_Some in H0 as [H0 _].
  apply list_elem_of_lookup_1 in Hv as [i Hv].
  assert (Hc : (l2 x v, Z.of_nat i) ∈ merge_sort (mais_perto (desempate index x k)) (candidatos l2 index x)).
  { rewrite merge_sort_Permutation. apply list_elem_of_lookup_2 with i.
    by rewrite candidatos_lookup, Hv. }
  pose proof (StronglySorted_merge_sort
                (mais_perto (desempate index x k))
                (candidatos l2 index x)) as Hs.
  destruct Hs as [ | a l Hs Ha]; [done | ]. simpl in H0. injection H0 as <-.
  apply elem_of_cons in Hc as [<- | Hc]; [apply Qle_refl | ].
  apply (mais_perto_le (desempate index x k) a (l2 x v, Z.of_nat i)).
  by apply (proj1 (Forall_forall _ _) Ha _ Hc).
Qed.

End SearchFacts.

(** ** The query *)

Section ConsultaFacts.

Variable py_repr : json -> string.
Variable fmt_4f : Q -> string.
Variable encode : string -> list Q.
Variable l2 : list Q -> list Q -> Q.
Variable desempate : indice -> list Q -> nat -> Z -> Z.

(** The slots the loop goes through: the nearest vectors, then the empty
    slots. *)
Lemma search_slots (index : indice) (x : list Q) (k : nat) :
  length x = dimensao_de index ->
  0 < k ->
  exists distancias indices,
    search l2 desempate index x k = Ok (distancias, indices)
    /\ indices
       = (melhores l2 desempate index x k).*2
         ++ replicate (k - length (melhores l2 desempate index x k)) (-1)%Z
    /\ distancias
       = (melhores l2 desempate index x k).*1
         ++ replicate (k - length (melhores l2 desempate index x k)) FLT_MAX
    /\ zip distancias indices
       = melhores l2 desempate index x k
         ++ replicate (k - length (melhores l2 desempate index x k)) (FLT_MAX, (-1)%Z).
Proof.
  intros Hx Hk. unfold search. rewrite Hx, Nat.eqb_refl. cbn [negb].
  destruct (Nat.eqb_spec k 0) as [ | _]; [lia | ].
  eexists _, _. split; [reflexivity | ]. split; [done | ]. split; [done | ].
  change (map fst ?l) with (l.*1). change (map snd ?l) with (l.*2).
  rewrite zip_with_app by (by rewrite !length_fmap).
  by rewrite zip_fst_snd, zip_with_replicate.
Qed.

Lemma melhores_apontam (index : indice) (x : list Q) (k : nat)
  (docs : list json) :
  ntotal index <= length docs ->
  forallb bem_formado docs = true ->
  Forall (aponta docs) (melhores l2 desempate index x k).
Proof.
  intros Hn Hb. apply Forall_forall. intros s Hs.
  apply melhores_elem in Hs as (i & v & Hv & ->).
  split; [simpl; lia | ]. simpl. rewrite Nat2Z.id.
  apply lookup_lt_Some in Hv. fold (ntotal index) in Hv.
  destruct (lookup_lt_is_Some_2 docs i) as [doc Hdoc]; [lia | ].
  rewrite Hdoc. rewrite forallb_forall in Hb.
  specialize (Hb doc). rewrite <- list_elem_of_In in Hb.
  specialize (Hb (list_elem_of_lookup_2 _ _ _ Hdoc)).
  destruct doc; try discriminate. eauto.
Qed.

(** The references the query keeps are the positions of the nearest
    vectors, nearest first; each names a dictionary of the metadata list,
    which the loop annotates in place with its rank and distance; every
    other entry of the list is left as it was. *)
Lemma consulta (query : string) (index : indice) (docs : list json) (k : nat) :
  length (encode query) = dimensao_de index ->
  0 < k ->
  ntotal index <= length docs ->
  forallb bem_formado docs = true ->
  exists docs',
    resultados_da_busca encode l2 desempate query index (JList docs) k
    = Ok (JList docs',
          (fun s : Q * Z => Z.to_nat s.2) <$> melhores l2 desempate index (encode query) k)
    /\ length docs' = length docs
    /\ (forall j s doc,
          melhores l2 desempate index (encode query) k !! j = Some s ->
          docs !! Z.to_nat s.2 = Some (JDict doc) ->
          docs' !! Z.to_nat s.2 = Some (JDict (anotado doc (j + 1) s.1)))
    /\ (forall p,
          p ∉ (fun s : Q * Z => Z.to_nat s.2)
                <$> melhores l2 desempate index (encode query) k ->
          docs' !! p = docs !! p).
Proof.
  intros Hx Hk Hn Hb. unfold resultados_da_busca.
  destruct (search_slots index (encode query) k Hx Hk)
    as (distancias & indices & -> & _ & _ & Hz).
  cbn [bind]. rewrite Hz, mapear_app.
  destruct (mapear_anota (melhores l2 desempate index (encode query) k) 0 docs []
              (melhores_sem_repeticao l2 desempate index (encode query) k)
              (melhores_apontam index (encode query) k docs Hn Hb))
    as (docs' & -> & Hlen & Hhit & Hframe).
  rewrite mapear_vazios. exists docs'. by repeat split.
Qed.

(** Formatting goes through when every reference names a dictionary that
    has its rank, a distance that is a float, and a content. *)
Lemma formatar_retorna (metadados : json) (refs : list nat) :
  forall saida,
    (forall ref, ref ∈ refs ->
       exists doc rank distancia conteudo,
         objeto metadados ref = JDict doc
         /\ dict_lookup "rank" doc = Some rank
         /\ dict_lookup "distancia_l2" doc = Some (JFloat distancia)
         /\ dict_lookup "conteudo" doc = Some conteudo) ->
    exists saida', formatar py_repr fmt_4f metadados refs saida = Ok saida'.
Proof.
  induction refs as [ | ref refs IH]; intros saida H; simpl; [by eauto | ].
  destruct (H ref) as (doc & rank & distancia & conteudo & -> & Hr & Hd & Hc);
    [by left | ].
  unfold secao, item. rewrite Hr, Hd, Hc. simpl.
  apply IH. intros ref' Hin. apply H. by right.
Qed.

Lemma bem_formado_conteudo (docs : list json) (i : nat) (doc : pydict) :
  forallb bem_formado docs = true ->
  docs !! i = Some (JDict doc) ->
  exists conteudo, dict_lookup "conteudo" doc = Some conteudo.
Proof.
  intros Hb Hdoc. rewrite forallb_forall in Hb.
  specialize (Hb (JDict doc)). rewrite <- list_elem_of_In in Hb.
  specialize (Hb (list_elem_of_lookup_2 _ _ _ Hdoc)). simpl in Hb.
  destruct (dict_lookup "conteudo" doc); [by eauto | done].
Qed.

(** What [formatar] returns when every section goes through. *)
Lemma formatar_blocos (metadados : json) (refs : list nat)
  (secoes : list string) :
  Forall2 (fun ref sec => secao py_repr fmt_4f (objeto metadados ref) = Ok sec)
    refs secoes ->
  forall saida,
    formatar py_repr fmt_4f metadados refs saida
    = Ok (saida +:+ foldr String.append "" secoes).
Proof.
  induction 1 as [ | ref sec refs secoes Hsec _ IH]; intros saida; simpl.
  - by rewrite append_vazio.
  - rewrite Hsec. cbn [bind]. rewrite IH.
    by rewrite append_associativa.
Qed.

(** The section of an annotated dictionary. *)
Lemma secao_anotado (doc : pydict) (rank : nat) (distancia : Q)
  (conteudo : json) :
  dict_lookup "conteudo" doc = Some conteudo ->
  secao py_repr fmt_4f (JDict (anotado doc rank distancia))
  = Ok (bloco py_repr fmt_4f rank distancia doc).
Proof.
  intros Hc. unfold secao, item, bloco.
  rewrite anotado_rank, anotado_distancia.
  rewrite !anotado_outras by done. rewrite Hc. reflexivity.
Qed.

(** On well-formed metadata the whole of [buscar_faiss] returns. *)
Lemma buscar_faiss_retorna (query : string) (index : indice)
  (docs : list json) (k : nat) :
  length (encode query) = dimensao_de index ->
  0 < k ->
  ntotal index <= length docs ->
  forallb bem_formado docs = true ->
  exists docs' refs msgs saida,
    resultados_da_busca encode l2 desempate query index (JList docs) k
    = Ok (JList docs', refs)
    /\ buscar_faiss py_repr fmt_4f encode l2 desempate query index (JList docs) k
       = Ok (msgs, saida, JList docs').
Proof.
  intros Hx Hk Hn Hb.
  destruct (consulta query index docs k Hx Hk Hn Hb)
    as (docs' & Hr & Hlen & Hhit & Hframe).
  destruct (formatar_retorna (JList docs')
              ((fun s : Q * Z => Z.to_nat s.2)
                 <$> melhores l2 desempate index (encode query) k) "") as [saida Hs].
  { intros ref Href. apply list_elem_of_fmap in Href as (s & -> & Hs).
    apply list_elem_of_lookup_1 in Hs as [j Hj].
    pose proof (proj1 (Forall_forall _ _)
                  (melhores_apontam index (encode query) k docs Hn Hb) s
                  (list_elem_of_lookup_2 _ _ _ Hj)) as [_ [doc Hdoc]].
    destruct (bem_formado_conteudo _ _ _ Hb Hdoc) as [conteudo Hc].
    exists (anotado doc (j + 1) s.1), (JInt (Z.of_nat (j + 1))), s.1, conteudo.
    simpl. rewrite (Hhit j s doc Hj Hdoc). simpl.
    split; [done | ]. split; [apply anotado_rank | ].
    split; [apply anotado_distancia | ].
    by rewrite anotado_outras. }
  eexists docs', _, _, saida. split; [exact Hr | ].
  unfold buscar_faiss. rewrite Hr. cbn [bind]. rewrite Hs. reflexivity.
Qed.

(** What the query knows of the hit in slot [i]. *)
Lemma melhores_slot (query : string) (index : indice) (docs : list json)
  (k i : nat) (s : Q * Z) :
  ntotal index <= length docs ->
  forallb bem_formado docs = true ->
  melhores l2 desempate index (encode query) k !! i = Some s ->
  exists ref v doc,
    s = (l2 (encode query) v, Z.of_nat ref)
    /\ vetores_de index !! ref = Some v
    /\ docs !! ref = Some (JDict doc).
Proof.
  intros Hn Hb Hs.
  pose proof (list_elem_of_lookup_2 _ _ _ Hs) as Hin.
  destruct (melhores_elem l2 desempate _ _ _ _ Hin) as (ref & v & Hv & ->).
  pose proof (proj1 (Forall_forall _ _)
                (melhores_apontam index (encode query) k docs Hn Hb) _ Hin)
    as [_ [doc Hdoc]].
  simpl in Hdoc. rewrite Nat2Z.id in Hdoc. by exists ref, v, doc.
Qed.

(** When [buscar_faiss] returns, what it has printed is what it reports. *)
Lemma buscar_faiss_impresso (query : string) (index : indice)
  (metadados metadados' : json) (k : nat) (msgs : list mensagem)
  (saida : string) :
  buscar_faiss py_repr fmt_4f encode l2 desempate query index metadados k
  = Ok (msgs, saida, metadados') ->
  impresso_por_buscar_faiss encode l2 desempate query index metadados k = msgs.
Proof.
  unfold buscar_faiss, impresso_por_buscar_faiss.
  destruct (resultados_da_busca _ _ _ _ _ _ _) as [[md refs] | e]; [ | done].
  cbn [bind]. destruct (formatar _ _ _ _ _) as [s | e]; [ | done].
  by intros [= <- _ _].
Qed.

(** The whole of a query on metadata that cover the index, slot by slot:
    what the search returns, what the loop keeps and writes into the list,
    and the text made of it. *)
Lemma consulta_completa (query : string) (index : indice) (docs : list json)
  (k : nat) :
  length (encode query) = dimensao_de index ->
  0 < k ->
  ntotal index <= length docs ->
  forallb bem_formado docs = true ->
  exists (distancias : list Q) (indices : list Z) (docs' : list json)
         (secoes : list string),
    search l2 desempate index (encode query) k = Ok (distancias, indices)
    /\ length distancias = k
    /\ length indices = k
    /\ resultados_da_busca encode l2 desempate query index (JList docs) k
       = Ok (JList docs', Z.to_nat <$> take (min k (ntotal index)) indices)
    /\ buscar_faiss py_repr fmt_4f encode l2 desempate query index
         (JList docs) k
       = Ok ([MsgBuscando k; MsgBuscaConcluida (min k (ntotal index))],
             foldr String.append "" secoes, JList docs')
    /\ formatar py_repr fmt_4f (JList docs')
         (Z.to_nat <$> take (min k (ntotal index)) indices) ""
       = Ok (foldr String.append "" secoes)
    /\ length docs' = length docs
    /\ length secoes = min k (ntotal index)
    /\ (forall i, i < min k (ntotal index) ->
          exists (ref : nat) (v : list Q) (doc : pydict),
            indices !! i = Some (Z.of_nat ref)
            /\ distancias !! i = Some (l2 (encode query) v)
            /\ vetores_de index !! ref = Some v
            /\ docs !! ref = Some (JDict doc)
            /\ docs' !! ref
               = Some (JDict (anotado doc (i + 1) (l2 (encode query) v)))
            /\ secoes !! i
               = Some (bloco py_repr fmt_4f (i + 1) (l2 (encode query) v) doc))
    /\ (forall i, min k (ntotal index) <= i -> i < k ->
          indices !! i = Some (-1)%Z)
    /\ (forall i j di dj,
          i <= j -> j < min k (ntotal index) ->
          distancias !! i = Some di -> distancias !! j = Some dj ->
          (di <= dj)%Q)
    /\ (forall d0 v,
          distancias !! 0 = Some d0 -> v ∈ vetores_de index ->
          (d0 <= l2 (encode query) v)%Q)
    /\ (forall p,
          p ∉ Z.to_nat <$> take (min k (ntotal index)) indices ->
          docs' !! p = docs !! p).
Proof.
  intros Hx Hk Hn Hb.
  destruct (search_slots index (encode query) k Hx Hk)
    as (distancias & indices & Hsearch & Hind & Hdist & _).
  destruct (consulta query index docs k Hx Hk Hn Hb)
    as (docs' & Hr & Hlen & Hhit & Hframe).
  pose proof (length_melhores l2 desempate index (encode query) k) as Hlm.
  set (ms := melhores l2 desempate index (encode query) k) in *.
  assert (Hrefs : (fun s : Q * Z => Z.to_nat s.2) <$> ms
                  = Z.to_nat <$> take (min k (ntotal index)) indices).
  { rewrite Hind, <- Hlm, take_app_length' by (by rewrite length_fmap).
    by rewrite <- list_fmap_compose. }
  rewrite Hrefs in Hr, Hframe.
  set (dic := fun ref => match docs !! ref with
                         | Some (JDict doc) => doc
                         | _ => []
                         end).
  set (secoes := imap (fun j (s : Q * Z) =>
                         bloco py_repr fmt_4f (j + 1) s.1
                           (dic (Z.to_nat s.2))) ms).
  assert (Hslot : forall j s,
             ms !! j = Some s ->
             exists ref v doc,
               s = (l2 (encode query) v, Z.of_nat ref)
               /\ vetores_de index !! ref = Some v
               /\ docs !! ref = Some (JDict doc)
               /\ docs' !! ref
                  = Some (JDict (anotado doc (j + 1) (l2 (encode query) v)))
               /\ dic ref = doc).
  { intros j s Hs.
    destruct (melhores_slot query index docs k j s Hn Hb Hs)
      as (ref & v & doc & -> & Hv & Hdoc).
    exists ref, v, doc. unfold dic. rewrite Hdoc.
    pose proof (Hhit j _ doc Hs) as Hj. cbn [fst snd] in Hj.
    rewrite Nat2Z.id in Hj. by rewrite (Hj Hdoc). }
  assert (Hsec : Forall2
                   (fun ref sec =>
                      secao py_repr fmt_4f (objeto (JList docs') ref) = Ok sec)
                   ((fun s : Q * Z => Z.to_nat s.2) <$> ms) secoes).
  { apply Forall2_same_length_lookup_2.
    { unfold secoes. by rewrite length_fmap, length_imap. }
    intros j ref sec Href Hsec. unfold secoes in Hsec.
    rewrite list_lookup_fmap in Href. rewrite list_lookup_imap in Hsec.
    destruct (ms !! j) as [s | ] eqn:Hs; [ | done].
    injection Href as <-. injection Hsec as <-.
    destruct (Hslot j s Hs) as (ref & v & doc & -> & Hv & Hdoc & Hdoc' & Hdic).
    cbn [fst snd]. rewrite Nat2Z.id, Hdic. simpl. rewrite Hdoc'. simpl.
    destruct (bem_formado_conteudo docs ref doc Hb Hdoc) as [conteudo Hc].
    by apply secao_anotado with conteudo. }
  pose proof (formatar_blocos _ _ _ Hsec "") as Hf. rewrite Hrefs in Hf.
  change ("" +:+ foldr String.append "" secoes)
    with (foldr String.append "" secoes) in Hf.
  exists distancias, indices, docs', secoes.
  split; [exact Hsearch | ].
  split; [rewrite Hdist, length_app, length_fmap, length_replicate; lia | ].
  split; [rewrite Hind, length_app, length_fmap, length_replicate; lia | ].
  split; [exact Hr | ].
  split.
  { unfold buscar_faiss. rewrite Hr. cbn [bind]. rewrite Hf. cbn [bind].
    by rewrite length_fmap, length_take, Hind, length_app, length_fmap,
      length_replicate, Hlm, Nat.min_l by lia. }
  split; [exact Hf | ]. split; [exact Hlen | ].
  split; [unfold secoes; by rewrite length_imap | ].
  split; [ | split; [ | split; [ | split; [ | exact Hframe]]]].
  - intros i Hi.
    destruct (lookup_lt_is_Some_2 ms i) as [s Hs]; [lia | ].
    destruct (Hslot i s Hs) as (ref & v & doc & -> & Hv & Hdoc & Hdoc' & Hdic).
    exists ref, v, doc.
    split; [rewrite Hind, lookup_app_l by (rewrite length_fmap; lia);
            by rewrite list_lookup_fmap, Hs | ].
    split; [rewrite Hdist, lookup_app_l by (rewrite length_fmap; lia);
            by rewrite list_lookup_fmap, Hs | ].
    repeat (split; [done | ]).
    unfold secoes. rewrite list_lookup_imap, Hs. simpl.
    by rewrite Nat2Z.id, Hdic.
  - intros i Hi1 Hi2. rewrite Hind.
    rewrite lookup_app_r by (rewrite length_fmap; lia).
    apply lookup_replicate_2. rewrite length_fmap. lia.
  - intros i j di dj Hij Hj Hdi Hdj. rewrite Hdist in Hdi, Hdj.
    rewrite lookup_app_l in Hdi by (rewrite length_fmap; lia).
    rewrite lookup_app_l in Hdj by (rewrite length_fmap; lia).
    rewrite list_lookup_fmap in Hdi, Hdj.
    destruct (ms !! i) as [si | ] eqn:Hsi; [ | done].
    destruct (ms !! j) as [sj | ] eqn:Hsj; [ | done].
    injection Hdi as <-. injection Hdj as <-.
    by apply (melhores_ordenados l2 desempate index (encode query) k i j).
  - intros d0 v H0 Hv.
    pose proof Hv as Hv'. apply list_elem_of_lookup_1 in Hv' as [p Hp].
    apply lookup_lt_Some in Hp. fold (ntotal index) in Hp.
    rewrite Hdist in H0.
    rewrite lookup_app_l in H0 by (rewrite length_fmap; lia).
    rewrite list_lookup_fmap in H0.
    destruct (ms !! 0) as [s0 | ] eqn:Hs0; [ | done].
    injection H0 as <-.
    by apply (melhores_minimo l2 desempate index (encode query) k).
Qed.

(** C5.  With a query of the index's dimension and metadata aligned with
    the index (one well-formed dictionary per vector): when the index holds
    fewer than [k] vectors, the search fills the slots past the last vector
    with the label [-1]; the loop skips exactly these, so the query keeps
    one result per vector, fewer than [k]; every result is a dictionary of
    the metadata list, never an absent or null entry; and [buscar_faiss]
    returns. *)
Theorem busca_com_indice_pequeno (query : string) (index : indice)
  (docs : list json) (k : nat) :
  length (encode query) = dimensao_de index ->
  length docs = ntotal index ->
  forallb bem_formado docs = true ->
  ntotal index < k ->
  exists (distancias : list Q) (indices : list Z) (docs' : list json)
         (refs : list nat) (msgs : list mensagem) (saida : string),
    search l2 desempate index (encode query) k = Ok (distancias, indices)
    /\ length indices = k
    /\ (forall i, ntotal index <= i -> i < k -> indices !! i = Some (-1)%Z)
    /\ (forall i id, i < ntotal index -> indices !! i = Some id ->
          (0 <= id < Z.of_nat (ntotal index))%Z)
    /\ resultados_da_busca encode l2 desempate query index (JList docs) k
       = Ok (JList docs', refs)
    /\ refs = Z.to_nat <$> take (ntotal index) indices
    /\ length refs = ntotal index
    /\ length refs < k
    /\ (forall ref, ref ∈ refs -> exists doc, docs' !! ref = Some (JDict doc))
    /\ buscar_faiss py_repr fmt_4f encode l2 desempate query index (JList docs) k
       = Ok (msgs, saida, JList docs').
Proof.
  intros Hx Hlen Hb Hk.
  assert (Hn : ntotal index <= length docs) by lia.
  assert (Hk0 : 0 < k) by lia.
  destruct (search_slots index (encode query) k Hx Hk0)
    as (distancias & indices & Hsearch & Hind & _ & _).
  destruct (consulta query index docs k Hx Hk0 Hn Hb)
    as (docs' & Hr & Hlen' & Hhit & Hframe).
  destruct (buscar_faiss_retorna query index docs k Hx Hk0 Hn Hb)
    as (docs'' & refs'' & msgs & saida & Hr' & Hbusca).
  rewrite Hr in Hr'. injection Hr' as <- <-.
  pose proof (length_melhores l2 desempate index (encode query) k) as Hlm.
  rewrite Nat.min_r in Hlm by lia.
  eexists distancias, indices, docs', _, msgs, saida.
  split; [done | ]. split; [ | split; [ | split]].
  - rewrite Hind, length_app, length_fmap, length_replicate. lia.
  - intros i Hi1 Hi2. rewrite Hind.
    rewrite lookup_app_r by (rewrite length_fmap; lia).
    apply lookup_replicate_2. rewrite length_fmap. lia.
  - intros i id Hi Hid. rewrite Hind in Hid.
    rewrite lookup_app_l in Hid by (rewrite length_fmap; lia).
    rewrite list_lookup_fmap in Hid.
    destruct (melhores l2 desempate index (encode query) k !! i) as [s | ] eqn:Hs;
      [ | done].
    injection Hid as <-.
    destruct (melhores_slot _ _ _ _ _ _ Hn Hb Hs) as (ref & v & doc & -> & Hv & _).
    apply lookup_lt_Some in Hv. fold (ntotal index) in Hv. simpl. lia.
  - split; [exact Hr | ]. split; [ | split; [ | split; [ | split]]].
    + rewrite Hind, take_app_length' by (by rewrite length_fmap).
      by rewrite <- list_fmap_compose.
    + by rewrite length_fmap.
    + rewrite length_fmap. lia.
    + intros ref Href. apply list_elem_of_fmap in Href as (s & -> & Hs).
      apply list_elem_of_lookup_1 in Hs as [j Hj].
      destruct (melhores_slot _ _ _ _ _ _ Hn Hb Hj) as (ref & v & doc & -> & _ & Hdoc).
      exists (anotado doc (j + 1) (l2 (encode query) v)).
      apply (Hhit j _ doc Hj). simpl. by rewrite Nat2Z.id.
    + done.
Qed.

(** C6 (amended).  With a query of the index's dimension and metadata
    aligned with the index, for [k] at most the number of vectors.  When
    [k] is 0 nothing is returned: the search raises [AssertionError].
    When [k] is positive the query keeps exactly [k] results and returns
    the text made of their [k] blocks, in rank order and nothing else; the
    result in slot [i] carries rank [i + 1]; its distance is the one
    between the query and the vector whose position is the label the
    search returned for that slot; it is the metadata entry at that
    position, and its block shows that rank, that distance, and the path
    and content of that entry; distances do not decrease with the rank,
    and no vector of the index is nearer than the first result. *)
Theorem busca_ordenada (query : string) (index : indice)
  (docs : list json) (k : nat) :
  length (encode query) = dimensao_de index ->
  length docs = ntotal index ->
  forallb bem_formado docs = true ->
  k <= ntotal index ->
  (k = 0 ->
   search l2 desempate index (encode query) k = Raise AssertionError
   /\ buscar_faiss py_repr fmt_4f encode l2 desempate query index
        (JList docs) k
      = Raise AssertionError)
  /\ (0 < k ->
      exists (distancias : list Q) (indices : list Z) (docs' : list json)
             (refs : list nat) (secoes : list string),
        search l2 desempate index (encode query) k = Ok (distancias, indices)
        /\ resultados_da_busca encode l2 desempate query index (JList docs) k
           = Ok (JList docs', refs)
        /\ buscar_faiss py_repr fmt_4f encode l2 desempate query index
             (JList docs) k
           = Ok ([MsgBuscando k; MsgBuscaConcluida k],
                 foldr String.append "" secoes, JList docs')
        /\ length refs = k
        /\ length distancias = k
        /\ length indices = k
        /\ length secoes = k
        /\ (forall i j di dj,
              i <= j -> distancias !! i = Some di ->
              distancias !! j = Some dj -> (di <= dj)%Q)
        /\ (forall d0 v,
              distancias !! 0 = Some d0 -> v ∈ vetores_de index ->
              (d0 <= l2 (encode query) v)%Q)
        /\ (forall i, i < k ->
              exists (ref : nat) (distancia : Q) (v : list Q) (doc : pydict),
                indices !! i = Some (Z.of_nat ref)
                /\ refs !! i = Some ref
                /\ distancias !! i = Some distancia
                /\ vetores_de index !! ref = Some v
                /\ distancia = l2 (encode query) v
                /\ docs !! ref = Some (JDict doc)
                /\ objeto (JList docs') ref
                   = JDict (anotado doc (i + 1) distancia)
                /\ dict_lookup "rank" (anotado doc (i + 1) distancia)
                   = Some (JInt (Z.of_nat (i + 1)))
                /\ dict_lookup "distancia_l2" (anotado doc (i + 1) distancia)
                   = Some (JFloat distancia)
                /\ secoes !! i
                   = Some (bloco py_repr fmt_4f (i + 1) distancia doc))).
Proof.
  intros Hx Hlen Hb Hk. split.
  - intros ->. unfold buscar_faiss, resultados_da_busca, search.
    by rewrite Hx, Nat.eqb_refl.
  - intros Hk0.
    destruct (consulta_completa query index docs k Hx Hk0 ltac:(lia) Hb)
      as (distancias & indices & docs' & secoes & Hsearch & Hld & Hli & Hr
          & Hbusca & _ & _ & Hls & Hslot & _ & Hord & Hmin & _).
    rewrite Nat.min_l in * by done.
    rewrite take_ge in Hr by lia.
    exists distancias, indices, docs', (Z.to_nat <$> indices), secoes.
    split; [exact Hsearch | ]. split; [exact Hr | ]. split; [exact Hbusca | ].
    split; [by rewrite length_fmap | ]. split; [exact Hld | ].
    split; [exact Hli | ]. split; [exact Hls | ].
    split; [ | split; [exact Hmin | ]].
    + intros i j di dj Hij Hdi Hdj. apply (Hord i j); try done.
      apply lookup_lt_Some in Hdj. lia.
    + intros i Hi.
      destruct (Hslot i Hi) as (ref & v & doc & Hind & Hdist & Hv & Hdoc
                                & Hdoc' & Hsec).
      exists ref, (l2 (encode query) v), v, doc.
      split; [exact Hind | ].
      split; [by rewrite list_lookup_fmap, Hind; simpl; rewrite Nat2Z.id | ].
      repeat (split; [done | ]).
      split; [simpl; by rewrite Hdoc' | ].
      split; [apply anotado_rank | ]. split; [apply anotado_distancia | ].
      exact Hsec.
Qed.

(** C10.  With a query of the index's dimension for a positive number of
    neighbours, and metadata that covers the index: the query changes the
    metadata list it was given.  The hits are the slots of the search that
    carry a label, which are its first slots, as many as the smaller of
    [k] and the number of vectors.  The result kept for the hit in slot [i]
    is a reference to the entry of that list at the position the search
    returned for the slot; the dictionary at that place now has [rank] set
    to [i + 1] and [distancia_l2] set to the distance the search returned
    for the slot (added, or overwritten when already there) and its other
    keys as before; the entries that are no result are untouched, and the
    list keeps its length.  The text returned is read off the annotated
    list through these references, one block per hit that shows this rank
    and this distance. *)
Theorem consulta_anota_os_metadados (query : string) (index : indice)
  (docs : list json) (k : nat) :
  length (encode query) = dimensao_de index ->
  0 < k ->
  ntotal index <= length docs ->
  forallb bem_formado docs = true ->
  exists (distancias : list Q) (indices : list Z) (docs' : list json)
         (refs : list nat) (secoes : list string),
    search l2 desempate index (encode query) k = Ok (distancias, indices)
    /\ resultados_da_busca encode l2 desempate query index (JList docs) k
       = Ok (JList docs', refs)
    /\ buscar_faiss py_repr fmt_4f encode l2 desempate query index
         (JList docs) k
       = Ok ([MsgBuscando k; MsgBuscaConcluida (length refs)],
             foldr String.append "" secoes, JList docs')
    /\ formatar py_repr fmt_4f (JList docs') refs ""
       = Ok (foldr String.append "" secoes)
    /\ length docs' = length docs
    /\ length indices = k
    /\ length refs = min k (ntotal index)
    /\ length secoes = length refs
    /\ (forall i id,
          indices !! i = Some id -> id <> (-1)%Z ->
          exists (ref : nat) (distancia : Q) (doc : pydict),
            id = Z.of_nat ref
            /\ distancias !! i = Some distancia
            /\ refs !! i = Some ref
            /\ docs !! ref = Some (JDict doc)
            /\ docs' !! ref = Some (JDict (anotado doc (i + 1) distancia))
            /\ objeto (JList docs') ref
               = JDict (anotado doc (i + 1) distancia)
            /\ dict_lookup "rank" (anotado doc (i + 1) distancia)
               = Some (JInt (Z.of_nat (i + 1)))
            /\ dict_lookup "distancia_l2" (anotado doc (i + 1) distancia)
               = Some (JFloat distancia)
            /\ (forall chave, chave <> "rank" -> chave <> "distancia_l2" ->
                  dict_lookup chave (anotado doc (i + 1) distancia)
                  = dict_lookup chave doc)
            /\ secoes !! i
               = Some (bloco py_repr fmt_4f (i + 1) distancia doc))
    /\ (forall i ref,
          refs !! i = Some ref -> indices !! i = Some (Z.of_nat ref))
    /\ (forall p, p ∉ refs -> docs' !! p = docs !! p).
Proof.
  intros Hx Hk Hn Hb.
  destruct (consulta_completa query index docs k Hx Hk Hn Hb)
    as (distancias & indices & docs' & secoes & Hsearch & Hld & Hli & Hr
        & Hbusca & Hf & Hlen & Hls & Hslot & Hvazio & _ & _ & Hframe).
  assert (Hlr : length (Z.to_nat <$> take (min k (ntotal index)) indices)
                = min k (ntotal index)).
  { rewrite length_fmap, length_take. lia. }
  exists distancias, indices, docs',
    (Z.to_nat <$> take (min k (ntotal index)) indices), secoes.
  split; [exact Hsearch | ]. split; [exact Hr | ].
  split; [by rewrite Hlr | ]. split; [exact Hf | ]. split; [exact Hlen | ].
  split; [exact Hli | ]. split; [exact Hlr | ]. split; [by rewrite Hlr | ].
  split; [ | split; [ | exact Hframe]].
  - intros i id Hid Hne.
    assert (Hi : i < min k (ntotal index)).
    { destruct (Nat.lt_ge_cases i (min k (ntotal index))) as [ | Hge];
        [done | ].
      pose proof (lookup_lt_Some _ _ _ Hid) as Hik. rewrite Hli in Hik.
      rewrite (Hvazio i Hge Hik) in Hid. by injection Hid as <-. }
    destruct (Hslot i Hi) as (ref & v & doc & Hind & Hdist & Hv & Hdoc
                              & Hdoc' & Hsec).
    rewrite Hind in Hid. injection Hid as <-.
    exists ref, (l2 (encode query) v), doc.
    split; [done | ]. split; [exact Hdist | ].
    split.
    { rewrite list_lookup_fmap, lookup_take_lt by done.
      rewrite Hind. simpl. by rewrite Nat2Z.id. }
    split; [exact Hdoc | ]. split; [exact Hdoc' | ].
    split; [simpl; by rewrite Hdoc' | ].
    split; [apply anotado_rank | ]. split; [apply anotado_distancia | ].
    split; [ | exact Hsec].
    intros chave H1 H2. by apply anotado_outras.
  - intros i ref Href.
    pose proof (lookup_lt_Some _ _ _ Href) as Hi. rewrite Hlr in Hi.
    destruct (Hslot i Hi) as (ref' & v & doc & Hind & _).
    rewrite list_lookup_fmap, lookup_take_lt, Hind in Href by done.
    simpl in Href. rewrite Nat2Z.id in Href. by injection Href as <-.
Qed.

End ConsultaFacts.

(** The theorem at an index of three vectors queried for five neighbours. *)
Lemma busca_com_indice_pequeno_k5 :
  exists (distancias : list Q) (indices : list Z) (docs' : list json)
         (refs : list nat) (msgs : list mensagem) (saida : string),
    search Exemplos.l2 Exemplos.desempate Exemplos.indice_icms (Exemplos.encode "acucar") 5
    = Ok (distancias, indices)
    /\ length indices = 5
    /\ (forall i, ntotal Exemplos.indice_icms <= i -> i < 5 ->
          indices !! i = Some (-1)%Z)
    /\ (forall i id, i < ntotal Exemplos.indice_icms ->
          indices !! i = Some id ->
          (0 <= id < Z.of_nat (ntotal Exemplos.indice_icms))%Z)
    /\ resultados_da_busca Exemplos.encode Exemplos.l2 Exemplos.desempate "acucar"
         Exemplos.indice_icms (JList Exemplos.metadados_icms) 5
       = Ok (JList docs', refs)
    /\ refs = Z.to_nat <$> take (ntotal Exemplos.indice_icms) indices
    /\ length refs = ntotal Exemplos.indice_icms
    /\ length refs < 5
    /\ (forall ref, ref ∈ refs -> exists doc, docs' !! ref = Some (JDict doc))
    /\ buscar_faiss Exemplos.repr_escalar Exemplos.fmt_fixo Exemplos.encode
         Exemplos.l2 Exemplos.desempate "acucar" Exemplos.indice_icms
         (JList Exemplos.metadados_icms) 5
       = Ok (msgs, saida, JList docs').
Proof.
  apply (busca_com_indice_pequeno Exemplos.repr_escalar Exemplos.fmt_fixo
           Exemplos.encode Exemplos.l2 Exemplos.desempate "acucar" Exemplos.indice_icms
           Exemplos.metadados_icms 5).
  - reflexivity.
  - reflexivity.
  - reflexivity.
  - unfold ntotal. simpl. lia.
Defined.

(** The theorem at the same index queried for two neighbours. *)
Lemma busca_ordenada_k2 :
  (2 = 0 ->
   search Exemplos.l2 Exemplos.desempate Exemplos.indice_icms
     (Exemplos.encode "acucar") 2 = Raise AssertionError
   /\ buscar_faiss Exemplos.repr_escalar Exemplos.fmt_fixo Exemplos.encode
        Exemplos.l2 Exemplos.desempate "acucar" Exemplos.indice_icms
        (JList Exemplos.metadados_icms) 2
      = Raise AssertionError)
  /\ (0 < 2 ->
      exists (distancias : list Q) (indices : list Z) (docs' : list json)
             (refs : list nat) (secoes : list string),
        search Exemplos.l2 Exemplos.desempate Exemplos.indice_icms
          (Exemplos.encode "acucar") 2
        = Ok (distancias, indices)
        /\ resultados_da_busca Exemplos.encode Exemplos.l2 Exemplos.desempate
             "acucar" Exemplos.indice_icms (JList Exemplos.metadados_icms) 2
           = Ok (JList docs', refs)
        /\ buscar_faiss Exemplos.repr_escalar Exemplos.fmt_fixo
             Exemplos.encode Exemplos.l2 Exemplos.desempate "acucar"
             Exemplos.indice_icms (JList Exemplos.metadados_icms) 2
           = Ok ([MsgBuscando 2; MsgBuscaConcluida 2],
                 foldr String.append "" secoes, JList docs')
        /\ length refs = 2
        /\ length distancias = 2
        /\ length indices = 2
        /\ length secoes = 2
        /\ (forall i j di dj,
              i <= j -> distancias !! i = Some di ->
              distancias !! j = Some dj -> (di <= dj)%Q)
        /\ (forall d0 v,
              distancias !! 0 = Some d0 ->
              v ∈ vetores_de Exemplos.indice_icms ->
              (d0 <= Exemplos.l2 (Exemplos.encode "acucar") v)%Q)
        /\ (forall i, i < 2 ->
              exists (ref : nat) (distancia : Q) (v : list Q) (doc : pydict),
                indices !! i = Some (Z.of_nat ref)
                /\ refs !! i = Some ref
                /\ distancias !! i = Some distancia
                /\ vetores_de Exemplos.indice_icms !! ref = Some v
                /\ distancia = Exemplos.l2 (Exemplos.encode "acucar") v
                /\ Exemplos.metadados_icms !! ref = Some (JDict doc)
                /\ objeto (JList docs') ref
                   = JDict (anotado doc (i + 1) distancia)
                /\ dict_lookup "rank" (anotado doc (i + 1) distancia)
                   = Some (JInt (Z.of_nat (i + 1)))
                /\ dict_lookup "distancia_l2" (anotado doc (i + 1) distancia)
                   = Some (JFloat distancia)
                /\ secoes !! i
                   = Some (bloco Exemplos.repr_escalar Exemplos.fmt_fixo
                             (i + 1) distancia doc))).
Proof.
  apply (busca_ordenada Exemplos.repr_escalar Exemplos.fmt_fixo
           Exemplos.encode Exemplos.l2 Exemplos.desempate "acucar"
           Exemplos.indice_icms Exemplos.metadados_icms 2).
  - reflexivity.
  - reflexivity.
  - reflexivity.
  - unfold ntotal. simpl. lia.
Defined.

(** C6 as stated fails for [k = 0], which is at most the size of every
    index: no result list comes back, the search raises. *)
Lemma busca_de_zero_vizinhos :
  0 <= ntotal Exemplos.indice_icms
  /\ length Exemplos.metadados_icms = ntotal Exemplos.indice_icms
  /\ buscar_faiss Exemplos.repr_escalar Exemplos.fmt_fixo Exemplos.encode
       Exemplos.l2 Exemplos.desempate "acucar" Exemplos.indice_icms
       (JList Exemplos.metadados_icms) 0
     = Raise AssertionError.
Proof.
  split; [unfold ntotal; simpl; lia | ]. split; reflexivity.
Qed.

(** The theorem at the same index and metadata, five neighbours asked. *)
Lemma consulta_anota_os_metadados_icms :
  exists (distancias : list Q) (indices : list Z) (docs' : list json)
         (refs : list nat) (secoes : list string),
    search Exemplos.l2 Exemplos.desempate Exemplos.indice_icms
      (Exemplos.encode "acucar") 5
    = Ok (distancias, indices)
    /\ resultados_da_busca Exemplos.encode Exemplos.l2 Exemplos.desempate
         "acucar" Exemplos.indice_icms (JList Exemplos.metadados_icms) 5
       = Ok (JList docs', refs)
    /\ buscar_faiss Exemplos.repr_escalar Exemplos.fmt_fixo Exemplos.encode
         Exemplos.l2 Exemplos.desempate "acucar" Exemplos.indice_icms
         (JList Exemplos.metadados_icms) 5
       = Ok ([MsgBuscando 5; MsgBuscaConcluida (length refs)],
             foldr String.append "" secoes, JList docs')
    /\ formatar Exemplos.repr_escalar Exemplos.fmt_fixo (JList docs') refs ""
       = Ok (foldr String.append "" secoes)
    /\ length docs' = length Exemplos.metadados_icms
    /\ length indices = 5
    /\ length refs = min 5 (ntotal Exemplos.indice_icms)
    /\ length secoes = length refs
    /\ (forall i id,
          indices !! i = Some id -> id <> (-1)%Z ->
          exists (ref : nat) (distancia : Q) (doc : pydict),
            id = Z.of_nat ref
            /\ distancias !! i = Some distancia
            /\ refs !! i = Some ref
            /\ Exemplos.metadados_icms !! ref = Some (JDict doc)
            /\ docs' !! ref = Some (JDict (anotado doc (i + 1) distancia))
            /\ objeto (JList docs') ref
               = JDict (anotado doc (i + 1) distancia)
            /\ dict_lookup "rank" (anotado doc (i + 1) distancia)
               = Some (JInt (Z.of_nat (i + 1)))
            /\ dict_lookup "distancia_l2" (anotado doc (i + 1) distancia)
               = Some (JFloat distancia)
            /\ (forall chave, chave <> "rank" -> chave <> "distancia_l2" ->
                  dict_lookup chave (anotado doc (i + 1) distancia)
                  = dict_lookup chave doc)
            /\ secoes !! i
               = Some (bloco Exemplos.repr_escalar Exemplos.fmt_fixo (i + 1)
                         distancia doc))
    /\ (forall i ref,
          refs !! i = Some ref -> indices !! i = Some (Z.of_nat ref))
    /\ (forall p, p ∉ refs -> docs' !! p = Exemplos.metadados_icms !! p).
Proof.
  apply (consulta_anota_os_metadados Exemplos.repr_escalar Exemplos.fmt_fixo
           Exemplos.encode Exemplos.l2 Exemplos.desempate "acucar"
           Exemplos.indice_icms Exemplos.metadados_icms 5).
  - reflexivity.
  - lia.
  - unfold ntotal. simpl. lia.
  - reflexivity.
Defined.

(** The metadata list after that query, entry by entry: each carries the
    rank and the distance of the query. *)
Example metadados_depois_da_consulta :
  resultados_da_busca Exemplos.encode Exemplos.l2 Exemplos.desempate "acucar"
    Exemplos.indice_icms (JList Exemplos.metadados_icms) 5
  = Ok (JList
          [JDict (anotado [("id", JInt 0); ("path", JStr "https://sp/lei1");
                           ("conteudo", JStr "PATH: https://sp/lei1")] 3 40);
           JDict (anotado [("id", JInt 1); ("path", JStr "https://sp/lei2");
                           ("conteudo", JStr "PATH: https://sp/lei2")] 2 25);
           JDict (anotado [("id", JInt 2); ("path", JStr "https://sp/lei3");
                           ("conteudo", JStr "PATH: https://sp/lei3")] 1 0)],
        [2; 1; 0]).
Proof. vm_compute. reflexivity. Qed.

End BuscaFaissFacts.

(* ===================================================================== *)
(** * LLM.py: the two requests and the driver                             *)
(* ===================================================================== *)

Module LLMFacts.
Import Py LLM.

Lemma pedidos_app (a b : list evento) :
  pedidos (a ++ b) = pedidos a ++ pedidos b.
Proof. apply omap_app. Qed.

Lemma renderizacoes_app (a b : list evento) :
  renderizacoes (a ++ b) = renderizacoes a ++ renderizacoes b.
Proof. apply omap_app. Qed.

Section PipelineFacts.

Variable json_loads : string -> result json.
Variable cliente : bool.
Variable gemini : bool -> string -> resposta_gemini.
Variable ler_arquivo : string -> option string.
Variable subprocess_run : list string -> processo.
Variable sys_executable : string.
Variable escreve_pdf : string -> string -> bool.

(** C1 (the code does not do this).  The contents of the analysis request
    are one fixed text: whatever document and whatever passage block the
    Report Generator is given, it sends the text it would send for two empty
    strings (one request; none when the client cannot be created), and
    returns the same analysis.  For the sugar invoice and its retrieved
    passages, neither occurs in the request. *)
Theorem pedido_de_analise_constante :
  (forall conteudo_xml_bruto resultados_busca : string,
      pedidos
        (analisar_resultados_gemini cliente gemini conteudo_xml_bruto
           resultados_busca).1
      = (if cliente then [(false, prompt_analise "" "")] else [])
      /\ analisar_resultados_gemini cliente gemini conteudo_xml_bruto
           resultados_busca
         = analisar_resultados_gemini cliente gemini "" "")
  /\ contains Exemplos.nota_acucar
       (prompt_analise Exemplos.nota_acucar Exemplos.trechos_acucar) = false
  /\ contains Exemplos.trechos_acucar
       (prompt_analise Exemplos.nota_acucar Exemplos.trechos_acucar) = false.
Proof.
  split; [ | split; vm_compute; reflexivity].
  intros conteudo resultados. unfold analisar_resultados_gemini.
  change (prompt_analise conteudo resultados) with (prompt_analise "" "").
  split; [ | reflexivity].
  destruct cliente; [ | reflexivity]. cbn [negb].
  destruct (gemini false _) as [ | [texto | ]]; reflexivity.
Qed.

(** ** The Term Extractor *)

Lemma campo_aparado_dois_campos (termos : json) (curto completo : string) :
  dois_campos termos = Some (curto, completo) ->
  campo_aparado termos "termo_curto" = Ok (strip curto)
  /\ campo_aparado termos "termo_completo" = Ok (strip completo).
Proof.
  unfold dois_campos, campo_aparado. destruct termos; try discriminate.
  destruct (dict_lookup "termo_curto" kvs) as [[ | | | | c | | ] | ]; try discriminate.
  destruct (dict_lookup "termo_completo" kvs) as [[ | | | | l | | ] | ]; try discriminate.
  by intros [= -> ->].
Qed.

(** Outside the two-field structure, a field is missing (and read as the
    empty string) or is not a string (and has no [strip]). *)
Lemma campo_aparado_fora (termos : json) :
  dois_campos termos = None ->
  (exists e, campo_aparado termos "termo_curto" = Raise e)
  \/ campo_aparado termos "termo_curto" = Ok ""
  \/ (exists e, campo_aparado termos "termo_completo" = Raise e)
  \/ campo_aparado termos "termo_completo" = Ok "".
Proof.
  unfold dois_campos, campo_aparado. destruct termos; eauto.
  destruct (dict_lookup "termo_curto" kvs) as [[ | | | | c | | ] | ]; simpl; eauto.
  destruct (dict_lookup "termo_completo" kvs) as [[ | | | | l | | ] | ];
    simpl; eauto 6; discriminate.
Qed.

(** The terms come out exactly for a response that decodes to the
    two-field structure with both fields non-empty once trimmed. *)
Lemma termos_da_resposta_ok (resposta : resposta_gemini) (m : list evento)
  (termo_curto termo_completo : string) :
  termos_da_resposta json_loads resposta = (m, Ok (termo_curto, termo_completo))
  <-> exists text termos curto completo,
        resposta = GeminiTexto (Some text)
        /\ json_loads text = Ok termos
        /\ dois_campos termos = Some (curto, completo)
        /\ termo_curto = strip curto /\ termo_completo = strip completo
        /\ termo_curto <> "" /\ termo_completo <> "" /\ m = [].
Proof.
  split.
  - unfold termos_da_resposta.
    destruct resposta as [ | [text | ]]; try discriminate.
    destruct (json_loads text) as [termos | e] eqn:Hl; try discriminate.
    destruct (dois_campos termos) as [[curto completo] | ] eqn:Hd.
    + destruct (campo_aparado_dois_campos _ _ _ Hd) as [-> ->].
      destruct (String.eqb_spec (strip curto) ""); simpl; try discriminate.
      destruct (String.eqb_spec (strip completo) ""); simpl; try discriminate.
      intros [= <- <- <-]. by exists text, termos, curto, completo.
    + destruct (campo_aparado_fora _ Hd) as [[e ->] | [-> | H]].
      * discriminate.
      * destruct (campo_aparado termos "termo_completo"); discriminate.
      * destruct (campo_aparado termos "termo_curto") as [c | e];
          [ | discriminate].
        destruct H as [[e ->] | ->]; [discriminate | ].
        rewrite orb_true_r. discriminate.
  - intros (text & termos & curto & completo & -> & Hl & Hd & -> & -> & Hc & Hl' & ->).
    unfold termos_da_resposta. rewrite Hl.
    destruct (campo_aparado_dois_campos _ _ _ Hd) as [-> ->].
    apply String.eqb_neq in Hc, Hl'. by rewrite Hc, Hl'.
Qed.

Lemma termos_da_resposta_sem_termo_curto (resposta : resposta_gemini) :
  sem_termo_curto json_loads resposta = true ->
  exists m e, termos_da_resposta json_loads resposta = (m, Raise e).
Proof.
  intros H.
  destruct (termos_da_resposta json_loads resposta) as [m [[c l] | e]] eqn:E;
    [ | by eauto].
  apply termos_da_resposta_ok in E
    as (text & termos & curto & completo & -> & Hl & Hd & -> & _ & Hc & _).
  simpl in H. rewrite Hl, Hd in H. by apply String.eqb_eq in H.
Qed.

(** C7.  When the term request gets a response from which no short term
    can be taken (the call fails, the response has no text, the text is not
    JSON or not the two-field structure, or [termo_curto] is empty or blank),
    the Term Extractor prints the error and returns no term instead of an
    empty one, and the driver that read this document stops with exit code
    1 before the pause, the two scripts, the analysis request and the
    rendering. *)
Theorem extracao_de_termos_falha (conteudo_xml_bruto : string) :
  sem_termo_curto json_loads (gemini true (prompt_termos conteudo_xml_bruto)) = true ->
  (extrair_termos_gemini json_loads cliente gemini conteudo_xml_bruto).2 = (None, None)
  /\ Imprime MsgErroGemini
       ∈ (extrair_termos_gemini json_loads cliente gemini conteudo_xml_bruto).1
  /\ forall (script arquivo_xml : string) (resto : list string),
       ler_arquivo arquivo_xml = Some conteudo_xml_bruto ->
       exists t : list evento,
         main json_loads cliente gemini ler_arquivo subprocess_run sys_executable
           escreve_pdf (script :: arquivo_xml :: resto) = (t, Saiu 1)
         /\ filter (fun e => etapa_posterior e = true) t = [].
Proof.
  intros H.
  destruct (termos_da_resposta_sem_termo_curto _ H) as (m & e & Hr).
  assert (Hm : filter (fun e => etapa_posterior e = true) m = []).
  { revert Hr. unfold termos_da_resposta.
    repeat (case_match; simpl); by intros [= <- _]. }
  assert (He : exists t1,
             extrair_termos_gemini json_loads cliente gemini conteudo_xml_bruto
             = (t1, (None, None))
             /\ Imprime MsgErroGemini ∈ t1
             /\ filter (fun e => etapa_posterior e = true) t1 = []).
  { unfold extrair_termos_gemini. destruct cliente; cbn [negb].
    - rewrite Hr. eexists. split; [reflexivity | ]. split.
      + apply elem_of_cons. right. apply elem_of_app. right. by left.
      + rewrite !filter_app, Hm. reflexivity.
    - eexists. split; [reflexivity | ]. split; [by left | reflexivity]. }
  destruct He as (t1 & He & Hin & Ht1).
  rewrite He. simpl. split; [done | ]. split; [exact Hin | ].
  intros script arquivo_xml resto Hler. unfold main, ler_conteudo_xml_bruto.
  rewrite Hler. simpl. destruct (String.eqb conteudo_xml_bruto ""); simpl.
  - eexists. split; reflexivity.
  - rewrite He. simpl. eexists. split; [reflexivity | ].
    rewrite !filter_cons; simpl. rewrite !filter_app, Ht1. reflexivity.
Qed.

(** ** The Report Generator *)

(** The fallback document names the error, so the driver never renders it. *)
Lemma analise_de_erro_nao_renderizada :
  contains "Erro de Análise" analise_de_erro = true.
Proof. vm_compute. reflexivity. Qed.

(** C9 (amended).  The Report Generator does not look at the shape of the
    analysis text.  The analysis is the text of the model's response as it
    comes, with or without a heading; only when the call fails (the
    client cannot be created, or the request fails) or the response has no
    text is the fallback error document put in its place.
    The driver renders the analysis unless it is empty or contains the
    words "Erro de Análise": the fallback document is never rendered, and
    any other non-empty text is, whether or not it starts with a top-level
    heading. *)
Theorem analise_sem_validacao
  (arquivo_xml conteudo_xml_bruto resultados_busca : string) :
  let analise :=
    (analisar_resultados_gemini cliente gemini conteudo_xml_bruto resultados_busca).2 in
  let nome_pdf := splitext_raiz arquivo_xml +:+ "_analise.pdf" in
  analise
  = (if cliente
     then match gemini false
                  (prompt_analise conteudo_xml_bruto resultados_busca) with
          | GeminiTexto (Some text) => text
          | _ => analise_de_erro
          end
     else analise_de_erro)
  /\ renderizacoes
       (analisar_e_gerar cliente gemini escreve_pdf arquivo_xml conteudo_xml_bruto
          resultados_busca)
     = if String.eqb analise "" || contains "Erro de Análise" analise
       then []
       else [(nome_pdf, analise, escreve_pdf nome_pdf analise)].
Proof.
  cbv zeta. unfold analisar_e_gerar, analisar_resultados_gemini.
  destruct cliente; cbn [negb fst snd].
  2:{ rewrite analise_de_erro_nao_renderizada, andb_false_r, orb_true_r.
      by split. }
  destruct (gemini false _) as [ | [text | ]]; cbn [fst snd].
  - rewrite analise_de_erro_nao_renderizada, andb_false_r, orb_true_r.
    by split.
  - split; [done | ]. unfold gerar_pdf.
    destruct (String.eqb text ""); [done | ].
    destruct (contains "Erro de Análise" text); [done | ].
    by destruct (escreve_pdf _ text).
  - rewrite analise_de_erro_nao_renderizada, andb_false_r, orb_true_r.
    by split.
Qed.

End PipelineFacts.

(** The theorem at a run whose term response has a blank [termo_curto]. *)
Lemma extracao_de_termos_falha_em_branco :
  (extrair_termos_gemini Exemplos.json_loads true Exemplos.gemini_em_branco
     Exemplos.nota_acucar).2 = (None, None)
  /\ Imprime MsgErroGemini
       ∈ (extrair_termos_gemini Exemplos.json_loads true Exemplos.gemini_em_branco
            Exemplos.nota_acucar).1
  /\ forall (script arquivo_xml : string) (resto : list string),
       Exemplos.ler_nota arquivo_xml = Some Exemplos.nota_acucar ->
       exists t : list evento,
         main Exemplos.json_loads true Exemplos.gemini_em_branco Exemplos.ler_nota
           Exemplos.scripts_ok "python3" Exemplos.pdf_ok
           (script :: arquivo_xml :: resto) = (t, Saiu 1)
         /\ filter (fun e => etapa_posterior e = true) t = [].
Proof.
  apply (extracao_de_termos_falha Exemplos.json_loads true Exemplos.gemini_em_branco
           Exemplos.ler_nota Exemplos.scripts_ok "python3" Exemplos.pdf_ok
           Exemplos.nota_acucar).
  vm_compute. reflexivity.
Defined.

(** C9 as stated fails: an analysis that does not start with a top-level
    heading is rendered as it is, and the PDF is written. *)
Lemma analise_sem_titulo_renderizada :
  comeca_com_titulo Exemplos.analise_sem_titulo = false
  /\ renderizacoes
       (analisar_e_gerar true Exemplos.gemini_em_branco Exemplos.pdf_ok "nota.xml"
          Exemplos.nota_acucar Exemplos.trechos_acucar)
     = [("nota_analise.pdf", Exemplos.analise_sem_titulo, true)].
Proof.
  split; vm_compute; reflexivity.
Qed.

End LLMFacts.

(* ===================================================================== *)
(** * Legislacao.py: further properties of the extraction and the script  *)
(* ===================================================================== *)

Module LegislacaoExtras.
Import Py PyFacts Disco Legislacao LegislacaoFacts Propriedades.

Section ExtracaoExtras.

Variable py_repr : json -> string.

(** The row loop raises nothing but the [AttributeError] of [row.get]. *)
Lemma linhas_excecao (rows : list json) (acc : list resultado) (e : exc) :
  linhas py_repr rows acc = Raise e -> e = AttributeError.
Proof.
  revert acc. induction rows as [ | row rows IH]; intros acc; simpl; [done | ].
  destruct row; try (by intros [= <-]).
  destruct (truthy _ && truthy _); apply IH.
Qed.

Lemma buscar_result_rows_excecao (item : json) :
  forall acc e,
    buscar_result_rows py_repr item acc = Raise e -> e = AttributeError.
Proof.
  induction item as [ | | | | | xs IH | kvs IH] using json_nested;
    intros acc e; simpl; try done.
  - revert acc. induction IH as [ | x xs Hx _ IHxs]; intros acc; simpl; [done | ].
    destruct (buscar_result_rows py_repr x acc) as [acc1 | e1] eqn:E.
    + apply IHxs.
    + intros [= <-]. by eapply Hx.
  - revert acc. induction IH as [ | [k v] kvs Hv _ IHkvs]; intros acc; simpl in *; [done | ].
    destruct (result_rows k v) as [rows | ]; [apply linhas_excecao | ].
    destruct (buscar_result_rows py_repr v acc) as [acc1 | e1] eqn:E.
    + apply IHkvs.
    + intros [= <-]. by eapply Hv.
Qed.

(** X1.  The extraction either returns the valid rows of the [ResultRows]
    lists it reaches, numbered from 0, or raises [AttributeError]; it
    raises exactly when one of the rows it reaches is not a dictionary, and
    it raises no other exception. *)
Theorem extracao_retorna_ou_linha_invalida (dados : json) :
  match extrair_resultados_recursivamente py_repr dados with
  | Ok rs =>
      linhas_sao_dicts dados = true
      /\ rs = numerar 0 (visita py_repr dados)
  | Raise e =>
      e = AttributeError /\ linhas_sao_dicts dados = false
  end.
Proof.
  destruct (linhas_sao_dicts dados) eqn:Hd.
  - by rewrite (extrair_visita py_repr _ Hd).
  - unfold extrair_resultados_recursivamente.
    destruct (buscar_result_rows py_repr dados []) as [rs | e] eqn:E.
    + apply buscar_result_rows_retorna in E. congruence.
    + split; [by eapply buscar_result_rows_excecao | done].
Qed.

(** The loop over the entries of a dictionary, as [buscar_result_rows]
    runs it. *)
Lemma buscar_result_rows_dict_cons (k : string) (v : json) (kvs : pydict)
  (acc : list resultado) :
  buscar_result_rows py_repr (JDict ((k, v) :: kvs)) acc
  = match result_rows k v with
    | Some rows => linhas py_repr rows acc
    | None =>
        match buscar_result_rows py_repr v acc with
        | Ok acc' => buscar_result_rows py_repr (JDict kvs) acc'
        | Raise e => Raise e
        end
    end.
Proof. reflexivity. Qed.

(** X2.  Within one dictionary nothing that stands after a [ResultRows]
    list is looked at: whatever the later entries are, the extraction
    returns (or raises) what it does without them. *)
Theorem entradas_depois_de_result_rows (antes depois : pydict)
  (rows : list json) :
  extrair_resultados_recursivamente py_repr
    (JDict (antes ++ ("ResultRows", JList rows) :: depois))
  = extrair_resultados_recursivamente py_repr
      (JDict (antes ++ [("ResultRows", JList rows)])).
Proof.
  unfold extrair_resultados_recursivamente. generalize (@nil resultado).
  induction antes as [ | [k v] antes IH]; intros acc.
  - reflexivity.
  - rewrite <- !app_comm_cons, !buscar_result_rows_dict_cons.
    destruct (result_rows k v); [done | ].
    destruct (buscar_result_rows py_repr v acc); [apply IH | done].
Qed.

Lemma linhas_validas_mantidas (rows : list json) :
  Forall (fun pt : json * string => linha_mantida py_repr (Resultado 0 pt.1 pt.2))
    (linhas_validas py_repr rows).
Proof.
  induction rows as [ | row rows IH]; [constructor | ].
  unfold linhas_validas in *. simpl.
  destruct (campos_da_linha py_repr row) as [[p t] | ] eqn:E; simpl; [ | done].
  constructor; [ | done].
  unfold campos_da_linha in E. destruct row; try discriminate.
  destruct (truthy (dict_get "Path" kvs)) eqn:Hp; simpl in E; [ | discriminate].
  destruct (truthy (dict_get "PublishingPageContentOWSHTML" kvs)) eqn:Hc;
    [ | discriminate].
  injection E as <- <-. split; [done | ]. eexists. by split.
Qed.

Lemma visita_mantidas (item : json) :
  Forall (fun pt : json * string => linha_mantida py_repr (Resultado 0 pt.1 pt.2))
    (visita py_repr item).
Proof.
  induction item as [ | | | | | xs IH | kvs IH] using json_nested;
    simpl; try constructor.
  - induction IH as [ | x xs Hx _ IHxs]; simpl; [constructor | ].
    by apply Forall_app.
  - induction IH as [ | [k v] kvs Hv _ IHkvs]; simpl in *; [constructor | ].
    destruct (result_rows k v); [apply linhas_validas_mantidas | ].
    by apply Forall_app.
Qed.

Lemma numerar_mantidas (l : list (json * string)) :
  forall n,
    Forall (fun pt : json * string => linha_mantida py_repr (Resultado 0 pt.1 pt.2)) l ->
    Forall (linha_mantida py_repr) (numerar n l).
Proof.
  induction l as [ | [p t] l IH]; intros n H; simpl; [constructor | ].
  apply Forall_cons in H as [H1 H2]. constructor; [exact H1 | by apply IH].
Qed.

(** X3.  Every row the extraction returns has a truthy [path] (never null
    or empty), and its [conteudo] is the text "PATH: <path>", a line feed,
    "CONTEÚDO: <content>" built from that path and a truthy content. *)
Theorem linhas_extraidas_completas (dados : json) (rs : list resultado) :
  extrair_resultados_recursivamente py_repr dados = Ok rs ->
  Forall (linha_mantida py_repr) rs.
Proof.
  intros H.
  unfold extrair_resultados_recursivamente in H.
  pose proof (buscar_result_rows_retorna py_repr _ _ _ H) as Hd.
  rewrite (buscar_result_rows_visita py_repr _ _ Hd) in H.
  injection H as <-. simpl. apply numerar_mantidas, visita_mantidas.
Qed.

End ExtracaoExtras.

(** The theorem at the depth-3 structure and its two rows. *)
Lemma linhas_extraidas_completas_prof3 :
  Forall (linha_mantida Exemplos.repr_escalar) Exemplos.linhas_prof3.
Proof.
  apply (linhas_extraidas_completas Exemplos.repr_escalar
           Exemplos.resposta_prof3 Exemplos.linhas_prof3).
  reflexivity.
Defined.

(** ** Strings *)

Lemma find_from_depois (c : ascii) (antes resto : string) (i : Z) :
  ocorre c antes = false ->
  find_from c (antes +:+ String c resto) i
  = (i + Z.of_nat (String.length antes))%Z.
Proof.
  revert i. induction antes as [ | a antes IH]; intros i H.
  - change ("" +:+ String c resto) with (String c resto). simpl.
    rewrite Ascii.eqb_refl. lia.
  - rewrite append_cons. simpl in *.
    apply orb_false_iff in H as [-> H]. rewrite IH by done. lia.
Qed.

Lemma rfind_from_antes (c : ascii) (s depois : string) (i last : Z) :
  ocorre c depois = false ->
  rfind_from c (s +:+ String c depois) i last
  = (i + Z.of_nat (String.length s))%Z.
Proof.
  intros H. revert i last. induction s as [ | a s IH]; intros i last.
  - change ("" +:+ String c depois) with (String c depois). simpl.
    rewrite Ascii.eqb_refl, rfind_from_ausente by done. lia.
  - rewrite append_cons. simpl. rewrite IH. lia.
Qed.

Lemma substring_inicio (b c : string) :
  String.substring 0 (String.length b) (b +:+ c) = b.
Proof.
  induction b as [ | x b IH].
  - change ("" +:+ c) with c. by destruct c.
  - rewrite append_cons. simpl. by rewrite IH.
Qed.

Lemma substring_meio (a b c : string) :
  String.substring (String.length a) (String.length b) (a +:+ b +:+ c) = b.
Proof.
  induction a as [ | x a IH]; [exact (substring_inicio b c) | ].
  rewrite append_cons. simpl. apply IH.
Qed.

Lemma construir_fora (gravacao_de : string -> gravacao) (dados : dados_processados)
  (base nome : string) (fs : disco) :
  nome <> base +:+ ".faiss" ->
  nome <> base +:+ "_metadados.json" ->
  (construir_e_salvar_indice_faiss gravacao_de dados base fs).2 !! nome
  = fs !! nome.
Proof.
  intros H1 H2. unfold construir_e_salvar_indice_faiss, gravar.
  destruct (size (vetores dados) =? 0)%nat; [done | ].
  destruct (gravacao_de (base +:+ ".faiss"));
    destruct (gravacao_de (base +:+ "_metadados.json")); cbn [snd];
    by rewrite ?lookup_insert_ne.
Qed.

Section FluxoExtras.

Variable py_repr : json -> string.
Variable json_loads : string -> result json.
Variable encode : string -> list Q.
Variable portal : string -> resposta_http.
Variable gravacao_de : string -> gravacao.

(** X4.  Framing around the payload is cut away: of a body made of a
    prefix without [[], a bracketed payload and a suffix without []], only
    the payload, brackets included, is decoded, and the outcome is the one
    of decoding the bare payload. *)
Theorem isolar_retira_a_moldura (antes meio depois : string) :
  ocorre "["%char antes = false ->
  ocorre "]"%char depois = false ->
  isolar (antes +:+ "[" +:+ meio +:+ "]" +:+ depois) = "[" +:+ meio +:+ "]"
  /\ desserializar_json_resistente json_loads
       (antes +:+ "[" +:+ meio +:+ "]" +:+ depois)
     = desserializar_json_resistente json_loads ("[" +:+ meio +:+ "]").
Proof.
  intros Ha Hd.
  assert (Hi : forall a d, ocorre "["%char a = false ->
                 ocorre "]"%char d = false ->
                 isolar (a +:+ "[" +:+ meio +:+ "]" +:+ d)
                 = "[" +:+ meio +:+ "]").
  { intros a d Ha' Hd'. unfold isolar, find, rfind.
    change (a +:+ "[" +:+ meio +:+ "]" +:+ d)
      with (a +:+ String "["%char (meio +:+ String "]"%char d)).
    rewrite find_from_depois by done.
    replace (a +:+ String "["%char (meio +:+ String "]"%char d))
      with ((a +:+ String "["%char meio) +:+ String "]"%char d)
      by (by rewrite append_associativa, append_cons).
    rewrite rfind_from_antes by done.
    rewrite length_append. cbn [String.length].
    destruct (Z.eqb_spec (0 + Z.of_nat (String.length a)) (-1)) as [ | _];
      [lia | ].
    destruct (Z.eqb_spec
                (0 + Z.of_nat (String.length a + S (String.length meio))) (-1))
      as [ | _]; [lia | ].
    cbn [negb andb]. unfold slice.
    replace (Z.to_nat (0 + Z.of_nat (String.length a)))
      with (String.length a) by lia.
    replace (Z.to_nat (0 + Z.of_nat (String.length a + S (String.length meio)) + 1)
             - String.length a)
      with (String.length ("[" +:+ meio +:+ "]"))
      by (rewrite !length_append; simpl; lia).
    replace ((a +:+ String "["%char meio) +:+ String "]"%char d)
      with (a +:+ ("[" +:+ meio +:+ "]") +:+ d).
    - apply substring_meio.
    - rewrite !append_associativa. reflexivity. }
  split; [by apply Hi | ].
  unfold desserializar_json_resistente. rewrite (Hi antes depois) by done.
  specialize (Hi "" "" eq_refl eq_refl).
  change ("" +:+ "[" +:+ meio +:+ "]" +:+ "")
    with ("[" +:+ meio +:+ "]" +:+ "") in Hi.
  replace ("[" +:+ meio +:+ "]" +:+ "") with ("[" +:+ meio +:+ "]") in Hi.
  - by rewrite Hi.
  - by rewrite <- (append_associativa meio), (append_vazio (meio +:+ "]")).
Qed.

(** X5.  When the portal request fails, by an HTTP error status or by any
    other request failure, the script prints the error, leaves every file as
    it was, and still ends with exit code 0. *)
Theorem falha_do_portal (script termo : string) (resto : list string)
  (fs : disco) :
  (forall status_code text, portal termo <> Resposta status_code text) ->
  exists erro,
    main py_repr json_loads encode portal gravacao_de
      (script :: termo :: resto) fs
    = ([MsgFazendoRequisicao termo; erro], fs, Saiu 0)
    /\ (erro = MsgErroRequisicao \/ exists status_code, erro = MsgErroHTTP status_code).
Proof.
  intros H. unfold main, fazer_requisicao_fazenda_sp.
  destruct (portal termo) as [s t | s | ] eqn:E.
  - by destruct (H s t).
  - eexists. split; [reflexivity | eauto].
  - eexists. split; [reflexivity | eauto].
Qed.

(** X6.  Whatever the portal answers and however the run ends, the script
    touches no file other than the two named after its term: every other
    file of the directory is after the run what it was before. *)
Theorem main_so_toca_os_arquivos_do_termo (script termo : string)
  (resto : list string) (fs : disco) (nome : string) :
  nome <> "faiss_index_" +:+ termo +:+ ".faiss" ->
  nome <> "faiss_index_" +:+ termo +:+ "_metadados.json" ->
  (main py_repr json_loads encode portal gravacao_de
     (script :: termo :: resto) fs).1.2 !! nome
  = fs !! nome.
Proof.
  intros H1 H2. unfold main.
  destruct (fazer_requisicao_fazenda_sp portal termo) as [m1 [[s t] | ]];
    [ | done].
  destruct (desserializar_json_resistente json_loads t) as [m2 dados].
  destruct (truthy dados); [ | done].
  unfold extrair_e_indexar.
  destruct (extrair_resultados_recursivamente py_repr dados) as [rs | e];
    [ | done].
  destruct rs as [ | r rs]; [done | ].
  destruct (processar_para_faiss encode (r :: rs)) as [m4 dados_faiss].
  destruct (construir_e_salvar_indice_faiss gravacao_de dados_faiss
              ("faiss_index_" +:+ termo) fs) as [m5 fs'] eqn:E.
  cbn [fst snd].
  change fs' with (m5, fs').2. rewrite <- E.
  by apply construir_fora.
Qed.

(** The processed data of a non-empty list of rows. *)
Lemma processar_nao_vazio (d : nat) (resultados : list resultado) :
  0 < d ->
  (forall texto, length (encode texto) = d) ->
  0 < length resultados ->
  (processar_para_faiss encode resultados).2
  = DadosProcessados (map encode (map res_conteudo resultados)) resultados
  /\ (size (map encode (map res_conteudo resultados)) =? 0)%nat = false
  /\ shape1 (map encode (map res_conteudo resultados)) = d.
Proof.
  intros Hd Henc Hn.
  destruct resultados as [ | r l]; [simpl in Hn; lia | ].
  split; [ | split].
  - unfold processar_para_faiss. cbn [snd]. f_equal. apply resultado_eta.
  - apply Nat.eqb_neq. unfold size. simpl. rewrite Henc. lia.
  - unfold shape1. simpl. apply Henc.
Qed.

(** X7.  The two files are written independently of each other.  For a
    non-empty list of rows, each of the index file and the metadata file
    ends up with the new content when its own write goes through, stays as
    it was when its own write fails before the file is opened, and is left
    empty or incomplete when its own write is interrupted, whatever
    happens to the other: a failed index write does not stop the metadata
    write. *)
Theorem gravacoes_independentes (d : nat) (resultados : list resultado)
  (base : string) (fs : disco) :
  0 < d ->
  (forall texto, length (encode texto) = d) ->
  0 < length resultados ->
  (construir_e_salvar_indice_faiss gravacao_de
     (processar_para_faiss encode resultados).2 base fs).2
    !! (base +:+ ".faiss")
  = apos_gravar (gravacao_de (base +:+ ".faiss"))
      (ArqFaiss (Indice d (map encode (map res_conteudo resultados))))
      (fs !! (base +:+ ".faiss"))
  /\ (construir_e_salvar_indice_faiss gravacao_de
        (processar_para_faiss encode resultados).2 base fs).2
       !! (base +:+ "_metadados.json")
     = apos_gravar (gravacao_de (base +:+ "_metadados.json"))
         (ArqJson (JList (map metadado_json resultados)))
         (fs !! (base +:+ "_metadados.json")).
Proof.
  intros Hd Henc Hn.
  destruct (processar_nao_vazio d resultados Hd Henc Hn) as (-> & Hs & Hs1).
  unfold construir_e_salvar_indice_faiss, gravar. cbn [vetores metadados].
  rewrite Hs, Hs1.
  assert (Hne : base +:+ ".faiss" <> base +:+ "_metadados.json").
  { intros H. apply append_injetiva in H. discriminate. }
  destruct (gravacao_de (base +:+ ".faiss"));
    destruct (gravacao_de (base +:+ "_metadados.json")); cbn [snd];
    rewrite ?lookup_insert_eq, ?lookup_insert_ne, ?lookup_insert_eq by done;
    done.
Qed.

End FluxoExtras.

(** The theorem at the portal's framed table of two rows. *)
Lemma isolar_retira_a_moldura_tabela :
  isolar ("/*-secure-" +:+ "[" +:+ "1, 2" +:+ "]" +:+ "*/") = "[" +:+ "1, 2" +:+ "]"
  /\ desserializar_json_resistente Exemplos.json_loads
       ("/*-secure-" +:+ "[" +:+ "1, 2" +:+ "]" +:+ "*/")
     = desserializar_json_resistente Exemplos.json_loads
         ("[" +:+ "1, 2" +:+ "]").
Proof.
  apply (isolar_retira_a_moldura Exemplos.json_loads "/*-secure-" "1, 2" "*/");
    reflexivity.
Defined.

(** The theorem at a term the portal refuses with status 403. *)
Lemma falha_do_portal_403 :
  exists erro,
    main Exemplos.repr_escalar Exemplos.json_loads Exemplos.encode
      Exemplos.portal Exemplos.grava_tudo ["Legislacao.py"; "icms"] ∅
    = ([MsgFazendoRequisicao "icms"; erro], ∅, Saiu 0)
    /\ (erro = MsgErroRequisicao
        \/ exists status_code, erro = MsgErroHTTP status_code).
Proof.
  apply (falha_do_portal Exemplos.repr_escalar Exemplos.json_loads
           Exemplos.encode Exemplos.portal Exemplos.grava_tudo
           "Legislacao.py" "icms" [] ∅).
  intros status_code text. discriminate.
Defined.

(** The theorem at a run that builds the index of "acucar" beside a file of
    another term. *)
Lemma main_so_toca_os_arquivos_do_termo_acucar :
  (main Exemplos.repr_escalar Exemplos.json_loads Exemplos.encode
     Exemplos.portal Exemplos.grava_tudo ["Legislacao.py"; "acucar"]
     (<["faiss_index_icms.faiss" := ArqFaiss Exemplos.indice_icms]> ∅)).1.2
    !! "faiss_index_icms.faiss"
  = (<["faiss_index_icms.faiss" := ArqFaiss Exemplos.indice_icms]> ∅
       : disco) !! "faiss_index_icms.faiss".
Proof.
  apply (main_so_toca_os_arquivos_do_termo Exemplos.repr_escalar
           Exemplos.json_loads Exemplos.encode Exemplos.portal
           Exemplos.grava_tudo "Legislacao.py" "acucar" []);
    discriminate.
Defined.

(** The theorem at the two rows of the depth-3 structure, on a file system
    where the write of the index file is interrupted and the write of the
    metadata file goes through. *)
Lemma gravacoes_independentes_prof3 :
  (construir_e_salvar_indice_faiss Exemplos.interrompe_faiss
     (processar_para_faiss Exemplos.encode Exemplos.linhas_prof3).2
     "faiss_index_icms" ∅).2 !! ("faiss_index_icms" +:+ ".faiss")
  = apos_gravar (Exemplos.interrompe_faiss ("faiss_index_icms" +:+ ".faiss"))
      (ArqFaiss (Indice 3 (map Exemplos.encode
                             (map res_conteudo Exemplos.linhas_prof3))))
      ((∅ : disco) !! ("faiss_index_icms" +:+ ".faiss"))
  /\ (construir_e_salvar_indice_faiss Exemplos.interrompe_faiss
        (processar_para_faiss Exemplos.encode Exemplos.linhas_prof3).2
        "faiss_index_icms" ∅).2 !! ("faiss_index_icms" +:+ "_metadados.json")
     = apos_gravar
         (Exemplos.interrompe_faiss ("faiss_index_icms" +:+ "_metadados.json"))
         (ArqJson (JList (map metadado_json Exemplos.linhas_prof3)))
         ((∅ : disco) !! ("faiss_index_icms" +:+ "_metadados.json")).
Proof.
  apply (gravacoes_independentes Exemplos.encode Exemplos.interrompe_faiss 3
           Exemplos.linhas_prof3 "faiss_index_icms" ∅).
  - lia.
  - intros texto. reflexivity.
  - simpl. lia.
Defined.

End LegislacaoExtras.

(* ===================================================================== *)
(** * BuscaFaiss.py: further properties of the loader and the query       *)
(* ===================================================================== *)

Module BuscaFaissExtras.
Import Py Disco BuscaFaiss BuscaFaissFacts Propriedades.

Section ConsultaExtras.

Variable py_repr : json -> string.
Variable fmt_4f : Q -> string.
Variable encode : string -> list Q.
Variable l2 : list Q -> list Q -> Q.
Variable desempate : indice -> list Q -> nat -> Z -> Z.

(** X8.  When the index file or the metadata file of the keyword is not
    there, the script prints the load error, runs no search, prints no
    result block and ends with exit code 1. *)
Theorem arquivos_ausentes (script termo query : string) (resto : list string)
  (fs : disco) :
  fs !! ("faiss_index_" +:+ termo +:+ ".faiss") = None
  \/ fs !! ("faiss_index_" +:+ termo +:+ "_metadados.json") = None ->
  exists erro,
    main py_repr fmt_4f encode l2 desempate
      (script :: termo :: query :: resto) fs
    = ([erro; MsgNaoCarregou], Saiu 1)
    /\ (erro = MsgErroAoCarregar \/ erro = MsgNaoEncontrados termo).
Proof.
  intros H. unfold main, carregar_indice_e_metadados.
  destruct (fs !! ("faiss_index_" +:+ termo +:+ ".faiss"))
    as [[ix | v | ] | ] eqn:E1.
  - destruct H as [ | ->]; [done | ]. eexists. split; [reflexivity | auto].
  - eexists. split; [reflexivity | auto].
  - eexists. split; [reflexivity | auto].
  - eexists. split; [reflexivity | auto].
Qed.

(** X9.  On an index without vectors the query reads nothing of the
    metadata: whatever value the metadata file held, it is left as it was,
    there is no result, and the text returned is empty. *)
Theorem busca_em_indice_vazio (query : string) (index : indice)
  (metadados : json) (k : nat) :
  length (encode query) = dimensao_de index ->
  0 < k ->
  ntotal index = 0 ->
  buscar_faiss py_repr fmt_4f encode l2 desempate query index metadados k
  = Ok ([MsgBuscando k; MsgBuscaConcluida 0], "", metadados).
Proof.
  intros Hx Hk Hn. unfold buscar_faiss, resultados_da_busca.
  destruct (search_slots l2 desempate index (encode query) k Hx Hk)
    as (distancias & indices & -> & _ & _ & Hz).
  cbn [bind]. rewrite Hz.
  pose proof (length_melhores l2 desempate index (encode query) k) as Hl.
  rewrite Hn, Nat.min_0_r in Hl. apply nil_length_inv in Hl. rewrite Hl.
  simpl. by rewrite mapear_vazios.
Qed.

(** A slot whose label lies beyond the metadata list makes the loop raise
    [IndexError]; the slots before it, which name dictionaries, do not
    raise. *)
Lemma mapear_alem_da_lista (slots : list (Q * Z)) :
  forall i docs refs,
    Forall (fun s : Q * Z => (0 <= s.2)%Z) slots ->
    Forall (fun doc => exists d, doc = JDict d) docs ->
    (exists s, s ∈ slots /\ length docs <= Z.to_nat s.2) ->
    mapear i slots (JList docs) refs = Raise IndexError.
Proof.
  induction slots as [ | [d id] slots IH]; intros i docs refs Hpos Hdocs Hbad.
  - destruct Hbad as (s & Hs & _). by apply elem_of_nil in Hs.
  - apply Forall_cons in Hpos as [Hid Hpos]. cbn [snd] in Hid.
    rewrite mapear_cons.
    destruct (Z.eqb_spec id (-1)) as [ | _]; [lia | ].
    unfold anotar. cbv zeta.
    destruct (Z.ltb_spec id 0) as [ | _]; [lia | ].
    destruct (Z.ltb_spec id 0) as [ | _]; [lia | ].
    destruct (docs !! Z.to_nat id) as [doc | ] eqn:Hdoc; [ | done].
    destruct (proj1 (Forall_forall _ _) Hdocs doc
                (list_elem_of_lookup_2 _ _ _ Hdoc)) as [dd ->].
    apply IH; [done | | ].
    + apply Forall_insert; [done | by eexists].
    + rewrite length_insert. destruct Hbad as (s & Hs & Hlen).
      apply elem_of_cons in Hs as [-> | Hs]; [ | by exists s].
      apply lookup_lt_Some in Hdoc. simpl in Hlen. lia.
Qed.

(** X10.  When the metadata list is shorter than the index and the query
    asks for at least as many neighbours as the index holds, the loop
    reaches a label beyond the list and [buscar_faiss] raises [IndexError]:
    the script has no handler for it and returns no result. *)
Theorem metadados_mais_curtos_que_o_indice (query : string) (index : indice)
  (docs : list json) (k : nat) :
  length (encode query) = dimensao_de index ->
  forallb bem_formado docs = true ->
  length docs < ntotal index ->
  ntotal index <= k ->
  resultados_da_busca encode l2 desempate query index (JList docs) k = Raise IndexError
  /\ buscar_faiss py_repr fmt_4f encode l2 desempate query index (JList docs) k
     = Raise IndexError.
Proof.
  intros Hx Hb Hlen Hk.
  assert (Hr : resultados_da_busca encode l2 desempate query index (JList docs) k
               = Raise IndexError).
  { unfold resultados_da_busca.
    destruct (search_slots l2 desempate index (encode query) k Hx ltac:(lia))
      as (distancias & indices & -> & _ & _ & Hz).
    cbn [bind]. rewrite Hz, mapear_app.
    rewrite mapear_alem_da_lista; [done | | | ].
    - apply Forall_forall. intros s Hs.
      apply melhores_elem in Hs as (i & v & _ & ->). simpl. lia.
    - apply Forall_forall. intros doc Hdoc.
      rewrite forallb_forall in Hb. specialize (Hb doc).
      rewrite <- list_elem_of_In in Hb. specialize (Hb Hdoc).
      destruct doc; try discriminate. by eexists.
    - destruct (lookup_lt_is_Some_2 (vetores_de index) (length docs) Hlen)
        as [v Hv].
      exists (l2 (encode query) v, Z.of_nat (length docs)). split.
      + unfold melhores. rewrite take_ge.
        * rewrite merge_sort_Permutation.
          apply list_elem_of_lookup_2 with (length docs).
          by rewrite candidatos_lookup, Hv.
        * rewrite (Permutation_length (merge_sort_Permutation _ _)).
          by rewrite length_candidatos.
      + simpl. lia. }
  split; [done | ]. unfold buscar_faiss. by rewrite Hr.
Qed.

(** X20.  The text the query returns is made of one block of four lines per
    result, in rank order and nothing else: the block of the result in
    slot [j] shows the rank [j + 1], the path and the content of the
    metadata entry at the result's position as the file held them, and the
    distance between the query and the vector at that position. *)
Theorem texto_da_busca (query : string) (index : indice)
  (docs : list json) (k : nat) :
  length (encode query) = dimensao_de index ->
  0 < k ->
  ntotal index <= length docs ->
  forallb bem_formado docs = true ->
  exists (docs' : list json) (refs : list nat) (msgs : list mensagem)
         (secoes : list string),
    resultados_da_busca encode l2 desempate query index (JList docs) k
    = Ok (JList docs', refs)
    /\ buscar_faiss py_repr fmt_4f encode l2 desempate query index (JList docs) k
       = Ok (msgs, foldr String.append "" secoes, JList docs')
    /\ length secoes = length refs
    /\ forall j ref,
         refs !! j = Some ref ->
         exists (v : list Q) (doc : pydict),
           vetores_de index !! ref = Some v
           /\ docs !! ref = Some (JDict doc)
           /\ secoes !! j
              = Some (bloco py_repr fmt_4f (j + 1)
                        (l2 (encode query) v) doc).
Proof.
  intros Hx Hk Hn Hb.
  destruct (consulta encode l2 desempate query index docs k Hx Hk Hn Hb)
    as (docs' & Hr & _ & Hhit & _).
  set (ms := melhores l2 desempate index (encode query) k) in *.
  set (dic := fun ref => match docs !! ref with
                         | Some (JDict doc) => doc
                         | _ => []
                         end).
  set (secoes := imap (fun j (s : Q * Z) =>
                         bloco py_repr fmt_4f (j + 1) s.1
                           (dic (Z.to_nat s.2))) ms).
  assert (Hslot : forall j s,
             ms !! j = Some s ->
             exists ref v doc,
               s = (l2 (encode query) v, Z.of_nat ref)
               /\ vetores_de index !! ref = Some v
               /\ docs !! ref = Some (JDict doc)
               /\ dic ref = doc).
  { intros j s Hs.
    destruct (melhores_slot encode l2 desempate query index docs k j s Hn Hb Hs)
      as (ref & v & doc & -> & Hv & Hdoc).
    exists ref, v, doc. unfold dic. by rewrite Hdoc. }
  assert (Hsec : Forall2
                   (fun ref sec =>
                      secao py_repr fmt_4f (objeto (JList docs') ref) = Ok sec)
                   ((fun s : Q * Z => Z.to_nat s.2) <$> ms) secoes).
  { apply Forall2_same_length_lookup_2.
    { unfold secoes. by rewrite length_fmap, length_imap. }
    intros j ref sec Href Hsec. unfold secoes in Hsec.
    rewrite list_lookup_fmap in Href. rewrite list_lookup_imap in Hsec.
    destruct (ms !! j) as [s | ] eqn:Hs; [ | done].
    injection Href as <-. injection Hsec as <-.
    destruct (Hslot j s Hs) as (ref & v & doc & -> & Hv & Hdoc & Hdic).
    cbn [fst snd] in *. rewrite Nat2Z.id in *. rewrite Hdic.
    pose proof (Hhit j _ doc Hs) as Hj. cbn [fst snd] in Hj.
    rewrite Nat2Z.id in Hj. specialize (Hj Hdoc).
    simpl. rewrite Hj. simpl.
    destruct (bem_formado_conteudo docs ref doc Hb Hdoc) as [conteudo Hc].
    by apply secao_anotado with conteudo. }
  eexists docs', ((fun s : Q * Z => Z.to_nat s.2) <$> ms), _, secoes.
  split; [exact Hr | ]. split; [ | split].
  - unfold buscar_faiss. rewrite Hr. cbn [bind].
    rewrite (formatar_blocos py_repr fmt_4f _ _ _ Hsec ""). reflexivity.
  - unfold secoes. by rewrite length_fmap, length_imap.
  - intros j ref Href. rewrite list_lookup_fmap in Href.
    destruct (ms !! j) as [s | ] eqn:Hs; [ | done]. injection Href as <-.
    destruct (Hslot j s Hs) as (ref & v & doc & -> & Hv & Hdoc & Hdic).
    cbn [fst snd]. rewrite Nat2Z.id. exists v, doc.
    split; [done | ]. split; [done | ].
    unfold secoes. rewrite list_lookup_imap, Hs. simpl.
    by rewrite Nat2Z.id, Hdic.
Qed.

End ConsultaExtras.

(** The theorem at an empty directory. *)
Lemma arquivos_ausentes_diretorio_vazio :
  exists erro,
    main Exemplos.repr_escalar Exemplos.fmt_fixo Exemplos.encode Exemplos.l2 Exemplos.desempate
      ["BuscaFaiss.py"; "icms"; "Legislacao sobre ICMS"] ∅
    = ([erro; MsgNaoCarregou], Saiu 1)
    /\ (erro = MsgErroAoCarregar \/ erro = MsgNaoEncontrados "icms").
Proof.
  apply (arquivos_ausentes Exemplos.repr_escalar Exemplos.fmt_fixo
           Exemplos.encode Exemplos.l2 Exemplos.desempate "BuscaFaiss.py" "icms"
           "Legislacao sobre ICMS" [] ∅).
  left. reflexivity.
Defined.

(** The theorem at an index of dimension 3 without vectors, with a
    metadata file that holds [null]. *)
Lemma busca_em_indice_vazio_null :
  buscar_faiss Exemplos.repr_escalar Exemplos.fmt_fixo Exemplos.encode
    Exemplos.l2 Exemplos.desempate "acucar" (Indice 3 []) JNull 5
  = Ok ([MsgBuscando 5; MsgBuscaConcluida 0], "", JNull).
Proof.
  apply (busca_em_indice_vazio Exemplos.repr_escalar Exemplos.fmt_fixo
           Exemplos.encode Exemplos.l2 Exemplos.desempate "acucar" (Indice 3 []) JNull 5).
  - reflexivity.
  - lia.
  - reflexivity.
Defined.

(** The theorem at the index of three vectors with the metadata of its
    first two. *)
Lemma metadados_mais_curtos_que_o_indice_icms :
  resultados_da_busca Exemplos.encode Exemplos.l2 Exemplos.desempate "acucar"
    Exemplos.indice_icms (JList (take 2 Exemplos.metadados_icms)) 5
  = Raise IndexError
  /\ buscar_faiss Exemplos.repr_escalar Exemplos.fmt_fixo Exemplos.encode
       Exemplos.l2 Exemplos.desempate "acucar" Exemplos.indice_icms
       (JList (take 2 Exemplos.metadados_icms)) 5
     = Raise IndexError.
Proof.
  apply (metadados_mais_curtos_que_o_indice Exemplos.repr_escalar
           Exemplos.fmt_fixo Exemplos.encode Exemplos.l2 Exemplos.desempate "acucar"
           Exemplos.indice_icms (take 2 Exemplos.metadados_icms) 5).
  - reflexivity.
  - reflexivity.
  - unfold ntotal. simpl. lia.
  - unfold ntotal. simpl. lia.
Defined.

(** The theorem at the index of three vectors with its metadata. *)
Lemma texto_da_busca_icms :
  exists (docs' : list json) (refs : list nat) (msgs : list mensagem)
         (secoes : list string),
    resultados_da_busca Exemplos.encode Exemplos.l2 Exemplos.desempate "acucar"
      Exemplos.indice_icms (JList Exemplos.metadados_icms) 2
    = Ok (JList docs', refs)
    /\ buscar_faiss Exemplos.repr_escalar Exemplos.fmt_fixo Exemplos.encode
         Exemplos.l2 Exemplos.desempate "acucar" Exemplos.indice_icms
         (JList Exemplos.metadados_icms) 2
       = Ok (msgs, foldr String.append "" secoes, JList docs')
    /\ length secoes = length refs
    /\ forall j ref,
         refs !! j = Some ref ->
         exists (v : list Q) (doc : pydict),
           vetores_de Exemplos.indice_icms !! ref = Some v
           /\ Exemplos.metadados_icms !! ref = Some (JDict doc)
           /\ secoes !! j
              = Some (bloco Exemplos.repr_escalar
                        Exemplos.fmt_fixo (j + 1)
                        (Exemplos.l2 (Exemplos.encode "acucar") v) doc).
Proof.
  apply (texto_da_busca Exemplos.repr_escalar Exemplos.fmt_fixo
           Exemplos.encode Exemplos.l2 Exemplos.desempate "acucar" Exemplos.indice_icms
           Exemplos.metadados_icms 2).
  - reflexivity.
  - lia.
  - unfold ntotal. simpl. lia.
  - reflexivity.
Defined.

(** A metadata entry without [conteudo] makes the formatting raise
    [KeyError], after the count of the search has been printed: the script
    ends with that exception and prints no result block. *)
Example excecao_ao_formatar :
  main Exemplos.repr_escalar Exemplos.fmt_fixo Exemplos.encode Exemplos.l2
    Exemplos.desempate ["BuscaFaiss.py"; "icms"; "acucar"]
    (<["faiss_index_icms_metadados.json" :=
         ArqJson (JList [JDict [("id", JInt 0);
                                ("path", JStr "https://sp/lei1")]])]>
       (<["faiss_index_icms.faiss" := ArqFaiss (Indice 3 [[4%Q; 0%Q; 1%Q]])]>
          ∅))
  = ([MsgCarregado "icms"; MsgBuscando 5; MsgBuscaConcluida 1],
     Excecao KeyError).
Proof. vm_compute. reflexivity. Qed.

End BuscaFaissExtras.

(* ===================================================================== *)
(** * Legislacao.py followed by BuscaFaiss.py                             *)
(* ===================================================================== *)

Module CadeiaExtras.
Import Py Disco.

(** A message that is none of the messages of a list. *)
Ltac nao_impressa H :=
  repeat (apply elem_of_cons in H as [H | H]; [discriminate H | ]);
  by apply elem_of_nil in H.

Section Cadeia.

Variable py_repr : json -> string.
Variable json_loads : string -> result json.
Variable encode : string -> list Q.
Variable portal : string -> Legislacao.resposta_http.
Variable gravacao_de : string -> Legislacao.gravacao.
Variable fmt_4f : Q -> string.
Variable l2 : list Q -> list Q -> Q.
Variable desempate : indice -> list Q -> nat -> Z -> Z.

(** The metadata dictionaries the builder writes are the ones the query
    relies on. *)
Lemma metadados_bem_formados (rs : list Legislacao.resultado) :
  forallb BuscaFaiss.bem_formado (map Legislacao.metadado_json rs) = true.
Proof.
  induction rs as [ | r rs IH]; [done | ]. simpl. exact IH.
Qed.

(** On well-formed metadata that cover the index, the query reports as many
    results as the smaller of [k] and the number of vectors. *)
Lemma buscar_faiss_contagem (query : string) (index : indice)
  (docs : list json) (k : nat) :
  length (encode query) = dimensao_de index ->
  0 < k ->
  ntotal index <= length docs ->
  forallb BuscaFaiss.bem_formado docs = true ->
  exists saida docs',
    BuscaFaiss.buscar_faiss py_repr fmt_4f encode l2 desempate query index (JList docs) k
    = Ok ([BuscaFaiss.MsgBuscando k;
           BuscaFaiss.MsgBuscaConcluida (min k (ntotal index))],
          saida, JList docs').
Proof.
  intros Hx Hk Hn Hb.
  destruct (BuscaFaissFacts.buscar_faiss_retorna py_repr fmt_4f encode l2 desempate
              query index docs k Hx Hk Hn Hb)
    as (docs' & refs & msgs & saida & Hr & Hbf).
  destruct (BuscaFaissFacts.consulta encode l2 desempate query index docs k Hx Hk Hn Hb)
    as (docs'' & Hr' & _).
  rewrite Hr in Hr'. injection Hr' as _ Hrefs.
  exists saida, docs'. rewrite Hbf. f_equal.
  unfold BuscaFaiss.buscar_faiss in Hbf. rewrite Hr in Hbf. cbn [bind] in Hbf.
  destruct (BuscaFaiss.formatar py_repr fmt_4f (JList docs') refs "")
    as [s | e]; [ | discriminate].
  cbn [bind] in Hbf. injection Hbf as <- <-.
  rewrite Hrefs, length_fmap, BuscaFaissFacts.length_melhores. reflexivity.
Qed.

(** X11.  What the builder saves, the query script can use.  Whenever a run
    of [Legislacao.py] for a keyword reports both the index file and the
    metadata file saved, and the embedding model gives vectors of one
    length, a following run of [BuscaFaiss.py] for the same keyword on the
    files left loads them, completes the search without an exception,
    reports the smaller of 5 and the number [n] of extracted rows as its
    number of results, prints the result block and ends with exit code 0. *)
Theorem indice_gravado_e_consultavel
  (script termo : string) (resto : list string)
  (script' query : string) (resto' : list string) (fs fs' : disco)
  (msgs : list Legislacao.mensagem) (fim : termino) :
  (forall a b, length (encode a) = length (encode b)) ->
  Legislacao.main py_repr json_loads encode portal gravacao_de
    (script :: termo :: resto) fs = (msgs, fs', fim) ->
  Legislacao.MsgIndiceSalvo (("faiss_index_" +:+ termo) +:+ ".faiss") ∈ msgs ->
  Legislacao.MsgMetadadosSalvos
    (("faiss_index_" +:+ termo) +:+ "_metadados.json") ∈ msgs ->
  exists n saida,
    0 < n
    /\ Legislacao.MsgExtracaoConcluida n ∈ msgs
    /\ BuscaFaiss.main py_repr fmt_4f encode l2 desempate
         (script' :: termo :: query :: resto') fs'
       = ([BuscaFaiss.MsgCarregado termo; BuscaFaiss.MsgBuscando 5;
           BuscaFaiss.MsgBuscaConcluida (min 5 n);
           BuscaFaiss.MsgResultados saida], Saiu 0).
Proof.
  intros Henc Hmain Hi Hm.
  unfold Legislacao.main, Legislacao.fazer_requisicao_fazenda_sp in Hmain.
  destruct (portal termo) as [status text | status | ].
  2:{ injection Hmain as <- _ _. nao_impressa Hi. }
  2:{ injection Hmain as <- _ _. nao_impressa Hi. }
  unfold Legislacao.desserializar_json_resistente in Hmain.
  destruct (json_loads (Legislacao.isolar text)) as [dados | e].
  2:{ destruct e; simpl in Hmain; injection Hmain as <- _ _; nao_impressa Hi. }
  destruct (truthy dados).
  2:{ injection Hmain as <- _ _. nao_impressa Hi. }
  unfold Legislacao.extrair_e_indexar in Hmain.
  destruct (Legislacao.extrair_resultados_recursivamente py_repr dados)
    as [rs | e].
  2:{ injection Hmain as <- _ _. nao_impressa Hi. }
  destruct rs as [ | r rs].
  { injection Hmain as <- _ _. nao_impressa Hi. }
  unfold Legislacao.processar_para_faiss,
    Legislacao.construir_e_salvar_indice_faiss, Legislacao.gravar in Hmain.
  cbn [Legislacao.vetores Legislacao.metadados] in Hmain.
  destruct (Legislacao.size _ =? 0)%nat.
  { injection Hmain as <- _ _. nao_impressa Hi. }
  destruct (gravacao_de (("faiss_index_" +:+ termo) +:+ ".faiss")).
  2:{ destruct (gravacao_de _); injection Hmain as <- _ _; nao_impressa Hi. }
  2:{ destruct (gravacao_de _); injection Hmain as <- _ _; nao_impressa Hi. }
  destruct (gravacao_de (("faiss_index_" +:+ termo) +:+ "_metadados.json")).
  2:{ injection Hmain as <- _ _. nao_impressa Hm. }
  2:{ injection Hmain as <- _ _. nao_impressa Hm. }
  injection Hmain as <- <- _.
  set (vs := map encode (map Legislacao.res_conteudo (r :: rs))).
  set (ms := map (fun item =>
                    Legislacao.Resultado (Legislacao.res_id item)
                      (Legislacao.res_path item)
                      (Legislacao.res_conteudo item)) (r :: rs)).
  destruct (buscar_faiss_contagem query
              (Indice (Legislacao.shape1 vs) vs)
              (map Legislacao.metadado_json ms) 5)
    as (saida & docs' & Hbf).
  { simpl. apply Henc. }
  { lia. }
  { unfold ntotal, vs, ms. simpl. rewrite !length_map. lia. }
  { apply metadados_bem_formados. }
  exists (length (r :: rs)), saida. split; [simpl; lia | ].
  split.
  { simpl. do 2 right. left. }
  unfold BuscaFaiss.main, BuscaFaiss.carregar_indice_e_metadados.
  rewrite <- !PyFacts.append_associativa.
  rewrite lookup_insert_ne, lookup_insert_eq, lookup_insert_eq.
  2:{ intros H. apply LegislacaoFacts.append_injetiva in H. discriminate H. }
  lazymatch goal with
  | |- context [BuscaFaiss.buscar_faiss _ _ _ _ _ _ ?ix ?md _] =>
      change ix with (Indice (Legislacao.shape1 vs) vs);
      change md with (JList (map Legislacao.metadado_json ms))
  end.
  rewrite Hbf.
  replace (ntotal (Indice (Legislacao.shape1 vs) vs)) with (length (r :: rs)).
  2:{ unfold ntotal, vs. simpl. by rewrite !length_map. }
  reflexivity.
Qed.

End Cadeia.

(** The theorem at the keyword "acucar", whose answer holds rows, on an
    empty directory where every write goes through. *)
Lemma indice_gravado_e_consultavel_acucar :
  exists n saida,
    0 < n
    /\ Legislacao.MsgExtracaoConcluida n
       ∈ (Legislacao.main Exemplos.repr_escalar Exemplos.json_loads
            Exemplos.encode Exemplos.portal Exemplos.grava_tudo
            ["Legislacao.py"; "acucar"] ∅).1.1
    /\ BuscaFaiss.main Exemplos.repr_escalar Exemplos.fmt_fixo
         Exemplos.encode Exemplos.l2 Exemplos.desempate
         ["BuscaFaiss.py"; "acucar"; "Nota fiscal de acucar"]
         (Legislacao.main Exemplos.repr_escalar Exemplos.json_loads
            Exemplos.encode Exemplos.portal Exemplos.grava_tudo
            ["Legislacao.py"; "acucar"] ∅).1.2
       = ([BuscaFaiss.MsgCarregado "acucar"; BuscaFaiss.MsgBuscando 5;
           BuscaFaiss.MsgBuscaConcluida (min 5 n);
           BuscaFaiss.MsgResultados saida], Saiu 0).
Proof.
  apply (indice_gravado_e_consultavel Exemplos.repr_escalar
           Exemplos.json_loads Exemplos.encode Exemplos.portal
           Exemplos.grava_tudo Exemplos.fmt_fixo Exemplos.l2
           Exemplos.desempate "Legislacao.py" "acucar" [] "BuscaFaiss.py"
           "Nota fiscal de acucar" [] ∅ _ _
           (Legislacao.main Exemplos.repr_escalar Exemplos.json_loads
              Exemplos.encode Exemplos.portal Exemplos.grava_tudo
              ["Legislacao.py"; "acucar"] ∅).2).
  - intros a b. reflexivity.
  - reflexivity.
  - vm_compute. repeat constructor.
  - vm_compute. repeat constructor.
Defined.

End CadeiaExtras.

(* ===================================================================== *)
(** * LLM.py: further properties of the driver                            *)
(* ===================================================================== *)

Module LLMExtras.
Import Py LLM LLMFacts Propriedades.

(** ** Substrings *)

Lemma prefix_append (a b : string) : String.prefix a (a +:+ b) = true.
Proof.
  induction a as [ | x a IH].
  - change ("" +:+ b) with b. by destruct b.
  - rewrite PyFacts.append_cons. simpl.
    destruct (ascii_dec x x); [exact IH | done].
Qed.

Lemma contains_prefixo (n s : string) :
  String.prefix n s = true -> contains n s = true.
Proof. intros H. destruct s; cbn [contains]; by rewrite H. Qed.

Lemma contains_depois (n a s : string) :
  contains n s = true -> contains n (a +:+ s) = true.
Proof.
  intros H. induction a as [ | x a IH]; [done | ].
  rewrite PyFacts.append_cons.
  change (contains n (String x (a +:+ s)))
    with (String.prefix n (String x (a +:+ s)) || contains n (a +:+ s)).
  rewrite IH. apply orb_true_r.
Qed.

Lemma contains_inicio (n b : string) : contains n (n +:+ b) = true.
Proof. apply contains_prefixo, prefix_append. Qed.

(** ** Positions in a path *)

Lemma rfind_from_app (c : ascii) (a b : string) (i last : Z) :
  rfind_from c (a +:+ b) i last
  = rfind_from c b (i + Z.of_nat (String.length a)) (rfind_from c a i last).
Proof.
  revert i last. induction a as [ | x a IH]; intros i last.
  - change ("" +:+ b) with b. simpl. by rewrite Z.add_0_r.
  - rewrite PyFacts.append_cons. simpl rfind_from. rewrite IH.
    f_equal. simpl String.length. lia.
Qed.

Lemma rfind_from_limites (c : ascii) (s : string) (i last : Z) :
  (last < i)%Z ->
  (last <= rfind_from c s i last < i + Z.of_nat (String.length s))%Z.
Proof.
  revert i last. induction s as [ | a s IH]; intros i last H; simpl; [lia | ].
  destruct (Ascii.eqb a c).
  - specialize (IH (i + 1)%Z i). lia.
  - specialize (IH (i + 1)%Z last). lia.
Qed.

Lemma substring_app_l (a b : string) :
  forall n m,
    n + m <= String.length a ->
    String.substring n m (a +:+ b) = String.substring n m a.
Proof.
  induction a as [ | x a IH]; intros n m H; simpl in H.
  - assert (n = 0) as -> by lia. assert (m = 0) as -> by lia.
    change ("" +:+ b) with b. by destruct b.
  - rewrite PyFacts.append_cons.
    destruct n as [ | n]; simpl.
    + destruct m as [ | m]; [done | ]. f_equal. apply IH. lia.
    + apply IH. lia.
Qed.

Lemma ocorre_get (c : ascii) (s : string) :
  forall n, String.get n s = Some c -> ocorre c s = true.
Proof.
  induction s as [ | a s IH]; intros n H; [done | ]. simpl.
  destruct n as [ | n]; simpl in H.
  - injection H as ->. by rewrite Ascii.eqb_refl.
  - rewrite (IH n H). apply orb_true_r.
Qed.

(** ** Traces *)

Lemma etapas_posteriores_app (a b : list evento) :
  etapas_posteriores (a ++ b) = etapas_posteriores a ++ etapas_posteriores b.
Proof. apply filter_app. Qed.

Section FluxoExtras.

Variable json_loads : string -> result json.
Variable cliente : bool.
Variable gemini : bool -> string -> resposta_gemini.
Variable ler_arquivo : string -> option string.
Variable subprocess_run : list string -> processo.
Variable sys_executable : string.
Variable escreve_pdf : string -> string -> bool.

Abbreviation main := (main json_loads cliente gemini ler_arquivo subprocess_run
                    sys_executable escreve_pdf).
Abbreviation extrair_termos_gemini := (extrair_termos_gemini json_loads cliente gemini).

(** X12.  An input file that is missing, unreadable or empty stops the
    driver with exit code 1 before any request to the model and before any
    script.  An empty file is first reported as read. *)
Theorem entrada_ausente_ou_vazia (script arquivo_xml : string)
  (resto : list string) :
  vazio (ler_arquivo arquivo_xml) = true ->
  main (script :: arquivo_xml :: resto)
  = ([Imprime (MsgArquivoDeEntrada arquivo_xml);
      Imprime match ler_arquivo arquivo_xml with
              | Some _ => MsgXmlLido
              | None => MsgXmlNaoLido
              end;
      Imprime (MsgInterrompido "leitura do XML")], Saiu 1).
Proof.
  intros H. unfold LLM.main, ler_conteudo_xml_bruto.
  destruct (ler_arquivo arquivo_xml) as [conteudo | ]; cbv zeta; rewrite H;
    reflexivity.
Qed.

(** ** The Term Extractor *)

(** Between the request and the last message the extractor only prints. *)
Lemma termos_da_resposta_so_imprime (resposta : resposta_gemini) :
  pedidos (termos_da_resposta json_loads resposta).1 = []
  /\ renderizacoes (termos_da_resposta json_loads resposta).1 = []
  /\ etapas_posteriores (termos_da_resposta json_loads resposta).1 = [].
Proof.
  unfold termos_da_resposta. repeat case_match; done.
Qed.

(** The three ways the extractor ends: without a client, with a response
    it cannot use, with the two terms. *)
Lemma extrair_termos_forma (conteudo : string) :
  (cliente = false
   /\ extrair_termos_gemini conteudo = ([Imprime MsgErroGemini], (None, None)))
  \/ exists m,
       cliente = true
       /\ pedidos m = [] /\ renderizacoes m = [] /\ etapas_posteriores m = []
       /\ ((exists e,
              termos_da_resposta json_loads
                (gemini true (prompt_termos conteudo))
              = (m, Raise e)
              /\ extrair_termos_gemini conteudo
                 = ([ChamaGemini true (prompt_termos conteudo)] ++ m
                      ++ [Imprime MsgErroGemini], (None, None)))
           \/ (exists c q,
                 termos_da_resposta json_loads
                   (gemini true (prompt_termos conteudo))
                 = (m, Ok (c, q))
                 /\ extrair_termos_gemini conteudo
                    = ([ChamaGemini true (prompt_termos conteudo)] ++ m
                         ++ [Imprime (MsgTermosExtraidos c q)],
                       (Some c, Some q)))).
Proof.
  unfold LLM.extrair_termos_gemini.
  destruct cliente; cbn [negb]; [right | by left].
  destruct (termos_da_resposta_so_imprime (gemini true (prompt_termos conteudo)))
    as (Hp & Hr & He).
  destruct (termos_da_resposta json_loads (gemini true (prompt_termos conteudo)))
    as [m [[c q] | e]]; exists m; simpl in Hp, Hr, He;
    (split; [done | ]; split; [done | ]; split; [done | ]; split; [done | ]).
  - right. by exists c, q.
  - left. by exists e.
Qed.

(** X13.  The Term Extractor sends at most one request.  When the client
    can be created it sends exactly one, whatever the model answers, in
    JSON mode, and the whole of the document it was given stands in that
    request; when the client cannot be created it sends none, prints the
    error and returns no term. *)
Theorem pedido_de_termos (conteudo_xml_bruto : string) :
  pedidos (extrair_termos_gemini conteudo_xml_bruto).1
  = (if cliente then [(true, prompt_termos conteudo_xml_bruto)] else [])
  /\ contains conteudo_xml_bruto (prompt_termos conteudo_xml_bruto) = true
  /\ (cliente = false ->
      extrair_termos_gemini conteudo_xml_bruto
      = ([Imprime MsgErroGemini], (None, None))).
Proof.
  split; [ | split].
  - destruct (extrair_termos_forma conteudo_xml_bruto)
      as [[-> ->] | (m & -> & Hp & _ & _ & [(e & _ & ->) | (c & q & _ & ->)])];
      cbn [fst]; rewrite ?pedidos_app, ?Hp; reflexivity.
  - unfold prompt_termos.
    repeat first [apply contains_inicio | apply contains_depois].
  - intros Hc.
    destruct (extrair_termos_forma conteudo_xml_bruto)
      as [[_ H] | (m & Hc' & _)]; [exact H | congruence].
Qed.

(** X14.  The Term Extractor returns both terms or none, and never an empty
    term: either [(None, None)], or the two fields of the two-field
    structure the response decodes to, trimmed, both non-empty. *)
Theorem termos_ambos_ou_nenhum (conteudo_xml_bruto : string) :
  (extrair_termos_gemini conteudo_xml_bruto).2 = (None, None)
  \/ exists text termos curto completo,
       gemini true (prompt_termos conteudo_xml_bruto) = GeminiTexto (Some text)
       /\ json_loads text = Ok termos
       /\ dois_campos termos = Some (curto, completo)
       /\ (extrair_termos_gemini conteudo_xml_bruto).2
          = (Some (strip curto), Some (strip completo))
       /\ strip curto <> "" /\ strip completo <> "".
Proof.
  destruct (extrair_termos_forma conteudo_xml_bruto)
    as [[_ ->] | (m & _ & _ & _ & _ & [(e & _ & ->) | (c & q & Ht & ->)])];
    [by left | by left | ].
  right. apply termos_da_resposta_ok in Ht
    as (text & termos & curto & completo & Hg & Hl & Hd & -> & -> & Hc & Hq & _).
  by exists text, termos, curto, completo.
Qed.

(** ** After the terms *)

(** With a document read and both terms extracted, the client exists, and
    the driver pauses and goes on to the scripts; nothing before the pause
    belongs to a later stage. *)
Lemma main_apos_os_termos (script arquivo_xml : string) (resto : list string)
  (conteudo c q : string) :
  ler_arquivo arquivo_xml = Some conteudo ->
  conteudo <> "" ->
  (extrair_termos_gemini conteudo).2 = (Some c, Some q) ->
  cliente = true
  /\ exists t0,
       etapas_posteriores t0 = [] /\ renderizacoes t0 = []
       /\ main (script :: arquivo_xml :: resto)
          = (t0 ++ [Dorme 3]
               ++ (buscar_e_analisar cliente gemini subprocess_run
                     sys_executable escreve_pdf arquivo_xml conteudo c q).1,
             (buscar_e_analisar cliente gemini subprocess_run sys_executable
                escreve_pdf arquivo_xml conteudo c q).2).
Proof.
  intros Hler Hne Hext.
  destruct (extrair_termos_forma conteudo)
    as [[_ Hx] | (m & Hcl & _ & Hr & He
                  & [(e & _ & Hx) | (c' & q' & Ht & Hx)])];
    rewrite Hx in Hext; [discriminate | discriminate | ].
  injection Hext as -> ->. split; [exact Hcl | ].
  apply termos_da_resposta_ok in Ht
    as (_ & _ & _ & _ & _ & _ & _ & _ & _ & Hc & Hq & _).
  exists ([Imprime (MsgArquivoDeEntrada arquivo_xml); Imprime MsgXmlLido]
            ++ [ChamaGemini true (prompt_termos conteudo)] ++ m
            ++ [Imprime (MsgTermosExtraidos c q)]).
  split; [ | split].
  - rewrite !etapas_posteriores_app, He. reflexivity.
  - rewrite !renderizacoes_app, Hr. reflexivity.
  - unfold LLM.main, ler_conteudo_xml_bruto. rewrite Hler. cbv zeta.
    apply String.eqb_neq in Hne, Hc, Hq. cbn [vazio from_option id].
    rewrite Hne, Hx. cbn [vazio from_option id]. rewrite Hc, Hq. cbn [orb].
    destruct (buscar_e_analisar _ _ _ _ _ _ _ _ _) as [t fim]. cbn [fst snd].
    by rewrite <- !app_assoc.
Qed.

(** X15.  When [Legislacao.py] does not complete, the driver goes no
    further: after the pause it has called [subprocess.run] for that one
    command and nothing else, so [BuscaFaiss.py] is not run, no analysis is
    requested and nothing is rendered.  When the command ended with a
    non-zero exit code or could not be found, the driver prints the
    interruption and ends with exit code 1; when [subprocess.run] raised
    another exception, nothing handles it and the driver ends with that
    exception. *)
Theorem falha_do_corpus (script arquivo_xml : string) (resto : list string)
  (conteudo c q : string) :
  ler_arquivo arquivo_xml = Some conteudo ->
  conteudo <> "" ->
  (extrair_termos_gemini conteudo).2 = (Some c, Some q) ->
  (forall stdout,
      subprocess_run [sys_executable; "Legislacao.py"; c] <> Concluido stdout) ->
  exists t,
    main (script :: arquivo_xml :: resto)
    = (t, match subprocess_run [sys_executable; "Legislacao.py"; c] with
          | OutraExcecao e => Excecao e
          | _ => Saiu 1
          end)
    /\ etapas_posteriores t
       = [Dorme 3; Executa [sys_executable; "Legislacao.py"; c]]
    /\ ((forall e,
           subprocess_run [sys_executable; "Legislacao.py"; c]
           <> OutraExcecao e) ->
        last t = Some (Imprime (MsgInterrompido "Geração do Corpus Jurídico"))).
Proof.
  intros Hler Hne Hext Hleg.
  destruct (main_apos_os_termos script arquivo_xml resto conteudo c q
              Hler Hne Hext) as (_ & t0 & H0 & _ & ->).
  unfold buscar_e_analisar, executar_script_simples.
  destruct (subprocess_run [sys_executable; "Legislacao.py"; c])
    as [stdout | codigo stderr | | e] eqn:E; [by destruct (Hleg stdout) | | | ];
    cbn [fst snd]; eexists; (split; [reflexivity | ]);
    rewrite !etapas_posteriores_app, H0; (split; [reflexivity | ]).
  - intros _. by rewrite !app_assoc, last_snoc.
  - intros _. by rewrite !app_assoc, last_snoc.
  - intros He. by destruct (He e).
Qed.

(** The error text returned for a failed search carries the marker the
    driver looks for. *)
Lemma erro_na_busca_marcado (stderr : string) :
  contains "ERRO NA BUSCA FAISS" ("ERRO NA BUSCA FAISS:" +:+ nl +:+ stderr)
  = true.
Proof.
  apply contains_prefixo.
  change ("ERRO NA BUSCA FAISS:" +:+ nl +:+ stderr)
    with ("ERRO NA BUSCA FAISS" +:+ (":" +:+ nl +:+ stderr)).
  apply prefix_append.
Qed.

(** X16.  Unless [BuscaFaiss.py] completes with an output that does not
    contain the words "ERRO NA BUSCA FAISS", the driver goes no further
    than the two scripts: no analysis is requested and nothing is rendered.
    It prints the interruption and ends with exit code 1 when the command
    ended with a non-zero exit code, could not be found, or completed and
    printed these words; when [subprocess.run] raised another exception,
    nothing handles it and the driver ends with that exception. *)
Theorem falha_da_busca (script arquivo_xml : string) (resto : list string)
  (conteudo c q saida_legislacao : string) :
  ler_arquivo arquivo_xml = Some conteudo ->
  conteudo <> "" ->
  (extrair_termos_gemini conteudo).2 = (Some c, Some q) ->
  subprocess_run [sys_executable; "Legislacao.py"; c]
  = Concluido saida_legislacao ->
  (forall stdout,
      subprocess_run [sys_executable; "BuscaFaiss.py"; c; q] = Concluido stdout ->
      contains "ERRO NA BUSCA FAISS" stdout = true) ->
  exists t,
    main (script :: arquivo_xml :: resto)
    = (t, match subprocess_run [sys_executable; "BuscaFaiss.py"; c; q] with
          | OutraExcecao e => Excecao e
          | _ => Saiu 1
          end)
    /\ etapas_posteriores t
       = [Dorme 3; Executa [sys_executable; "Legislacao.py"; c];
          Executa [sys_executable; "BuscaFaiss.py"; c; q]]
    /\ ((forall e,
           subprocess_run [sys_executable; "BuscaFaiss.py"; c; q]
           <> OutraExcecao e) ->
        last t
        = Some (Imprime (MsgInterrompido "Busca de Similaridade Vetorial"))).
Proof.
  intros Hler Hne Hext Hleg Hbusca.
  destruct (main_apos_os_termos script arquivo_xml resto conteudo c q
              Hler Hne Hext) as (_ & t0 & H0 & _ & ->).
  unfold buscar_e_analisar, executar_script_simples, executar_busca_faiss.
  rewrite Hleg.
  destruct (subprocess_run [sys_executable; "BuscaFaiss.py"; c; q])
    as [stdout | codigo stderr | | e] eqn:E.
  - rewrite (Hbusca stdout eq_refl). cbn [fst snd].
    eexists. split; [reflexivity | ].
    rewrite !etapas_posteriores_app, H0. split.
    + by destruct (contains "Nenhum resultado relevante encontrado" stdout).
    + intros _. by rewrite !app_assoc, last_snoc.
  - rewrite erro_na_busca_marcado. cbn [fst snd].
    eexists. split; [reflexivity | ].
    rewrite !etapas_posteriores_app, H0. split; [reflexivity | ].
    intros _. by rewrite !app_assoc, last_snoc.
  - cbn [fst snd]. eexists. split; [reflexivity | ].
    rewrite !etapas_posteriores_app, H0. split; [reflexivity | ].
    intros _. by rewrite !app_assoc, last_snoc.
  - cbn [fst snd]. eexists. split; [reflexivity | ].
    rewrite !etapas_posteriores_app, H0. split; [reflexivity | ].
    intros He. by destruct (He e).
Qed.

(** The analysis and the rendering, with a client: one request, at most
    one rendering, and the closing banner whatever they came to. *)
Lemma analisar_e_gerar_forma (arquivo_xml conteudo resultados : string) :
  cliente = true ->
  let t := analisar_e_gerar cliente gemini escreve_pdf arquivo_xml conteudo
             resultados in
  etapas_posteriores t
  = ChamaGemini false (prompt_analise conteudo resultados)
      :: como_eventos (renderizacoes t)
  /\ length (renderizacoes t) <= 1
  /\ last t = Some (Imprime MsgConcluido).
Proof.
  intros ->. cbv zeta. unfold analisar_e_gerar, analisar_resultados_gemini.
  cbn [negb].
  split; [ | split].
  - destruct (gemini false _) as [ | [text | ]].
    + rewrite analise_de_erro_nao_renderizada, andb_false_r. reflexivity.
    + unfold gerar_pdf. destruct (String.eqb text ""); [reflexivity | ].
      destruct (contains "Erro de Análise" text); [reflexivity | ].
      destruct (escreve_pdf _ text); reflexivity.
    + rewrite analise_de_erro_nao_renderizada, andb_false_r. reflexivity.
  - destruct (gemini false _) as [ | [text | ]].
    + rewrite analise_de_erro_nao_renderizada, andb_false_r. simpl. lia.
    + unfold gerar_pdf. destruct (String.eqb text ""); [simpl; lia | ].
      destruct (contains "Erro de Análise" text); [simpl; lia | ].
      destruct (escreve_pdf _ text); simpl; lia.
    + rewrite analise_de_erro_nao_renderizada, andb_false_r. simpl. lia.
  - destruct (gemini false _) as [ | [text | ]]; cbv zeta;
      by rewrite !app_assoc, last_snoc.
Qed.

(** X17.  When both scripts complete and the output of [BuscaFaiss.py] is
    free of the error marker, the driver ends with exit code 0 and the
    closing banner whatever the analysis and the rendering came to.  After
    the terms it pauses, runs [Legislacao.py] on the short term, runs
    [BuscaFaiss.py] on both terms, sends one analysis request, and renders
    at most one PDF, in this order. *)
Theorem fluxo_completo (script arquivo_xml : string) (resto : list string)
  (conteudo c q saida_legislacao resultados_busca : string) :
  ler_arquivo arquivo_xml = Some conteudo ->
  conteudo <> "" ->
  (extrair_termos_gemini conteudo).2 = (Some c, Some q) ->
  subprocess_run [sys_executable; "Legislacao.py"; c]
  = Concluido saida_legislacao ->
  subprocess_run [sys_executable; "BuscaFaiss.py"; c; q]
  = Concluido resultados_busca ->
  contains "ERRO NA BUSCA FAISS" resultados_busca = false ->
  exists t,
    main (script :: arquivo_xml :: resto) = (t, Saiu 0)
    /\ etapas_posteriores t
       = [Dorme 3; Executa [sys_executable; "Legislacao.py"; c];
          Executa [sys_executable; "BuscaFaiss.py"; c; q];
          ChamaGemini false (prompt_analise conteudo resultados_busca)]
         ++ como_eventos (renderizacoes t)
    /\ length (renderizacoes t) <= 1
    /\ last t = Some (Imprime MsgConcluido).
Proof.
  intros Hler Hne Hext Hleg Hbusca Hmarca.
  destruct (main_apos_os_termos script arquivo_xml resto conteudo c q
              Hler Hne Hext) as (Hcl & t0 & H0 & Hr0 & ->).
  unfold buscar_e_analisar, executar_script_simples, executar_busca_faiss.
  rewrite Hleg, Hbusca, Hmarca. cbn [fst snd].
  destruct (analisar_e_gerar_forma arquivo_xml conteudo resultados_busca Hcl)
    as (He & Hn & Hl).
  eexists. split; [reflexivity | ].
  assert (Hr : forall aviso : list evento,
             renderizacoes
               (t0 ++ [Dorme 3]
                  ++ [Executa [sys_executable; "Legislacao.py"; c];
                      Imprime (MsgScriptConcluido "Legislacao.py")]
                  ++ ([Executa [sys_executable; "BuscaFaiss.py"; c; q]]
                        ++ (if contains "Nenhum resultado relevante encontrado"
                                 resultados_busca
                            then [Imprime MsgBuscaLimitada] else [])
                        ++ [Imprime (MsgScriptConcluido "BuscaFaiss.py")])
                  ++ analisar_e_gerar cliente gemini escreve_pdf arquivo_xml conteudo
                       resultados_busca)
             = renderizacoes
                 (analisar_e_gerar cliente gemini escreve_pdf arquivo_xml conteudo
                    resultados_busca)).
  { intros _. rewrite !renderizacoes_app, Hr0.
    by destruct (contains "Nenhum resultado relevante encontrado"
                   resultados_busca). }
  rewrite (Hr []). split; [ | split; [exact Hn | ]].
  - rewrite !etapas_posteriores_app, H0, He.
    by destruct (contains "Nenhum resultado relevante encontrado"
                   resultados_busca).
  - rewrite !last_app, Hl. reflexivity.
Qed.

(** ** The name of the PDF *)

(** X18.  For an input name of the form [raiz.ext], where the extension
    has no dot and no slash and the last component of [raiz] has a
    character that is not a dot, the PDF is written beside the input under
    the name [raiz_analise.pdf]: the extension is replaced, the directory
    is kept. *)
Theorem pdf_ao_lado_da_entrada (raiz ext conteudo_markdown : string) :
  so_pontos (componente_final raiz) = false ->
  ocorre "." ext = false ->
  ocorre "/" ext = false ->
  splitext_raiz (raiz +:+ "." +:+ ext) = raiz
  /\ renderizacoes
       (gerar_pdf escreve_pdf conteudo_markdown (raiz +:+ "." +:+ ext)).1
     = [(raiz +:+ "_analise.pdf", conteudo_markdown,
         escreve_pdf (raiz +:+ "_analise.pdf") conteudo_markdown)].
Proof.
  intros Hbase Hdot Hsep.
  assert (H : splitext_raiz (raiz +:+ "." +:+ ext) = raiz).
  { change ("." +:+ ext) with (String "." ext).
    assert (H1 : rfind "." (raiz +:+ String "." ext)
                 = Z.of_nat (String.length raiz)).
    { unfold rfind. rewrite LegislacaoExtras.rfind_from_antes by done. lia. }
    assert (H2 : rfind "/" (raiz +:+ String "." ext) = rfind "/" raiz).
    { unfold rfind. rewrite rfind_from_app.
      apply LegislacaoFacts.rfind_from_ausente. simpl. exact Hsep. }
    pose proof (rfind_from_limites "/" raiz 0 (-1) ltac:(lia)) as H3.
    fold (rfind "/" raiz) in H3.
    unfold splitext_raiz. rewrite H1, H2.
    destruct (Z.ltb_spec (rfind "/" raiz) (Z.of_nat (String.length raiz)))
      as [_ | ]; [ | lia].
    replace (slice (raiz +:+ String "." ext) (rfind "/" raiz + 1)
               (Z.of_nat (String.length raiz)))
      with (componente_final raiz).
    2:{ unfold componente_final, slice. symmetry. apply substring_app_l. lia. }
    rewrite Hbase. cbn [negb andb]. unfold slice.
    rewrite Nat2Z.id. change (Z.to_nat 0) with 0. rewrite Nat.sub_0_r.
    apply LegislacaoExtras.substring_inicio. }
  split; [exact H | ]. unfold gerar_pdf. rewrite H.
  by destruct (escreve_pdf _ conteudo_markdown).
Qed.

(** X19.  An input name whose last component has no dot is kept whole,
    dots in its directories included: the PDF is written under the name
    followed by [_analise.pdf]. *)
Theorem pdf_de_nome_sem_extensao (nome conteudo_markdown : string) :
  ocorre "." (componente_final nome) = false ->
  splitext_raiz nome = nome
  /\ renderizacoes (gerar_pdf escreve_pdf conteudo_markdown nome).1
     = [(nome +:+ "_analise.pdf", conteudo_markdown,
         escreve_pdf (nome +:+ "_analise.pdf") conteudo_markdown)].
Proof.
  intros Hbase.
  assert (H : splitext_raiz nome = nome).
  { unfold splitext_raiz.
    destruct (Z.ltb_spec (rfind "/" nome) (rfind "." nome)) as [Hlt | ];
      [exfalso | done].
    pose proof (rfind_from_limites "/" nome 0 (-1) ltac:(lia)) as H1.
    fold (rfind "/" nome) in H1.
    pose proof (rfind_from_limites "." nome 0 (-1) ltac:(lia)) as H2.
    fold (rfind "." nome) in H2.
    destruct (ocorre "." nome) eqn:Ho.
    - destruct (LegislacaoFacts.rfind_from_ultima "." nome 0 (-1) Ho)
        as (n & Hn & Hget & _).
      fold (rfind "." nome) in Hn.
      assert (Hc : String.get (n - Z.to_nat (rfind "/" nome + 1))
                     (componente_final nome) = Some "."%char).
      { unfold componente_final, slice. rewrite substring_correct1 by lia.
        rewrite <- Hget. f_equal. lia. }
      apply ocorre_get in Hc. congruence.
    - unfold rfind in Hlt at 2.
      rewrite LegislacaoFacts.rfind_from_ausente in Hlt by done. lia. }
  split; [exact H | ]. unfold gerar_pdf. rewrite H.
  by destruct (escreve_pdf _ conteudo_markdown).
Qed.

End FluxoExtras.

(** The theorem at a name no file has. *)
Lemma entrada_ausente_ou_vazia_sem_arquivo :
  main Exemplos.json_loads true Exemplos.gemini_acucar Exemplos.ler_nota
    Exemplos.scripts_ok "python3" Exemplos.pdf_ok ["LLM.py"; "outra.xml"]
  = ([Imprime (MsgArquivoDeEntrada "outra.xml");
      Imprime match Exemplos.ler_nota "outra.xml" with
              | Some _ => MsgXmlLido
              | None => MsgXmlNaoLido
              end;
      Imprime (MsgInterrompido "leitura do XML")], Saiu 1).
Proof.
  apply (entrada_ausente_ou_vazia Exemplos.json_loads true Exemplos.gemini_acucar
           Exemplos.ler_nota Exemplos.scripts_ok "python3" Exemplos.pdf_ok
           "LLM.py" "outra.xml" []).
  reflexivity.
Defined.

(** The theorem at the sugar invoice when [Legislacao.py] ends with an
    error. *)
Lemma falha_do_corpus_acucar :
  exists t,
    main Exemplos.json_loads true Exemplos.gemini_acucar Exemplos.ler_nota
      Exemplos.scripts_sem_corpus "python3" Exemplos.pdf_ok
      ["LLM.py"; "nota.xml"]
    = (t, match Exemplos.scripts_sem_corpus
                  ["python3"; "Legislacao.py"; "acucar"] with
          | OutraExcecao e => Excecao e
          | _ => Saiu 1
          end)
    /\ etapas_posteriores t
       = [Dorme 3; Executa ["python3"; "Legislacao.py"; "acucar"]]
    /\ ((forall e,
           Exemplos.scripts_sem_corpus ["python3"; "Legislacao.py"; "acucar"]
           <> OutraExcecao e) ->
        last t = Some (Imprime (MsgInterrompido "Geração do Corpus Jurídico"))).
Proof.
  apply (falha_do_corpus Exemplos.json_loads true Exemplos.gemini_acucar
           Exemplos.ler_nota Exemplos.scripts_sem_corpus "python3"
           Exemplos.pdf_ok "LLM.py" "nota.xml" [] Exemplos.nota_acucar
           "acucar" "Legislacao sobre ICMS na venda de acucar").
  - reflexivity.
  - discriminate.
  - vm_compute. reflexivity.
  - intros stdout. discriminate.
Defined.

(** The theorem at the sugar invoice when [BuscaFaiss.py] ends with an
    error. *)
Lemma falha_da_busca_acucar :
  exists t,
    main Exemplos.json_loads true Exemplos.gemini_acucar Exemplos.ler_nota
      Exemplos.scripts_sem_busca "python3" Exemplos.pdf_ok
      ["LLM.py"; "nota.xml"]
    = (t, match Exemplos.scripts_sem_busca
                  ["python3"; "BuscaFaiss.py"; "acucar";
                   "Legislacao sobre ICMS na venda de acucar"] with
          | OutraExcecao e => Excecao e
          | _ => Saiu 1
          end)
    /\ etapas_posteriores t
       = [Dorme 3; Executa ["python3"; "Legislacao.py"; "acucar"];
          Executa ["python3"; "BuscaFaiss.py"; "acucar";
                   "Legislacao sobre ICMS na venda de acucar"]]
    /\ ((forall e,
           Exemplos.scripts_sem_busca
             ["python3"; "BuscaFaiss.py"; "acucar";
              "Legislacao sobre ICMS na venda de acucar"]
           <> OutraExcecao e) ->
        last t
        = Some (Imprime (MsgInterrompido "Busca de Similaridade Vetorial"))).
Proof.
  apply (falha_da_busca Exemplos.json_loads true Exemplos.gemini_acucar
           Exemplos.ler_nota Exemplos.scripts_sem_busca "python3"
           Exemplos.pdf_ok "LLM.py" "nota.xml" [] Exemplos.nota_acucar
           "acucar" "Legislacao sobre ICMS na venda de acucar" "ok").
  - reflexivity.
  - discriminate.
  - vm_compute. reflexivity.
  - reflexivity.
  - intros stdout H. discriminate H.
Defined.

(** The theorem at the sugar invoice when both scripts complete. *)
Lemma fluxo_completo_acucar :
  exists t,
    main Exemplos.json_loads true Exemplos.gemini_acucar Exemplos.ler_nota
      Exemplos.scripts_ok "python3" Exemplos.pdf_ok
      ["LLM.py"; "nota.xml"] = (t, Saiu 0)
    /\ etapas_posteriores t
       = [Dorme 3; Executa ["python3"; "Legislacao.py"; "acucar"];
          Executa ["python3"; "BuscaFaiss.py"; "acucar";
                   "Legislacao sobre ICMS na venda de acucar"];
          ChamaGemini false
            (prompt_analise Exemplos.nota_acucar Exemplos.trechos_acucar)]
         ++ como_eventos (renderizacoes t)
    /\ length (renderizacoes t) <= 1
    /\ last t = Some (Imprime MsgConcluido).
Proof.
  apply (fluxo_completo Exemplos.json_loads true Exemplos.gemini_acucar
           Exemplos.ler_nota Exemplos.scripts_ok "python3"
           Exemplos.pdf_ok "LLM.py" "nota.xml" [] Exemplos.nota_acucar
           "acucar" "Legislacao sobre ICMS na venda de acucar" "ok"
           Exemplos.trechos_acucar).
  - reflexivity.
  - discriminate.
  - vm_compute. reflexivity.
  - reflexivity.
  - reflexivity.
  - vm_compute. reflexivity.
Defined.

(** The theorem at an invoice in a directory. *)
Lemma pdf_ao_lado_da_entrada_notas :
  splitext_raiz ("notas/nf1" +:+ "." +:+ "xml") = "notas/nf1"
  /\ renderizacoes
       (gerar_pdf Exemplos.pdf_ok Exemplos.analise_acucar
          ("notas/nf1" +:+ "." +:+ "xml")).1
     = [("notas/nf1" +:+ "_analise.pdf", Exemplos.analise_acucar,
         Exemplos.pdf_ok ("notas/nf1" +:+ "_analise.pdf")
           Exemplos.analise_acucar)].
Proof.
  apply (pdf_ao_lado_da_entrada Exemplos.pdf_ok "notas/nf1" "xml"
           Exemplos.analise_acucar); reflexivity.
Defined.

(** The theorem at a name without extension in a directory whose name has
    a dot. *)
Lemma pdf_de_nome_sem_extensao_notas :
  splitext_raiz "notas.v2/nf1" = "notas.v2/nf1"
  /\ renderizacoes
       (gerar_pdf Exemplos.pdf_ok Exemplos.analise_acucar "notas.v2/nf1").1
     = [("notas.v2/nf1" +:+ "_analise.pdf", Exemplos.analise_acucar,
         Exemplos.pdf_ok ("notas.v2/nf1" +:+ "_analise.pdf")
           Exemplos.analise_acucar)].
Proof.
  apply (pdf_de_nome_sem_extensao Exemplos.pdf_ok "notas.v2/nf1"
           Exemplos.analise_acucar); reflexivity.
Defined.

End LLMExtras.
